(** * Legal document enhancement: extraction processors and semantic chunker

    A shallow embedding of [legal_document_enhancement/chunker.py],
    [archive_processor.py], [email_processor.py] and the batch entry point of
    [document_processor.py], with the properties of the ingestion and
    chunking pipeline stated and proved (or refuted) over it.

    Conventions.
    - A Python [str] is a list of Unicode code points ([list N]); [len] is
      [length].  A Python [bytes] is a [list byte].
    - A Python [dict] with string keys is a [gmap str Value].
    - Code that may raise returns a [result]: [Ok v] or [Raise e].
    - External collaborators (the embedding model, the generic splitter, the
      archive and mail codecs, the file system, the clock) are fields of the
      records that stand for [self] and for the process environment. *)

From Stdlib Require Import ZArith NArith QArith List String Ascii Sorted Lia.
From Stdlib.Strings Require Import Byte.
From stdpp Require Import base option list countable gmap.

Local Open Scope Z_scope.

(* ===================================================================== *)
(** * Python strings                                                      *)
(* ===================================================================== *)

Module Py.

(** A code point, and a Python [str]. *)
Definition char : Type := N.
Definition str : Type := list N.
Definition bytes : Type := list byte.

(** A literal: every character of the Rocq string is taken as the code point
    of the same number (used for ASCII literals of the source only). *)
Fixpoint py (s : string) : str :=
  match s with
  | EmptyString => []
  | String a rest => N_of_ascii a :: py rest
  end.

(** [len(s)] as a Python [int]. *)
Definition len {A} (l : list A) : Z := Z.of_nat (length l).

Definition str_eqb (a b : str) : bool := bool_decide (a = b).

(** [sep.join(parts)] *)
Fixpoint join (sep : str) (parts : list str) : str :=
  match parts with
  | [] => []
  | [p] => p
  | p :: rest => p ++ sep ++ join sep rest
  end.

(** [s.startswith(p)] *)
Fixpoint startswith (s p : str) : bool :=
  match p, s with
  | [], _ => true
  | _ :: _, [] => false
  | b :: p', a :: s' => N.eqb a b && startswith s' p'
  end.

(** [s.endswith(p)] *)
Definition endswith (s p : str) : bool := startswith (rev s) (rev p).

(** [p in s] for strings: [p] occurs as a contiguous substring of [s]. *)
Fixpoint contains (s p : str) : bool :=
  startswith s p ||
  match s with
  | [] => false
  | _ :: s' => contains s' p
  end.

(** [str.isspace] on one code point: the Unicode white space characters
    (bidirectional type WS, B or S, or category Zs). *)
Definition isspace (c : char) : bool :=
  ((9 <=? c) && (c <=? 13) || (28 <=? c) && (c <=? 32)
   || (c =? 133) || (c =? 160) || (c =? 5760)
   || (8192 <=? c) && (c <=? 8202)
   || (c =? 8232) || (c =? 8233) || (c =? 8239) || (c =? 8287)
   || (c =? 12288))%N.

Fixpoint lstrip (s : str) : str :=
  match s with
  | [] => []
  | c :: rest => if isspace c then lstrip rest else s
  end.

Definition rstrip (s : str) : str := rev (lstrip (rev s)).

(** [s.strip()] *)
Definition strip (s : str) : str := rstrip (lstrip s).

(** The characters of a decimal number. *)
Fixpoint digits (d : Decimal.uint) : str :=
  match d with
  | Decimal.Nil => []
  | Decimal.D0 d => 48%N :: digits d
  | Decimal.D1 d => 49%N :: digits d
  | Decimal.D2 d => 50%N :: digits d
  | Decimal.D3 d => 51%N :: digits d
  | Decimal.D4 d => 52%N :: digits d
  | Decimal.D5 d => 53%N :: digits d
  | Decimal.D6 d => 54%N :: digits d
  | Decimal.D7 d => 55%N :: digits d
  | Decimal.D8 d => 56%N :: digits d
  | Decimal.D9 d => 57%N :: digits d
  end.

(** [str(n)] for a non-negative [int]. *)
Definition str_of_N (n : N) : str := digits (N.to_uint n).

(** [c * n]: a character repeated. *)
Definition repeat_char (c : char) (n : nat) : str := replicate n c.

End Py.
Import Py.

(* ===================================================================== *)
(** * Values, exceptions and results                                      *)
(* ===================================================================== *)

(** The values stored in metadata dictionaries. *)
Local Unset Elimination Schemes.
Inductive Value : Type :=
  | VNone
  | VBool (b : bool)
  | VInt (z : Z)
  | VFloat (q : Q)
  | VStr (s : str)
  | VList (l : list Value).
Local Set Elimination Schemes.

(** A Python exception: its class and [str(e)]. *)
Inductive ExcType : Type :=
  | FileNotFoundError
  | ValueError
  | UnicodeDecodeError
  | AttributeError
  | KeyError
  | IndexError
  | OSError
  | RuntimeError.

Record Exception : Type := mkException { exc_type : ExcType; exc_str : str }.

(** The outcome of code that may raise. *)
Inductive result (A : Type) : Type :=
  | Ok (a : A)
  | Raise (e : Exception).
Arguments Ok {A} a.
Arguments Raise {A} e.

Definition bind {A B} (c : result A) (k : A -> result B) : result B :=
  match c with
  | Ok a => k a
  | Raise e => Raise e
  end.

Notation "'let*' x ':=' c 'in' k" := (bind c (fun x => k))
  (at level 10, x name, c at level 100, k at level 200, only parsing).

(** [try: body  except Exception as e: handler e] *)
Definition try_except {A} (body : result A) (handler : Exception -> result A) : result A :=
  match body with
  | Ok a => Ok a
  | Raise e => handler e
  end.

Definition is_ok {A} (r : result A) : bool :=
  match r with Ok _ => true | Raise _ => false end.

(* ===================================================================== *)
(** * UTF-8 decoding                                                      *)
(* ===================================================================== *)

Module Utf8.

Local Open Scope N_scope.

Inductive item : Type :=
  | Decoded (c : char)
  | Invalid.

Definition is_cont (b : N) : bool := (0x80 <=? b) && (b <=? 0xBF).

(** Range of the second byte allowed after a three-byte lead. *)
Definition second_ok3 (b0 b1 : N) : bool :=
  if b0 =? 0xE0 then (0xA0 <=? b1) && (b1 <=? 0xBF)
  else if b0 =? 0xED then (0x80 <=? b1) && (b1 <=? 0x9F)
  else is_cont b1.

(** Range of the second byte allowed after a four-byte lead. *)
Definition second_ok4 (b0 b1 : N) : bool :=
  if b0 =? 0xF0 then (0x90 <=? b1) && (b1 <=? 0xBF)
  else if b0 =? 0xF4 then (0x80 <=? b1) && (b1 <=? 0x8F)
  else is_cont b1.

Definition cp2 (b0 b1 : N) : N :=
  N.lor (N.shiftl (N.land b0 0x1F) 6) (N.land b1 0x3F).
Definition cp3 (b0 b1 b2 : N) : N :=
  N.lor (N.shiftl (N.land b0 0x0F) 12)
        (N.lor (N.shiftl (N.land b1 0x3F) 6) (N.land b2 0x3F)).
Definition cp4 (b0 b1 b2 b3 : N) : N :=
  N.lor (N.shiftl (N.land b0 0x07) 18)
        (N.lor (N.shiftl (N.land b1 0x3F) 12)
               (N.lor (N.shiftl (N.land b2 0x3F) 6) (N.land b3 0x3F))).

(** The decoder of CPython: well-formed sequences give a code point; an
    ill-formed sequence gives one [Invalid] item that covers its maximal
    well-formed prefix (at least one byte), and decoding resumes after it. *)
Fixpoint scan (bs : list N) : list item :=
  match bs with
  | [] => []
  | b0 :: r0 =>
    if b0 <? 0x80 then Decoded b0 :: scan r0
    else if (0xC2 <=? b0) && (b0 <=? 0xDF) then
      match r0 with
      | [] => [Invalid]
      | b1 :: r1 =>
        if is_cont b1 then Decoded (cp2 b0 b1) :: scan r1
        else Invalid :: scan r0
      end
    else if (0xE0 <=? b0) && (b0 <=? 0xEF) then
      match r0 with
      | [] => [Invalid]
      | b1 :: r1 =>
        if second_ok3 b0 b1 then
          match r1 with
          | [] => [Invalid]
          | b2 :: r2 =>
            if is_cont b2 then Decoded (cp3 b0 b1 b2) :: scan r2
            else Invalid :: scan r1
          end
        else Invalid :: scan r0
      end
    else if (0xF0 <=? b0) && (b0 <=? 0xF4) then
      match r0 with
      | [] => [Invalid]
      | b1 :: r1 =>
        if second_ok4 b0 b1 then
          match r1 with
          | [] => [Invalid]
          | b2 :: r2 =>
            if is_cont b2 then
              match r2 with
              | [] => [Invalid]
              | b3 :: r3 =>
                if is_cont b3 then Decoded (cp4 b0 b1 b2 b3) :: scan r3
                else Invalid :: scan r2
              end
            else Invalid :: scan r1
          end
        else Invalid :: scan r0
      end
    else Invalid :: scan r0
  end.

Definition chars (items : list item) : str :=
  flat_map (fun it => match it with Decoded c => [c] | Invalid => [] end) items.

Definition well_formed (items : list item) : bool :=
  forallb (fun it => match it with Decoded _ => true | Invalid => false end) items.

End Utf8.

(** The [errors] argument of [bytes.decode]. *)
Inductive ErrorsMode : Type := Strict | Ignore.

(** [content.decode('utf-8', errors=mode)] *)
Definition decode_utf8 (mode : ErrorsMode) (content : bytes) : result str :=
  let items := Utf8.scan (map Byte.to_N content) in
  match mode with
  | Ignore => Ok (Utf8.chars items)
  | Strict =>
    if Utf8.well_formed items then Ok (Utf8.chars items)
    else Raise (mkException UnicodeDecodeError
                  (py "'utf-8' codec can't decode bytes"))
  end.

(** The content is UTF-8 text: strict decoding succeeds. *)
Definition is_utf8_text (content : bytes) : bool := is_ok (decode_utf8 Strict content).

(** The bytes of an ASCII literal. *)
Fixpoint bytes_of (s : string) : bytes :=
  match s with
  | EmptyString => []
  | String a rest => byte_of_ascii a :: bytes_of rest
  end.

(* ===================================================================== *)
(** * Paths and the process environment                                   *)
(* ===================================================================== *)

Definition nl : str := [10%N].
Definition slash : char := 47%N.
Definition dot : char := 46%N.

(** A [pathlib.Path], held as its text [str(path)]. *)
Definition Path : Type := str.

(** Text after the last occurrence of [c] (all of [s] when there is none). *)
Fixpoint after_last (c : char) (s : str) : str :=
  match s with
  | [] => []
  | a :: rest =>
    if N.eqb a c then after_last c rest
    else if existsb (N.eqb c) rest then after_last c rest
    else s
  end.

(** [path.name]: the final path component. *)
Definition name (p : Path) : str :=
  if str_eqb p [dot] then [] else after_last slash p.

(** [s.rfind(c)]: the highest index where [c] occurs. *)
Fixpoint rfind (c : char) (s : str) : option nat :=
  match s with
  | [] => None
  | a :: rest =>
    match rfind c rest with
    | Some i => Some (S i)
    | None => if N.eqb a c then Some 0%nat else None
    end
  end.

(** [path.suffix]: the text of the name from its last dot, when that dot is
    neither the first nor the last character of the name. *)
Definition suffix (p : Path) : str :=
  let n := name p in
  match rfind dot n with
  | Some i =>
    if (0 <? Z.of_nat i) && (Z.of_nat i <? len n - 1) then drop i n else []
  | None => []
  end.

(** [str.lower] restricted to ASCII text. *)
Definition ascii_lower (s : str) : str :=
  map (fun c => if (65 <=? c) && (c <=? 90) then c + 32 else c)%N s.

(** [s.strip('.')] *)
Fixpoint lstrip_dots (s : str) : str :=
  match s with
  | [] => []
  | c :: rest => if N.eqb c dot then lstrip_dots rest else s
  end.
Definition strip_dots (s : str) : str := rev (lstrip_dots (rev (lstrip_dots s))).

(** Text mode reading translates [\r\n] and [\r] to [\n]. *)
Fixpoint universal_newlines (s : str) : str :=
  match s with
  | [] => []
  | 13%N :: rest =>
    match rest with
    | 10%N :: _ => universal_newlines rest
    | _ => 10%N :: universal_newlines rest
    end
  | c :: rest => c :: universal_newlines rest
  end.

(** A file of the file system: what [stat] reports and what reading the
    bytes gives (reading may raise, e.g. a permission error).  The file
    system does not change during a call: a path that exists can be
    [stat]ed. *)
Record FileNode : Type := mkFile {
  st_size : N;
  read_bytes : result bytes
}.

(** An entry of an opened archive: its name as listed, the size its info
    record reports, and what reading it gives ([Raise] when the member cannot
    be opened: an encrypted entry, a directory member of a tar file). *)
Record ArchiveEntry : Type := mkEntry {
  entry_name : str;
  entry_size : N;
  entry_read : result bytes
}.

Inductive TarMode : Type := R | R_gz | R_bz2.

(** The loader classes of the generic document loader. *)
Inductive LoaderClass : Type :=
  | PyMuPDFLoader
  | TextLoader
  | UnstructuredWordDocumentLoader
  | UnstructuredPowerPointLoader
  | UnstructuredCSVLoader
  | UnstructuredExcelLoader
  | UnstructuredMarkdownLoader.

(** A constructed loader: what [loader.load()] gives, the page contents. *)
Definition Loader : Type := result (list str).

(** What the mail libraries extract from an [.eml] file. *)
Record Attachment : Type := mkAttachment {
  att_filename : str;
  att_content_type : str;
  att_content : str;
  att_size : N
}.

Record EmlFields : Type := mkEml {
  eml_subject : str;
  eml_sender : str;
  eml_recipient : str;
  eml_date : str;
  eml_body : str;
  eml_attachments : list Attachment
}.

(** A message collected from a mail store. *)
Record PstMessage : Type := mkPst {
  pst_subject : str;
  pst_sender : str;
  pst_recipient : str;
  pst_date : str;
  pst_body : str
}.

(** A normalized extraction result: the dictionary every processor returns. *)
Record DocumentRecord : Type := mkRecord {
  raw_content : str;
  url : str;
  enhanced_processing : bool;
  metadata : gmap str Value
}.

(** The process environment: module-level capability flags, the file system
    and the external libraries the processors call. *)
Record World : Type := mkWorld {
  ZIP_PROCESSING_AVAILABLE : bool;
  RAR_PROCESSING_AVAILABLE : bool;
  EMAIL_PROCESSING_AVAILABLE : bool;
  PST_PROCESSING_AVAILABLE : bool;
  (** the files that exist *)
  fs : Path -> option FileNode;
  (** [str.lower]: the Unicode case mapping of the interpreter; on ASCII
      text it is [ascii_lower] *)
  lower : str -> str;
  (** [datetime.now().isoformat()] *)
  now_isoformat : str;
  (** [zipfile.ZipFile(path, 'r')], [rarfile.RarFile(path, 'r')],
      [tarfile.open(path, mode)]: the entries in listing order *)
  zipfile_open : Path -> result (list ArchiveEntry);
  rarfile_open : Path -> result (list ArchiveEntry);
  tarfile_open : Path -> TarMode -> result (list ArchiveEntry);
  (** [email.message_from_file] followed by the header, body and attachment
      extraction of the email processor *)
  eml_read : Path -> result EmlFields;
  (** [pypff]: open the store and collect its note items *)
  pst_read : Path -> result (list PstMessage);
  (** the enhanced PDF and image strategies of the document processor *)
  pdf_enhanced : Path -> result DocumentRecord;
  image_enhanced : Path -> result DocumentRecord;
  (** constructing a loader of the generic document loader for a path *)
  new_loader : LoaderClass -> Path -> result Loader
}.

(** [file_path.exists()] *)
Definition exists_ (W : World) (p : Path) : bool :=
  match fs W p with Some _ => true | None => false end.

(** [file_path.stat().st_size] *)
Definition stat_size (W : World) (p : Path) : result N :=
  match fs W p with
  | Some f => Ok (st_size f)
  | None => Raise (mkException FileNotFoundError
                     (py "[Errno 2] No such file or directory: " ++ p))
  end.

(** [open(file_path, 'rb').read()] *)
Definition read_binary (W : World) (p : Path) : result bytes :=
  match fs W p with
  | Some f => read_bytes f
  | None => Raise (mkException FileNotFoundError
                     (py "[Errno 2] No such file or directory: " ++ p))
  end.

(** [file_path.read_text(encoding='utf-8', errors='ignore')] *)
Definition read_text (W : World) (p : Path) : result str :=
  let* content := read_binary W p in
  let* text := decode_utf8 Ignore content in
  Ok (universal_newlines text).

(* ===================================================================== *)
(** * asyncio.gather                                                      *)
(* ===================================================================== *)

Module Asyncio.

(** [asyncio.gather] over the tasks with [return_exceptions=True].  Every task runs to
    its outcome, a value or the exception it raised; [completion] lists the
    task indices in the order in which the tasks complete, and each outcome
    is stored in the slot of its task. *)
Definition run_tasks {A} (completion : list nat) (tasks : list (result A))
  : list (option (result A)) :=
  fold_left
    (fun slots i =>
       match tasks !! i with
       | Some outcome => <[i := Some outcome]> slots
       | None => slots
       end)
    completion (replicate (length tasks) None).

(** The awaiting caller resumes once every slot is filled ([None]: it never
    does). *)
Fixpoint all_done {A} (slots : list (option A)) : option (list A) :=
  match slots with
  | [] => Some []
  | None :: _ => None
  | Some a :: rest =>
    match all_done rest with
    | Some l => Some (a :: l)
    | None => None
    end
  end.

Definition gather {A} (completion : list nat) (tasks : list (result A))
  : option (list (result A)) :=
  all_done (run_tasks completion tasks).

End Asyncio.

(* ===================================================================== *)
(** * archive_processor.py                                                *)
(* ===================================================================== *)

Module ArchiveProcessor.

(** An element of [extracted_content]. *)
Record ExtractedItem : Type := mkItem {
  item_filename : str;
  item_content : str;
  item_size : N;
  item_type : str
}.

Definition supported_formats : list str :=
  [py ".zip"; py ".rar"; py ".tar"; py ".tar.gz"; py ".tar.bz2"; py ".7z"].

(** [f"[Binary file: {file_name}]"] *)
Definition binary_placeholder (file_name : str) : str :=
  py "[Binary file: " ++ file_name ++ py "]".

(** [ref.getinfo(file_name)] / [tar_ref.getmember(file_name)]: the last
    entry listed under that name. *)
Definition getinfo (entries : list ArchiveEntry) (file_name : str) : result ArchiveEntry :=
  match find (fun e => str_eqb (entry_name e) file_name) (rev entries) with
  | Some e => Ok e
  | None => Raise (mkException KeyError file_name)
  end.

(** One iteration of [for file_name in file_list], on the pair
    ([extracted_content], [total_size]).  An exception inside the iteration
    is logged and the loop continues with the next name. *)
Definition process_entry (entries : list ArchiveEntry)
    (st : list ExtractedItem * N) (file_name : str) : list ExtractedItem * N :=
  let '(extracted_content, total_size) := st in
  if endswith file_name [slash] then st
  else
    match getinfo entries file_name with
    | Raise _ => st
    | Ok file_info =>
      let file_size := entry_size file_info in
      let total_size := (total_size + file_size)%N in
      match entry_read file_info with
      | Raise _ => (extracted_content, total_size)
      | Ok content =>
        match decode_utf8 Ignore content with
        | Ok text_content =>
          (extracted_content ++
             [mkItem file_name text_content file_size (py "text")], total_size)
        | Raise e =>
          match exc_type e with
          | UnicodeDecodeError =>
            (extracted_content ++
               [mkItem file_name (binary_placeholder file_name) file_size (py "binary")],
             total_size)
          | _ => (extracted_content, total_size)
          end
        end
      end
    end.

Definition extract_entries (entries : list ArchiveEntry) (file_list : list str)
  : list ExtractedItem * N :=
  fold_left (process_entry entries) file_list ([], 0%N).

(** The section the formatted content holds for one extracted item. *)
Definition format_item (item : ExtractedItem) : str :=
  nl ++ py "FILE: " ++ item_filename item ++ nl
  ++ py "Size: " ++ str_of_N (item_size item) ++ py " bytes" ++ nl
  ++ py "Type: " ++ item_type item ++ nl
  ++ py "Content:" ++ nl ++ item_content item ++ nl
  ++ repeat_char 45%N 50 ++ nl.

(** The formatted content: header block, then one section per item. *)
Definition format_archive (label : str) (p : Path) (file_list : list str)
    (extracted_content : list ExtractedItem) (total_size : N) : str :=
  fold_left (fun formatted_content item => formatted_content ++ format_item item)
    extracted_content
    (nl ++ label ++ py " ARCHIVE CONTENTS" ++ nl
     ++ py "===================" ++ nl
     ++ py "Archive: " ++ name p ++ nl
     ++ py "Files: " ++ str_of_N (N.of_nat (length file_list)) ++ nl
     ++ py "Total Size: " ++ str_of_N total_size ++ py " bytes" ++ nl
     ++ nl).

Definition _fallback_processing (W : World) (p : Path) (reason : str)
  : result DocumentRecord :=
  try_except
    (let* content := read_text W p in
     let* file_size := stat_size W p in
     Ok {| raw_content := content;
           url := p;
           enhanced_processing := false;
           metadata :=
             <[py "processed_at" := VStr (now_isoformat W)]>
             (<[py "file_size" := VInt (Z.of_N file_size)]>
             (<[py "reason" := VStr reason]>
             (<[py "processing_method" := VStr (py "fallback")]>
             (<[py "file_type" := VStr (lower W (suffix p))]> ∅)))) |})
    (fun e =>
     let* file_size := stat_size W p in
     Ok {| raw_content := py "Could not process " ++ name p ++ py ": " ++ reason;
           url := p;
           enhanced_processing := false;
           metadata :=
             <[py "processed_at" := VStr (now_isoformat W)]>
             (<[py "file_size" := VInt (Z.of_N file_size)]>
             (<[py "error" := VStr (exc_str e)]>
             (<[py "processing_method" := VStr (py "error")]>
             (<[py "file_type" := VStr (lower W (suffix p))]> ∅)))) |}).

(** The body shared by the three container formats once the archive is
    open: list, extract, format, build the record. *)
Definition archive_record (W : World) (label file_type : str) (p : Path)
    (entries : list ArchiveEntry) : result DocumentRecord :=
  let file_list := map entry_name entries in
  let '(extracted_content, total_size) := extract_entries entries file_list in
  let formatted_content :=
    format_archive label p file_list extracted_content total_size in
  let* file_size := stat_size W p in
  Ok {| raw_content := formatted_content;
        url := p;
        enhanced_processing := true;
        metadata :=
          <[py "processed_at" := VStr (now_isoformat W)]>
          (<[py "file_size" := VInt (Z.of_N file_size)]>
          (<[py "extracted_files" :=
               VList (map (fun item => VStr (item_filename item)) extracted_content)]>
          (<[py "total_size" := VInt (Z.of_N total_size)]>
          (<[py "file_count" := VInt (len file_list)]>
          (<[py "processing_method" := VStr (py "archive_extraction")]>
          (<[py "file_type" := VStr file_type]> ∅)))))) |}.

Definition _process_zip_file (W : World) (p : Path) : result DocumentRecord :=
  if negb (ZIP_PROCESSING_AVAILABLE W) then
    _fallback_processing W p (py "ZIP processing not available")
  else
    try_except
      (let* entries := zipfile_open W p in
       archive_record W (py "ZIP") (py "zip") p entries)
      (fun e => _fallback_processing W p (py "ZIP processing failed: " ++ exc_str e)).

Definition _process_rar_file (W : World) (p : Path) : result DocumentRecord :=
  if negb (RAR_PROCESSING_AVAILABLE W) then
    _fallback_processing W p (py "RAR processing not available")
  else
    try_except
      (let* entries := rarfile_open W p in
       archive_record W (py "RAR") (py "rar") p entries)
      (fun e => _fallback_processing W p (py "RAR processing failed: " ++ exc_str e)).

Definition _process_tar_file (W : World) (p : Path) : result DocumentRecord :=
  if negb (ZIP_PROCESSING_AVAILABLE W) then
    _fallback_processing W p (py "TAR processing not available")
  else
    try_except
      (let mode :=
         if str_eqb (suffix p) (py ".gz") then R_gz
         else if str_eqb (suffix p) (py ".bz2") then R_bz2
         else R in
       let* entries := tarfile_open W p mode in
       archive_record W (py "TAR") (py "tar") p entries)
      (fun e => _fallback_processing W p (py "TAR processing failed: " ++ exc_str e)).

Definition process_archive_file (W : World) (file_path : Path) : result DocumentRecord :=
  if negb (exists_ W file_path) then
    Raise (mkException FileNotFoundError (py "Archive file not found: " ++ file_path))
  else
    let file_extension := lower W (suffix file_path) in
    if str_eqb file_extension (py ".zip") then _process_zip_file W file_path
    else if str_eqb file_extension (py ".rar") then _process_rar_file W file_path
    else if existsb (str_eqb file_extension) [py ".tar"; py ".tar.gz"; py ".tar.bz2"]
    then _process_tar_file W file_path
    else Raise (mkException ValueError
                  (py "Unsupported archive format: " ++ file_extension)).

(** The record a batch substitutes for an item that raised. *)
Definition error_record (W : World) (file_path : Path) (e : Exception) : DocumentRecord :=
  {| raw_content := py "Error processing " ++ file_path ++ py ": " ++ exc_str e;
     url := file_path;
     enhanced_processing := false;
     metadata :=
       <[py "error" := VStr (exc_str e)]>
       (<[py "processing_method" := VStr (py "error")]>
       (<[py "file_type" := VStr (lower W (suffix file_path))]> ∅)) |}.

(** The loop over [enumerate(results)]: [file_paths[i]] is the path at the
    index of the result. *)
Fixpoint handle_exceptions (W : World) (file_paths : list Path)
    (results : list (result DocumentRecord)) (i : nat) : result (list DocumentRecord) :=
  match results with
  | [] => Ok []
  | r :: rest =>
    let* processed :=
      match r with
      | Raise e =>
        match file_paths !! i with
        | Some file_path => Ok (error_record W file_path e)
        | None => Raise (mkException IndexError (py "list index out of range"))
        end
      | Ok record => Ok record
      end in
    let* processed_rest := handle_exceptions W file_paths rest (S i) in
    Ok (processed :: processed_rest)
  end.

(** [None]: the batch never returns; [Some (Raise e)]: it raises. *)
Definition process_archive_files_batch (W : World) (completion : list nat)
    (file_paths : list Path) : option (result (list DocumentRecord)) :=
  let tasks := map (process_archive_file W) file_paths in
  match Asyncio.gather completion tasks with
  | None => None
  | Some results => Some (handle_exceptions W file_paths results 0)
  end.

Definition is_available (W : World) : bool :=
  ZIP_PROCESSING_AVAILABLE W || RAR_PROCESSING_AVAILABLE W.

Definition can_process_zip (W : World) : bool := ZIP_PROCESSING_AVAILABLE W.

Definition can_process_rar (W : World) : bool := RAR_PROCESSING_AVAILABLE W.

End ArchiveProcessor.

(* ===================================================================== *)
(** * email_processor.py                                                  *)
(* ===================================================================== *)

Module EmailProcessor.

Definition supported_formats : list str := [py ".msg"; py ".eml"; py ".pst"].

(** [re.sub(r'\s+', ' ', text)]: every run of white space becomes one space. *)
Fixpoint collapse_whitespace (in_run : bool) (text : str) : str :=
  match text with
  | [] => []
  | c :: rest =>
    if isspace c then
      if in_run then collapse_whitespace true rest
      else 32%N :: collapse_whitespace true rest
    else c :: collapse_whitespace false rest
  end.

(** The characters kept by [re.sub(r'[^\x20-\x7E\n\r\t]', '', text)]. *)
Definition printable (c : char) : bool :=
  ((32 <=? c) && (c <=? 126) || (c =? 10) || (c =? 13) || (c =? 9))%N.

Definition _extract_text_from_binary (content : bytes) : str :=
  match
    (let* text := decode_utf8 Ignore content in
     let text := List.filter printable text in
     let text := collapse_whitespace false text in
     Ok (strip text))
  with
  | Ok text => text
  | Raise _ => py "Binary content could not be decoded"
  end.

Definition _fallback_processing (W : World) (p : Path) (reason : str)
  : result DocumentRecord :=
  try_except
    (let* content := read_text W p in
     let* file_size := stat_size W p in
     Ok {| raw_content := content;
           url := p;
           enhanced_processing := false;
           metadata :=
             <[py "processed_at" := VStr (now_isoformat W)]>
             (<[py "file_size" := VInt (Z.of_N file_size)]>
             (<[py "reason" := VStr reason]>
             (<[py "processing_method" := VStr (py "fallback")]>
             (<[py "file_type" := VStr (lower W (suffix p))]> ∅)))) |})
    (fun e =>
     let* file_size := stat_size W p in
     Ok {| raw_content := py "Could not process " ++ name p ++ py ": " ++ reason;
           url := p;
           enhanced_processing := false;
           metadata :=
             <[py "processed_at" := VStr (now_isoformat W)]>
             (<[py "file_size" := VInt (Z.of_N file_size)]>
             (<[py "error" := VStr (exc_str e)]>
             (<[py "processing_method" := VStr (py "error")]>
             (<[py "file_type" := VStr (lower W (suffix p))]> ∅)))) |}).

Definition _process_msg_file (W : World) (p : Path) : result DocumentRecord :=
  if negb (EMAIL_PROCESSING_AVAILABLE W) then
    _fallback_processing W p (py "MSG file processing not available")
  else
    try_except
      (let* content := read_binary W p in
       let text_content := _extract_text_from_binary content in
       let* file_size := stat_size W p in
       Ok {| raw_content := text_content;
             url := p;
             enhanced_processing := true;
             metadata :=
               <[py "processed_at" := VStr (now_isoformat W)]>
               (<[py "file_size" := VInt (Z.of_N file_size)]>
               (<[py "processing_method" := VStr (py "email_extraction")]>
               (<[py "file_type" := VStr (py "msg")]> ∅))) |})
      (fun e => _fallback_processing W p (py "MSG processing failed: " ++ exc_str e)).

(** The attachment sections, numbered from [i]. *)
Fixpoint format_attachments (i : N) (attachments : list Attachment) : str :=
  match attachments with
  | [] => []
  | attachment :: rest =>
    nl ++ py "Attachment " ++ str_of_N i ++ py ": " ++ att_filename attachment ++ nl
    ++ py "Type: " ++ att_content_type attachment ++ nl
    ++ py "Size: " ++ str_of_N (att_size attachment) ++ py " bytes" ++ nl
    ++ py "Content:" ++ nl ++ att_content attachment ++ nl
    ++ repeat_char 45%N 50 ++ nl
    ++ format_attachments (i + 1)%N rest
  end.

Definition _process_eml_file (W : World) (p : Path) : result DocumentRecord :=
  if negb (EMAIL_PROCESSING_AVAILABLE W) then
    _fallback_processing W p (py "EML file processing not available")
  else
    try_except
      (let* msg := eml_read W p in
       let attachments := eml_attachments msg in
       let formatted_content :=
         nl ++ py "EMAIL MESSAGE" ++ nl
         ++ py "=============" ++ nl
         ++ py "Subject: " ++ eml_subject msg ++ nl
         ++ py "From: " ++ eml_sender msg ++ nl
         ++ py "To: " ++ eml_recipient msg ++ nl
         ++ py "Date: " ++ eml_date msg ++ nl
         ++ nl
         ++ eml_body msg ++ nl in
       let formatted_content :=
         match attachments with
         | [] => formatted_content
         | _ :: _ =>
           formatted_content
           ++ nl ++ nl ++ py "ATTACHMENTS" ++ nl ++ py "===========" ++ nl
           ++ format_attachments 1%N attachments
         end in
       let* file_size := stat_size W p in
       Ok {| raw_content := formatted_content;
             url := p;
             enhanced_processing := true;
             metadata :=
               <[py "processed_at" := VStr (now_isoformat W)]>
               (<[py "file_size" := VInt (Z.of_N file_size)]>
               (<[py "attachment_files" :=
                    VList (map (fun att => VStr (att_filename att)) attachments)]>
               (<[py "attachments" := VInt (len attachments)]>
               (<[py "date" := VStr (eml_date msg)]>
               (<[py "recipient" := VStr (eml_recipient msg)]>
               (<[py "sender" := VStr (eml_sender msg)]>
               (<[py "subject" := VStr (eml_subject msg)]>
               (<[py "processing_method" := VStr (py "email_parsing")]>
               (<[py "file_type" := VStr (py "eml")]> ∅))))))))) |})
      (fun e => _fallback_processing W p (py "EML processing failed: " ++ exc_str e)).

(** The message blocks, numbered from [i]. *)
Fixpoint format_messages (i : N) (messages : list PstMessage) : str :=
  match messages with
  | [] => []
  | msg :: rest =>
    py "MESSAGE " ++ str_of_N i ++ nl
    ++ repeat_char 45%N 20 ++ nl
    ++ py "Subject: " ++ pst_subject msg ++ nl
    ++ py "From: " ++ pst_sender msg ++ nl
    ++ py "To: " ++ pst_recipient msg ++ nl
    ++ py "Date: " ++ pst_date msg ++ nl
    ++ py "Body: " ++ pst_body msg ++ nl ++ nl
    ++ format_messages (i + 1)%N rest
  end.

Definition _process_pst_file (W : World) (p : Path) : result DocumentRecord :=
  if negb (PST_PROCESSING_AVAILABLE W) then
    _fallback_processing W p (py "PST file processing not available")
  else
    try_except
      (let* messages := pst_read W p in
       let formatted_content :=
         py "OUTLOOK PST FILE - ALL MESSAGES" ++ nl
         ++ repeat_char 61%N 50 ++ nl ++ nl
         ++ format_messages 1%N messages in
       let* file_size := stat_size W p in
       Ok {| raw_content := formatted_content;
             url := p;
             enhanced_processing := true;
             metadata :=
               <[py "processed_at" := VStr (now_isoformat W)]>
               (<[py "file_size" := VInt (Z.of_N file_size)]>
               (<[py "message_count" := VInt (len messages)]>
               (<[py "processing_method" := VStr (py "pst_extraction")]>
               (<[py "file_type" := VStr (py "pst")]> ∅)))) |})
      (fun e => _fallback_processing W p (py "PST processing failed: " ++ exc_str e)).

Definition process_email_file (W : World) (file_path : Path) : result DocumentRecord :=
  if negb (exists_ W file_path) then
    Raise (mkException FileNotFoundError (py "Email file not found: " ++ file_path))
  else
    let file_extension := lower W (suffix file_path) in
    if str_eqb file_extension (py ".msg") then _process_msg_file W file_path
    else if str_eqb file_extension (py ".eml") then _process_eml_file W file_path
    else if str_eqb file_extension (py ".pst") then _process_pst_file W file_path
    else Raise (mkException ValueError
                  (py "Unsupported email format: " ++ file_extension)).

(** The record a batch substitutes for an item that raised. *)
Definition error_record (W : World) (file_path : Path) (e : Exception) : DocumentRecord :=
  {| raw_content := py "Error processing " ++ file_path ++ py ": " ++ exc_str e;
     url := file_path;
     enhanced_processing := false;
     metadata :=
       <[py "error" := VStr (exc_str e)]>
       (<[py "processing_method" := VStr (py "error")]>
       (<[py "file_type" := VStr (lower W (suffix file_path))]> ∅)) |}.

(** The loop over [enumerate(results)]: [file_paths[i]] is the path at the
    index of the result. *)
Fixpoint handle_exceptions (W : World) (file_paths : list Path)
    (results : list (result DocumentRecord)) (i : nat) : result (list DocumentRecord) :=
  match results with
  | [] => Ok []
  | r :: rest =>
    let* processed :=
      match r with
      | Raise e =>
        match file_paths !! i with
        | Some file_path => Ok (error_record W file_path e)
        | None => Raise (mkException IndexError (py "list index out of range"))
        end
      | Ok record => Ok record
      end in
    let* processed_rest := handle_exceptions W file_paths rest (S i) in
    Ok (processed :: processed_rest)
  end.

(** [None]: the batch never returns; [Some (Raise e)]: it raises. *)
Definition process_email_files_batch (W : World) (completion : list nat)
    (file_paths : list Path) : option (result (list DocumentRecord)) :=
  let tasks := map (process_email_file W) file_paths in
  match Asyncio.gather completion tasks with
  | None => None
  | Some results => Some (handle_exceptions W file_paths results 0)
  end.

(** ** Messages of the [email] library *)

(** A parsed message, as the processor observes it: [get_content_type()],
    the [Content-Disposition] header (the empty string when absent),
    [get_filename()], and either the body that [get_payload(decode=True)]
    gives or, for a multipart message, its parts. *)
Local Unset Elimination Schemes.
Inductive Message : Type :=
  | Part (content_type content_disposition : str) (filename : option str)
         (payload : option bytes)
  | Multipart (content_type content_disposition : str) (filename : option str)
              (parts : list Message).
Local Set Elimination Schemes.

Definition get_content_type (msg : Message) : str :=
  match msg with Part ct _ _ _ | Multipart ct _ _ _ => ct end.

Definition get_content_disposition (msg : Message) : str :=
  match msg with Part _ cd _ _ | Multipart _ cd _ _ => cd end.

Definition get_filename (msg : Message) : option str :=
  match msg with Part _ _ fn _ | Multipart _ _ fn _ => fn end.

Definition is_multipart (msg : Message) : bool :=
  match msg with Part _ _ _ _ => false | Multipart _ _ _ _ => true end.

(** [get_payload(decode=True)]: [None] for a multipart message. *)
Definition get_payload (msg : Message) : option bytes :=
  match msg with Part _ _ _ payload => payload | Multipart _ _ _ _ => None end.

(** [msg.walk()]: the message, then the parts of its parts, depth first. *)
Fixpoint walk (msg : Message) : list Message :=
  match msg with
  | Part _ _ _ _ => [msg]
  | Multipart _ _ _ parts => msg :: flat_map walk parts
  end.

(** Truth value of an optional string or byte string. *)
Definition truthy {A} (o : option (list A)) : bool :=
  match o with Some (_ :: _) => true | _ => false end.

(** [re.sub(r'<[^>]+>', '', html)]: a tag runs from a ['<'] to the first
    ['>'] after it, with at least one character between.  [tag] is [None]
    outside a candidate tag, and inside one it holds the characters read
    since its ['<'], last first. *)
Fixpoint strip_tags (tag : option str) (html : str) : str :=
  match html with
  | [] =>
    match tag with
    | None => []
    | Some inside => 60%N :: rev inside
    end
  | c :: rest =>
    match tag with
    | None => if N.eqb c 60 then strip_tags (Some []) rest else c :: strip_tags None rest
    | Some inside =>
      if N.eqb c 62 then
        match inside with
        | [] => 60%N :: 62%N :: strip_tags None rest
        | _ :: _ => strip_tags None rest
        end
      else strip_tags (Some (c :: inside)) rest
    end
  end.

(** One element of what [email.header.decode_header] returns. *)
Inductive HeaderPart : Type :=
  | BytesPart (part : bytes) (encoding : option str)
  | StrPart (part : str).

(** The library calls of [_decode_header]: [decode_header(header)] and
    [part.decode(encoding)] for a named character set. *)
Record HeaderCodec : Type := mkCodec {
  decode_header : str -> result (list HeaderPart);
  bytes_decode : str -> bytes -> result str
}.

Definition _decode_header (codec : HeaderCodec) (header : str) : str :=
  if negb (truthy (Some header)) then []
  else
    match
      (let* decoded_parts := decode_header codec header in
       fold_left
         (fun acc part =>
            let* decoded_string := acc in
            match part with
            | BytesPart part encoding =>
              if truthy encoding then
                let* text := bytes_decode codec (default [] encoding) part in
                Ok (decoded_string ++ text)
              else
                let* text := decode_utf8 Ignore part in
                Ok (decoded_string ++ text)
            | StrPart part => Ok (decoded_string ++ part)
            end)
         decoded_parts (Ok []))
    with
    | Ok decoded_string => decoded_string
    | Raise _ => header
    end.

(** One iteration of the loop of [_extract_email_body] over [msg.walk()]. *)
Definition body_step (acc : result str) (part : Message) : result str :=
  let* body := acc in
  let content_type := get_content_type part in
  if str_eqb content_type (py "text/plain") then
    let payload := get_payload part in
    if truthy payload then
      let* text := decode_utf8 Ignore (default [] payload) in
      Ok (body ++ text)
    else Ok body
  else if str_eqb content_type (py "text/html") then
    let payload := get_payload part in
    if truthy payload then
      let* html_content := decode_utf8 Ignore (default [] payload) in
      Ok (body ++ strip_tags None html_content)
    else Ok body
  else Ok body.

Definition _extract_email_body (msg : Message) : result str :=
  let* body :=
    if is_multipart msg then fold_left body_step (walk msg) (Ok [])
    else
      let payload := get_payload msg in
      if truthy payload then decode_utf8 Ignore (default [] payload)
      else Ok [] in
  Ok (strip body).

(** [f"[Binary attachment: {filename}]"] *)
Definition binary_attachment (filename : str) : str :=
  py "[Binary attachment: " ++ filename ++ py "]".

(** One iteration of the loop of [_extract_attachments] over [msg.walk()]. *)
Definition attachment_step (codec : HeaderCodec) (attachments : list Attachment)
    (part : Message) : list Attachment :=
  let content_disposition := get_content_disposition part in
  let content_type := get_content_type part in
  if contains content_disposition (py "attachment")
     || (negb (existsb (str_eqb content_type) [py "text/plain"; py "text/html"])
         && truthy (get_filename part))
  then
    let filename := get_filename part in
    if truthy filename then
      let filename := _decode_header codec (default [] filename) in
      let payload := get_payload part in
      if truthy payload then
        let payload := default [] payload in
        if startswith content_type (py "text/") then
          match decode_utf8 Ignore payload with
          | Ok content =>
            attachments ++ [mkAttachment filename content_type content
                              (N.of_nat (length payload))]
          | Raise _ => attachments
          end
        else
          attachments ++ [mkAttachment filename content_type (binary_attachment filename)
                            (N.of_nat (length payload))]
      else attachments
    else attachments
  else attachments.

Definition _extract_attachments (codec : HeaderCodec) (msg : Message) : list Attachment :=
  if is_multipart msg then fold_left (attachment_step codec) (walk msg) []
  else [].

End EmailProcessor.

(* ===================================================================== *)
(** * document_processor.py                                               *)
(* ===================================================================== *)

Module LegalDocumentProcessor.

Definition image_exts : list str :=
  [py ".jpg"; py ".jpeg"; py ".png"; py ".bmp"; py ".tiff"; py ".tif";
   py ".webp"; py ".svg"; py ".eps"; py ".raw"; py ".cr2"; py ".nef";
   py ".orf"; py ".sr2"; py ".gif"].

(** The loader class the dictionary of loaders holds for each extension. *)
Definition loader_classes : list (str * LoaderClass) :=
  [(py "pdf", PyMuPDFLoader);
   (py "txt", TextLoader);
   (py "doc", UnstructuredWordDocumentLoader);
   (py "docx", UnstructuredWordDocumentLoader);
   (py "pptx", UnstructuredPowerPointLoader);
   (py "csv", UnstructuredCSVLoader);
   (py "xls", UnstructuredExcelLoader);
   (py "xlsx", UnstructuredExcelLoader);
   (py "md", UnstructuredMarkdownLoader)].

(** The dictionary literal [loader_dict]: every loader is constructed, in
    order, when the dictionary is built. *)
Fixpoint build_loader_dict (W : World) (p : Path) (classes : list (str * LoaderClass))
  : result (gmap str Loader) :=
  match classes with
  | [] => Ok ∅
  | (extension, class) :: rest =>
    let* loader := new_loader W class p in
    let* loaders := build_loader_dict W p rest in
    Ok (<[extension := loader]> loaders)
  end.

(** The handler of this function logs and re-raises. *)
Definition _process_with_gpt_researcher (W : World) (p : Path) : result DocumentRecord :=
  try_except
    (let file_extension := strip_dots (lower W (suffix p)) in
     let* loader_dict := build_loader_dict W p loader_classes in
     match loader_dict !! file_extension with
     | Some loader =>
       let* pages := loader in
       let content :=
         join nl (List.filter (fun page_content => negb (str_eqb page_content [])) pages) in
       Ok {| raw_content := content;
             url := name p;
             enhanced_processing := false;
             metadata :=
               <[py "processing_method" := VStr (py "gpt_researcher")]>
               (<[py "file_type" := VStr file_extension]> ∅) |}
     | None =>
       Raise (mkException ValueError (py "Unsupported file type: " ++ file_extension))
     end)
    (fun e => Raise e).

Definition _process_pdf_enhanced (W : World) (p : Path) : result DocumentRecord :=
  try_except (pdf_enhanced W p) (fun e => _process_with_gpt_researcher W p).

Definition _process_image_enhanced (W : World) (p : Path) : result DocumentRecord :=
  try_except (image_enhanced W p) (fun e => _process_with_gpt_researcher W p).

Definition process_document (W : World) (file_path : Path) : result DocumentRecord :=
  let file_extension := lower W (suffix file_path) in
  if str_eqb file_extension (py ".pdf") then _process_pdf_enhanced W file_path
  else if existsb (str_eqb file_extension) image_exts then _process_image_enhanced W file_path
  else _process_with_gpt_researcher W file_path.

(** The list [gather] gives is returned as it is: an element [Raise e] is
    the exception object of an item that raised.  [None]: the batch never
    returns. *)
Definition process_documents_batch (W : World) (completion : list nat)
    (file_paths : list Path) : option (list (result DocumentRecord)) :=
  let tasks := map (process_document W) file_paths in
  Asyncio.gather completion tasks.

(** ** Pages *)

(** A table of a page: its number and its records (one dictionary per row). *)
Record Table : Type := mkTable {
  table_number : N;
  table_data : list (gmap str Value)
}.

(** The dictionary [_process_page_enhanced] builds for a page, as far as
    [_combine_pages] reads it. *)
Record PageData : Type := mkPage {
  page_number : N;
  page_content : str;
  page_tables : list Table
}.

(** The lines a table adds; [to_string] is
    [pd.DataFrame(data).to_string(index=False)]. *)
Definition table_lines (to_string : list (gmap str Value) -> str) (table : Table)
  : list str :=
  [nl ++ py "--- Table " ++ str_of_N (table_number table) ++ py " ---"]
  ++ match table_data table with
     | [] => []
     | _ :: _ => [to_string (table_data table)]
     end.

Definition _combine_pages (to_string : list (gmap str Value) -> str)
    (pages_data : list PageData) : str :=
  let combined_content :=
    fold_left
      (fun combined_content page =>
         if negb (str_eqb (page_content page) []) then
           fold_left (fun combined table => combined ++ table_lines to_string table)
             (page_tables page)
             (combined_content
              ++ [py "--- Page " ++ str_of_N (page_number page) ++ py " ---"]
              ++ [page_content page])
         else combined_content)
      pages_data [] in
  join (nl ++ nl) combined_content.

End LegalDocumentProcessor.

(* ===================================================================== *)
(** * chunker.py                                                          *)
(* ===================================================================== *)

(** [langchain.docstore.document.Document] *)
Module Doc.
Record Document : Type := mk {
  page_content : str;
  metadata : gmap str Value
}.
End Doc.
Abbreviation Document := Doc.Document.

(** The embedding capability: the sentence transformer together with the
    numeric routines applied to its vectors.  Floating-point similarities
    are taken as rationals. *)
Record SentenceTransformer : Type := mkModel {
  Vec : Type;
  (** [model.encode(sentences)]: one vector per sentence *)
  encode : list str -> result (list Vec);
  (** [np.mean(vectors, axis=0)] *)
  np_mean : list Vec -> Vec;
  (** [util.cos_sim(a, b).item()] *)
  cos_sim : Vec -> Vec -> Q
}.

(** [self] of [LegalChunker]. *)
Record LegalChunker : Type := mkChunker {
  (** [None] when the dependencies are missing or the model failed to load *)
  model : option SentenceTransformer;
  similarity_threshold : Q;
  min_chunk_size : Z;
  max_chunk_size : Z;
  chunk_overlap : Z;
  (** [self.fallback_chunker.split_documents] *)
  fallback_chunker : list Document -> list Document
}.

Module Chunker.

Definition is_terminator (c : char) : bool :=
  ((c =? 46) || (c =? 33) || (c =? 63))%N.

(** [re.split(r'[.!?]+', text)]: the pieces between maximal runs of
    terminators.  [in_run]: the previous character was a terminator;
    [piece]: the characters of the current piece, last first. *)
Fixpoint re_split (in_run : bool) (piece : str) (text : str) : list str :=
  match text with
  | [] => [rev piece]
  | c :: rest =>
    if is_terminator c then
      if in_run then re_split true piece rest
      else rev piece :: re_split true [] rest
    else re_split false (c :: piece) rest
  end.

(** Truth value of a string or of a list: it is not empty. *)
Definition nonempty {A} (s : list A) : bool :=
  match s with [] => false | _ :: _ => true end.

Definition _split_into_sentences (text : str) : list str :=
  let sentences := re_split false [] text in
  map strip (List.filter (fun s => nonempty (strip s)) sentences).

(** [a < b] on similarities. *)
Definition Qltb (a b : Q) : bool := negb (Qle_bool b a).

Definition space : str := [32%N].

(** The three variables of the grouping loop. *)
Record GroupState (V : Type) : Type := mkState {
  chunks : list str;
  current_chunk : list str;
  current_chunk_embeddings : list V
}.
Arguments mkState {V}.
Arguments chunks {V}.
Arguments current_chunk {V}.
Arguments current_chunk_embeddings {V}.

(** One iteration of [for i, (sentence, embedding) in enumerate(zip(...))]. *)
Definition group_step (self : LegalChunker) (m : SentenceTransformer)
    (st : GroupState (Vec m)) (item : str * Vec m) : GroupState (Vec m) :=
  let '(sentence, embedding) := item in
  if negb (nonempty (current_chunk st)) then
    mkState (chunks st)
            (current_chunk st ++ [sentence])
            (current_chunk_embeddings st ++ [embedding])
  else
    let current_chunk_embedding := np_mean m (current_chunk_embeddings st) in
    let similarity := cos_sim m embedding current_chunk_embedding in
    let should_start_new :=
      Qltb similarity (similarity_threshold self)
      || (max_chunk_size self <? len (join space (current_chunk st))) in
    if should_start_new && nonempty (current_chunk st) then
      mkState (chunks st ++ [join space (current_chunk st)]) [sentence] [embedding]
    else
      mkState (chunks st)
              (current_chunk st ++ [sentence])
              (current_chunk_embeddings st ++ [embedding]).

Definition _group_sentences_semantically (self : LegalChunker) (m : SentenceTransformer)
    (sentences : list str) (embeddings : list (Vec m)) : list str :=
  let st := fold_left (group_step self m) (zip sentences embeddings) (mkState [] [] []) in
  if nonempty (current_chunk st) then chunks st ++ [join space (current_chunk st)]
  else chunks st.

(** The loop [for i, chunk_text in enumerate(chunks)] that keeps the chunks
    of at least the minimum size; [extra] holds the entries of the
    dictionary given to [update], in order; [i] is the index of the head of
    [rest] and [total] is [len(chunks)]. *)
Fixpoint chunked_docs (self : LegalChunker) (metadata : gmap str Value)
    (extra : nat -> list (str * Value)) (i : nat) (rest : list str) : list Document :=
  match rest with
  | [] => []
  | chunk_text :: rest' =>
    (if min_chunk_size self <=? len (strip chunk_text) then
       [Doc.mk chunk_text
          (fold_left (fun md kv => <[kv.1 := kv.2]> md) (extra i) metadata)]
     else [])
    ++ chunked_docs self metadata extra (S i) rest'
  end.

Definition _semantic_chunk (self : LegalChunker) (document : Document)
  : result (list Document) :=
  let text := Doc.page_content document in
  let metadata := Doc.metadata document in
  let sentences := _split_into_sentences text in
  if len sentences <? 2 then Ok [Doc.mk text metadata]
  else
    match model self with
    | None =>
      Raise (mkException AttributeError
               (py "'NoneType' object has no attribute 'encode'"))
    | Some m =>
      let* embeddings := encode m sentences in
      let chunks := _group_sentences_semantically self m sentences embeddings in
      Ok (chunked_docs self metadata
            (fun i => [(py "chunk_index", VInt (Z.of_nat i));
                       (py "chunking_method", VStr (py "semantic"));
                       (py "total_chunks", VInt (len chunks))])
            0 chunks)
    end.

(** The grouping loop is written out a second time in this method; it is the
    loop of [_group_sentences_semantically]. *)
Definition _semantic_chunk_original (self : LegalChunker) (document : Document)
  : result (list Document) :=
  let text := Doc.page_content document in
  let metadata := Doc.metadata document in
  let sentences := _split_into_sentences text in
  if len sentences <? 2 then Ok [Doc.mk text metadata]
  else
    match model self with
    | None =>
      Raise (mkException AttributeError
               (py "'NoneType' object has no attribute 'encode'"))
    | Some m =>
      let* embeddings := encode m sentences in
      let chunks := _group_sentences_semantically self m sentences embeddings in
      Ok (chunked_docs self metadata
            (fun i => [(py "chunk_index", VInt (Z.of_nat i));
                       (py "chunking_method", VStr (py "semantic_original"));
                       (py "total_chunks", VInt (len chunks));
                       (py "similarity_threshold", VFloat (similarity_threshold self))])
            0 chunks)
    end.

Definition chunk_document (self : LegalChunker) (document : Document) : list Document :=
  match model self with
  | None => fallback_chunker self [document]
  | Some _ =>
    match _semantic_chunk self document with
    | Ok docs => docs
    | Raise e => fallback_chunker self [document]
    end
  end.

Definition chunk_document_semantic (self : LegalChunker) (document : Document)
  : list Document :=
  match model self with
  | None => fallback_chunker self [document]
  | Some _ =>
    match _semantic_chunk_original self document with
    | Ok docs => docs
    | Raise e => fallback_chunker self [document]
    end
  end.

(** [chunk_documents]: the chunks of every document, in order. *)
Definition chunk_documents (self : LegalChunker) (documents : list Document)
  : list Document :=
  fold_left (fun all_chunks doc => all_chunks ++ chunk_document self doc) documents [].

(** The loop appends every chunk as it is. *)
Definition _preserve_legal_entities (chunks : list Document) (legal_entities : list str)
  : list Document :=
  fold_left (fun preserved_chunks chunk => preserved_chunks ++ [chunk]) chunks [].

(** [legal_entities] is [None], or a list (an empty list counts as absent). *)
Definition chunk_legal_document (self : LegalChunker) (document : Document)
    (legal_entities : option (list str)) : list Document :=
  let chunks := chunk_document self document in
  match legal_entities with
  | Some legal_entities =>
    if nonempty legal_entities then _preserve_legal_entities chunks legal_entities
    else chunks
  | None => chunks
  end.

End Chunker.

(* ===================================================================== *)
(** * The generic splitter                                                *)
(* ===================================================================== *)

Module Langchain.

(** [TextSplitter.split_documents] of the library, for a splitter built
    without [add_start_index]: every piece [split_text] gives for a
    document becomes a document with a copy of the metadata of its parent. *)
Definition split_documents (split_text : str -> list str) (documents : list Document)
  : list Document :=
  flat_map
    (fun doc => map (fun chunk => Doc.mk chunk (Doc.metadata doc))
                    (split_text (Doc.page_content doc)))
    documents.

End Langchain.

(* ===================================================================== *)
(** * integration.py                                                      *)
(* ===================================================================== *)

(** [self] of [LegalDocumentEnhancement]. *)
Record LegalDocumentEnhancement : Type := mkEnhancement {
  use_enhanced_processing : bool;
  use_semantic_chunking : bool;
  (** whether [self.document_processor] is set *)
  document_processor : bool;
  (** [self.chunker] *)
  chunker : option LegalChunker;
  (** [split_documents] of the splitter that [_fallback_chunking] builds,
      [RecursiveCharacterTextSplitter(chunk_size=1000, chunk_overlap=200)] *)
  text_splitter : list Document -> list Document
}.

Module Integration.

Definition _fallback_processing (W : World) (file_path : Path) : DocumentRecord :=
  {| raw_content := py "Processed " ++ file_path ++ py " with GPT Researcher";
     url := name file_path;
     enhanced_processing := false;
     metadata :=
       <[py "processing_method" := VStr (py "gpt_researcher")]>
       (<[py "file_type" := VStr (lower W (suffix file_path))]> ∅) |}.

Definition process_document (self : LegalDocumentEnhancement) (W : World)
    (file_path : Path) : DocumentRecord :=
  if document_processor self && use_enhanced_processing self then
    match LegalDocumentProcessor.process_document W file_path with
    | Ok record => record
    | Raise e => _fallback_processing W file_path
    end
  else _fallback_processing W file_path.

(** With enhanced processing the list of the document processor is
    returned as it is ([None]: the batch never returns); without it the
    items are processed one after the other. *)
Definition process_documents_batch (self : LegalDocumentEnhancement) (W : World)
    (completion : list nat) (file_paths : list Path)
  : option (list (result DocumentRecord)) :=
  if document_processor self && use_enhanced_processing self then
    LegalDocumentProcessor.process_documents_batch W completion file_paths
  else
    Some (fold_left
            (fun results file_path => results ++ [Ok (_fallback_processing W file_path)])
            file_paths []).

Definition _fallback_chunking (self : LegalDocumentEnhancement) (document : Document)
  : list Document :=
  text_splitter self [document].

Definition chunk_document (self : LegalDocumentEnhancement) (document : Document)
  : list Document :=
  match chunker self with
  | Some chunker =>
    if use_semantic_chunking self then Chunker.chunk_document_semantic chunker document
    else _fallback_chunking self document
  | None => _fallback_chunking self document
  end.

Definition chunk_documents (self : LegalDocumentEnhancement) (documents : list Document)
  : list Document :=
  match chunker self with
  | Some chunker =>
    if use_semantic_chunking self then Chunker.chunk_documents chunker documents
    else
      fold_left (fun all_chunks doc => all_chunks ++ _fallback_chunking self doc)
        documents []
  | None =>
    fold_left (fun all_chunks doc => all_chunks ++ _fallback_chunking self doc)
      documents []
  end.

End Integration.

(* ===================================================================== *)
(** * Sample environments                                                 *)
(* ===================================================================== *)

Module Sample.

(** A ZIP archive with a text entry and an entry that is not UTF-8. *)
Definition b_bin : bytes := [xff; xfe; x00; x80].

Definition docs_zip : list ArchiveEntry :=
  [ mkEntry (py "a.txt") 5 (Ok (bytes_of "hello"));
    mkEntry (py "b.bin") 4 (Ok b_bin) ].

Definition bundle_tar : list ArchiveEntry :=
  [ mkEntry (py "notes.txt") 5 (Ok (bytes_of "terms")) ].

Definition not_an_archive : Exception :=
  mkException OSError (py "File is not an archive").

Definition files : list (Path * FileNode) :=
  [ (py "docs.zip", mkFile 230 (Ok [x50; x4b; x03; x04]));
    (py "bundle.tar.gz", mkFile 120 (Ok [x1f; x8b; x08; x00]));
    (py "bundle.tar", mkFile 10240 (Ok (bytes_of "notes.txt")));
    (py "notes.xyz", mkFile 4 (Ok (bytes_of "memo")));
    (py "report.txt", mkFile 6 (Ok (bytes_of "report")));
    (py "letter.msg", mkFile 9 (Ok (bytes_of "Dear  all")));
    (py "locked.eml", mkFile 7
       (Raise (mkException OSError (py "[Errno 13] Permission denied")))) ].

Definition lookup_file (p : Path) : option FileNode :=
  snd <$> find (fun entry => str_eqb (fst entry) p) files.

(** Loaders are constructed without touching the file; loading reads the
    file as one page of text. *)
Definition load_text (p : Path) : Loader :=
  match lookup_file p with
  | Some f =>
    let* content := read_bytes f in
    let* text := decode_utf8 Strict content in
    Ok [text]
  | None => Raise (mkException RuntimeError (py "Error loading " ++ p))
  end.

Definition world : World :=
  {| ZIP_PROCESSING_AVAILABLE := true;
     RAR_PROCESSING_AVAILABLE := false;
     EMAIL_PROCESSING_AVAILABLE := true;
     PST_PROCESSING_AVAILABLE := false;
     fs := lookup_file;
     lower := ascii_lower;
     now_isoformat := py "2025-01-01T00:00:00";
     zipfile_open := fun p =>
       if str_eqb p (py "docs.zip") then Ok docs_zip else Raise not_an_archive;
     rarfile_open := fun p => Raise not_an_archive;
     tarfile_open := fun p mode =>
       match mode with
       | R_gz => if str_eqb p (py "bundle.tar.gz") then Ok bundle_tar else Raise not_an_archive
       | R => if str_eqb p (py "bundle.tar") then Ok bundle_tar else Raise not_an_archive
       | R_bz2 => Raise not_an_archive
       end;
     eml_read := fun p => Raise (mkException OSError (py "[Errno 13] Permission denied"));
     pst_read := fun p => Raise not_an_archive;
     pdf_enhanced := fun p => Raise (mkException RuntimeError (py "no OCR engine"));
     image_enhanced := fun p => Raise (mkException RuntimeError (py "no OCR engine"));
     new_loader := fun class p => Ok (load_text p) |}.

(** An embedding model for which every sentence is as similar as can be to
    every group: vectors carry no information. *)
Definition agreeable : SentenceTransformer :=
  {| Vec := unit;
     encode := fun sentences => Ok (map (fun _ => tt) sentences);
     np_mean := fun _ => tt;
     cos_sim := fun _ _ => 1%Q |}.

(** An embedding model for which no sentence is similar to any group. *)
Definition contrary : SentenceTransformer :=
  {| Vec := unit;
     encode := fun sentences => Ok (map (fun _ => tt) sentences);
     np_mean := fun _ => tt;
     cos_sim := fun _ _ => 0%Q |}.

(** An embedding model whose [encode] fails. *)
Definition broken : SentenceTransformer :=
  {| Vec := unit;
     encode := fun sentences => Raise (mkException RuntimeError (py "CUDA out of memory"));
     np_mean := fun _ => tt;
     cos_sim := fun _ _ => 0%Q |}.

(** Overlapping windows of [chunk_size] characters that advance by
    [chunk_size - chunk_overlap]; [fuel] bounds the number of windows. *)
Fixpoint windows (fuel : nat) (chunk_size step : nat) (text : str) : list str :=
  match fuel with
  | O => []
  | S fuel' =>
    match text with
    | [] => []
    | _ :: _ =>
      if (length text <=? chunk_size)%nat then [text]
      else take chunk_size text :: windows fuel' chunk_size step (drop step text)
    end
  end.

Definition fixed_windows (chunk_size chunk_overlap : nat) (text : str) : list str :=
  windows (length text) chunk_size (Nat.max 1 (chunk_size - chunk_overlap)) text.

(** [LegalChunker(similarity_threshold=0.75, min_chunk_size=.., max_chunk_size=..,
    chunk_overlap=..)] with the given model state.  The fallback splitter
    cuts plain overlapping windows; a text shorter than [max_chunk_size], as
    in the samples below, it returns whole, as the recursive splitter of the
    library does. *)
Definition chunker (model : option SentenceTransformer)
    (min_chunk_size max_chunk_size chunk_overlap : nat) : LegalChunker :=
  {| model := model;
     similarity_threshold := 0.75%Q;
     min_chunk_size := Z.of_nat min_chunk_size;
     max_chunk_size := Z.of_nat max_chunk_size;
     chunk_overlap := Z.of_nat chunk_overlap;
     fallback_chunker :=
       Langchain.split_documents (fixed_windows max_chunk_size chunk_overlap) |}.

(** [world] with a ZIP codec that opens every file as the given entries. *)
Definition with_zip (entries : list ArchiveEntry) : World :=
  {| ZIP_PROCESSING_AVAILABLE := true;
     RAR_PROCESSING_AVAILABLE := false;
     EMAIL_PROCESSING_AVAILABLE := true;
     PST_PROCESSING_AVAILABLE := false;
     fs := fs world;
     lower := lower world;
     now_isoformat := now_isoformat world;
     zipfile_open := fun p => Ok entries;
     rarfile_open := rarfile_open world;
     tarfile_open := tarfile_open world;
     eml_read := eml_read world;
     pst_read := pst_read world;
     pdf_enhanced := pdf_enhanced world;
     image_enhanced := image_enhanced world;
     new_loader := new_loader world |}.

(** [world] with one more file. *)
Definition with_file (path : Path) (node : FileNode) : World :=
  {| ZIP_PROCESSING_AVAILABLE := true;
     RAR_PROCESSING_AVAILABLE := false;
     EMAIL_PROCESSING_AVAILABLE := true;
     PST_PROCESSING_AVAILABLE := false;
     fs := fun p => if str_eqb p path then Some node else fs world p;
     lower := lower world;
     now_isoformat := now_isoformat world;
     zipfile_open := zipfile_open world;
     rarfile_open := rarfile_open world;
     tarfile_open := tarfile_open world;
     eml_read := eml_read world;
     pst_read := pst_read world;
     pdf_enhanced := pdf_enhanced world;
     image_enhanced := image_enhanced world;
     new_loader := new_loader world |}.

(** [world] without the [unstructured] package: the loaders that need it
    cannot be constructed. *)
Definition without_unstructured : World :=
  {| ZIP_PROCESSING_AVAILABLE := true;
     RAR_PROCESSING_AVAILABLE := false;
     EMAIL_PROCESSING_AVAILABLE := true;
     PST_PROCESSING_AVAILABLE := false;
     fs := fs world;
     lower := lower world;
     now_isoformat := now_isoformat world;
     zipfile_open := zipfile_open world;
     rarfile_open := rarfile_open world;
     tarfile_open := tarfile_open world;
     eml_read := eml_read world;
     pst_read := pst_read world;
     pdf_enhanced := pdf_enhanced world;
     image_enhanced := image_enhanced world;
     new_loader := fun class p =>
       match class with
       | PyMuPDFLoader | TextLoader => Ok (load_text p)
       | _ => Raise (mkException ValueError (py "unstructured package not found"))
       end |}.

(** An archive with a directory marker, a text file and an entry that
    cannot be read. *)
Definition contracts_zip : list ArchiveEntry :=
  [ mkEntry (py "contracts/") 0 (Ok []);
    mkEntry (py "contracts/nda.txt") 3 (Ok (bytes_of "NDA"));
    mkEntry (py "contracts/sealed.bin") 7
      (Raise (mkException RuntimeError (py "File is encrypted"))) ].

(** The same archive without the directory marker. *)
Definition flat_zip : list ArchiveEntry :=
  [ mkEntry (py "nda.txt") 3 (Ok (bytes_of "NDA"));
    mkEntry (py "sealed.bin") 7
      (Raise (mkException RuntimeError (py "File is encrypted"))) ].

(** The header codec for headers without encoded words: the header comes
    back as one string part. *)
Definition plain_codec : EmailProcessor.HeaderCodec :=
  {| EmailProcessor.decode_header := fun header => Ok [EmailProcessor.StrPart header];
     EmailProcessor.bytes_decode := fun encoding part => decode_utf8 Strict part |}.

(** A multipart message: a plain text body, an HTML alternative, a text
    attachment and a PDF attachment. *)
Definition mail : EmailProcessor.Message :=
  EmailProcessor.Multipart (py "multipart/mixed") [] None
    [ EmailProcessor.Part (py "text/plain") [] None (Some (bytes_of "  Please sign. "));
      EmailProcessor.Part (py "text/html") [] None
        (Some (bytes_of "<p>Please <b>sign</b>.</p>"));
      EmailProcessor.Part (py "text/csv") (py "attachment; filename=fees.csv")
        (Some (py "fees.csv")) (Some (bytes_of "fee,100"));
      EmailProcessor.Part (py "application/pdf") (py "attachment; filename=nda.pdf")
        (Some (py "nda.pdf")) (Some [x25; x50; x44; x46; xff]) ].

(** The integration wrapper with every feature on, and with enhanced
    processing off. *)
Definition enhancement (enhanced : bool) : LegalDocumentEnhancement :=
  mkEnhancement enhanced true enhanced
    (Some (chunker (Some contrary) 5 1000 100))
    (Langchain.split_documents (fixed_windows 1000 200)).

End Sample.

(* ===================================================================== *)
(** * Properties of records and chunks                                    *)
(* ===================================================================== *)

(** A text without sentence terminators. *)
Definition terminator_free (s : str) : Prop :=
  Forall (fun c => Chunker.is_terminator c = false) s.

(** Every key of [parent] is a key of [md]. *)
Definition carries_keys_of (parent md : gmap str Value) : Prop :=
  forall k, is_Some (parent !! k) -> is_Some (md !! k).

(** The [chunk_index] of the first chunk is below that of the second. *)
Definition index_lt (d1 d2 : Document) : Prop :=
  exists a b : Z,
    Doc.metadata d1 !! py "chunk_index" = Some (VInt a)
    /\ Doc.metadata d2 !! py "chunk_index" = Some (VInt b)
    /\ a < b.

(** [docs] are the chunks of [chunks] of at least the minimum size, in
    order, each numbered by its position in [chunks] and tagged with
    [method] and with the length of [chunks]. *)
Definition numbered_before_filter (self : LegalChunker) (parent : Document)
    (method : str) (chunks : list str) (docs : list Document) : Prop :=
  StronglySorted index_lt docs
  /\ (forall d, d ∈ docs ->
        exists i : nat,
          chunks !! i = Some (Doc.page_content d)
          /\ min_chunk_size self <= len (strip (Doc.page_content d))
          /\ Doc.metadata d !! py "chunk_index" = Some (VInt (Z.of_nat i))
          /\ Doc.metadata d !! py "chunking_method" = Some (VStr method)
          /\ Doc.metadata d !! py "total_chunks" = Some (VInt (len chunks))
          /\ carries_keys_of (Doc.metadata parent) (Doc.metadata d))
  /\ (forall (i : nat) c,
        chunks !! i = Some c ->
        min_chunk_size self <= len (strip c) ->
        exists d, d ∈ docs /\ Doc.page_content d = c
                  /\ Doc.metadata d !! py "chunk_index" = Some (VInt (Z.of_nat i))).

(** The metadata the specification promises for the chunks returned by
    semantic chunking. *)
Definition metadata_as_specified (self : LegalChunker) (parent : Document)
    (docs : list Document) : Prop :=
  forall (j : nat) d, docs !! j = Some d ->
    Doc.metadata d !! py "chunking_method" = Some (VStr (py "semantic"))
    /\ Doc.metadata d !! py "total_chunks" = Some (VInt (len docs))
    /\ Doc.metadata d !! py "chunk_index" = Some (VInt (Z.of_nat j))
    /\ Doc.metadata d !! py "similarity_threshold"
       = Some (VFloat (similarity_threshold self))
    /\ carries_keys_of (Doc.metadata parent) (Doc.metadata d).

(** Every chunk is tagged as a fixed-window chunk. *)
Definition tagged_fixed_window (docs : list Document) : Prop :=
  forall d, d ∈ docs ->
    Doc.metadata d !! py "chunking_method" = Some (VStr (py "fixed-window")).

(** The operation returned a record: it did not raise. *)
Definition returns_record (r : result DocumentRecord) : Prop :=
  exists record, r = Ok record.

(** A record of the degraded path for [p]: not enhanced, holding the text
    of the file when it can be read, and else a message that names the file
    and the reason. *)
Definition degraded (W : World) (p : Path) (record : DocumentRecord) : Prop :=
  enhanced_processing record = false
  /\ url record = p
  /\ match read_text W p with
     | Ok content =>
       raw_content record = content
       /\ metadata record !! py "processing_method" = Some (VStr (py "fallback"))
     | Raise e =>
       (exists reason,
          raw_content record = py "Could not process " ++ name p ++ py ": " ++ reason)
       /\ metadata record !! py "processing_method" = Some (VStr (py "error"))
       /\ metadata record !! py "error" = Some (VStr (exc_str e))
     end.

(** A record that is enhanced, or degraded for [p]. *)
Definition usable (W : World) (p : Path) (record : DocumentRecord) : Prop :=
  enhanced_processing record = true \/ degraded W p record.

(** What the email batch holds at the slot of a path. *)
Definition email_slot (W : World) (file_path : Path) : DocumentRecord :=
  match EmailProcessor.process_email_file W file_path with
  | Ok record => record
  | Raise e => EmailProcessor.error_record W file_path e
  end.

(** What the archive batch holds at the slot of a path. *)
Definition archive_slot (W : World) (file_path : Path) : DocumentRecord :=
  match ArchiveProcessor.process_archive_file W file_path with
  | Ok record => record
  | Raise e => ArchiveProcessor.error_record W file_path e
  end.

(** The slots of [gather] after the tasks of [seen] have completed. *)
Definition filled {A} (tasks : list (result A)) (seen : list nat)
    (slots : list (option (result A))) : Prop :=
  length slots = length tasks
  /\ forall i outcome, tasks !! i = Some outcome ->
       slots !! i = Some (if bool_decide (i ∈ seen) then Some outcome else None).

(** The state of the grouping loop holds texts without terminators only. *)
Definition clean {V} (st : Chunker.GroupState V) : Prop :=
  Forall terminator_free (Chunker.chunks st)
  /\ Forall terminator_free (Chunker.current_chunk st).

(** The metadata of the chunk numbered [i]: the parent metadata updated
    with the entries of [extra i]. *)
Definition with_extra (md : gmap str Value) (extra : nat -> list (str * Value))
    (i : nat) : gmap str Value :=
  fold_left (fun acc kv => <[kv.1 := kv.2]> acc) (extra i) md.

(** An entry is regular: it is not a directory marker and it can be read. *)
Definition regular (e : ArchiveEntry) : Prop :=
  endswith (entry_name e) [slash] = false /\ exists content, entry_read e = Ok content.

(** What the grouping loop ensures of a chunk: the sentences before its
    last one, joined, are within the maximum size. *)
Definition within_max_before_last (self : LegalChunker) (chunk : str) : Prop :=
  exists (group : list str) (last : str),
    chunk = join Chunker.space (group ++ [last])
    /\ (group = [] \/ len (join Chunker.space group) <= max_chunk_size self).

(** The bound the specification gives on a chunk: at most the maximum size,
    unless it is one sentence that alone exceeds it. *)
Definition within_max (self : LegalChunker) (sentences : list str) (chunk : str) : Prop :=
  len chunk <= max_chunk_size self
  \/ (chunk ∈ sentences /\ max_chunk_size self < len chunk).

(** Disequality of two literal keys. *)
Ltac key_ne := let H := fresh in intros H; vm_compute in H; discriminate H.

(** Lookup of a literal key in a dictionary built by successive updates. *)
Ltac lookup_updates :=
  unfold with_extra; cbn [fold_left fst snd];
  repeat (rewrite lookup_insert_ne by key_ne);
  first [ apply lookup_insert_eq | reflexivity ].

(* ===================================================================== *)
(** * Sentence splitting                                                  *)
(* ===================================================================== *)

Section Sentences.

Import Chunker.

Lemma terminator_free_app (a b : str) :
  terminator_free a -> terminator_free b -> terminator_free (a ++ b).
Proof. unfold terminator_free. intros Ha Hb. apply Forall_app; auto. Qed.

Lemma terminator_free_rev (s : str) :
  terminator_free s -> terminator_free (rev s).
Proof. apply Forall_rev. Qed.

Lemma lstrip_keeps (P : char -> Prop) (s : str) :
  Forall P s -> Forall P (lstrip s).
Proof.
  induction s as [|c s IH]; simpl; intros H; [constructor|].
  destruct (isspace c); [|exact H].
  apply IH. by inversion H.
Qed.

Lemma strip_keeps (P : char -> Prop) (s : str) :
  Forall P s -> Forall P (strip s).
Proof.
  intros H. unfold strip, rstrip.
  apply Forall_rev, lstrip_keeps, Forall_rev, lstrip_keeps, H.
Qed.

Lemma re_split_terminator_free (text piece : str) (in_run : bool) :
  terminator_free piece ->
  Forall terminator_free (re_split in_run piece text).
Proof.
  revert piece in_run.
  induction text as [|c text IH]; simpl; intros piece in_run Hp.
  - constructor; [by apply terminator_free_rev | constructor].
  - destruct (is_terminator c) eqn:Hc.
    + destruct in_run.
      * by apply IH.
      * constructor; [by apply terminator_free_rev|].
        apply IH. constructor.
    + apply IH. by constructor.
Qed.

Lemma sentences_terminator_free (text : str) :
  Forall terminator_free (_split_into_sentences text).
Proof.
  unfold _split_into_sentences.
  apply Forall_map, Forall_forall.
  intros s Hs. apply strip_keeps.
  apply list_elem_of_In, filter_In in Hs. destruct Hs as [Hs _].
  assert (Hnil : terminator_free []) by constructor.
  pose proof (re_split_terminator_free text [] false Hnil) as Hall.
  rewrite Forall_forall in Hall. apply Hall. by apply list_elem_of_In.
Qed.

Lemma sentences_nonempty (text : str) :
  Forall (fun s => s <> []) (_split_into_sentences text).
Proof.
  unfold _split_into_sentences.
  apply Forall_map, Forall_forall.
  intros s Hs. apply list_elem_of_In, filter_In in Hs. destruct Hs as [_ Hs].
  simpl. destruct (strip s); [discriminate|discriminate].
Qed.

End Sentences.

(* ===================================================================== *)
(** * The grouping loop                                                   *)
(* ===================================================================== *)

Section Grouping.

Import Chunker.

Variable self : LegalChunker.
Variable m : SentenceTransformer.

Lemma join_keeps (P : str -> Prop) (sep : str) (parts : list str) :
  (forall a b, P a -> P b -> P (a ++ b)) -> P [] -> P sep ->
  Forall P parts -> P (join sep parts).
Proof.
  intros Happ Hnil Hsep.
  induction parts as [|s parts IH]; intros Hall; [exact Hnil|].
  inversion Hall as [|? ? Hs Hrest]; subst.
  destruct parts as [|s' parts']; [exact Hs|].
  change (P (s ++ sep ++ join sep (s' :: parts'))).
  apply Happ; [exact Hs|]. apply Happ; [exact Hsep|]. by apply IH.
Qed.

Lemma join_terminator_free (parts : list str) :
  Forall terminator_free parts -> terminator_free (join space parts).
Proof.
  apply join_keeps.
  - apply terminator_free_app.
  - constructor.
  - repeat constructor.
Qed.

Lemma group_step_clean st sentence embedding :
  clean st -> terminator_free sentence ->
  clean (group_step self m st (sentence, embedding)).
Proof.
  intros [Hc Hcur] Hs. unfold group_step, clean.
  destruct (negb (nonempty (current_chunk st))); simpl.
  - split; [exact Hc|]. apply Forall_app; split; [exact Hcur|]. by repeat constructor.
  - destruct (_ && _); simpl.
    + split; [|by repeat constructor].
      apply Forall_app; split; [exact Hc|].
      constructor; [|constructor]. by apply join_terminator_free.
    + split; [exact Hc|]. apply Forall_app; split; [exact Hcur|]. by repeat constructor.
Qed.

Lemma fold_group_step_clean (sentences : list str) (embeddings : list (Vec m)) st :
  clean st -> Forall terminator_free sentences ->
  clean (fold_left (group_step self m) (zip sentences embeddings) st).
Proof.
  revert embeddings st.
  induction sentences as [|s sentences IH]; intros embeddings st Hst Hall; [exact Hst|].
  destruct embeddings as [|e embeddings]; [exact Hst|].
  inversion Hall; subst. simpl.
  apply IH; [|assumption]. by apply group_step_clean.
Qed.

Lemma grouped_terminator_free (sentences : list str) (embeddings : list (Vec m)) :
  Forall terminator_free sentences ->
  Forall terminator_free (_group_sentences_semantically self m sentences embeddings).
Proof.
  intros Hall. unfold _group_sentences_semantically.
  assert (Hinit : clean (mkState (V := Vec m) [] [] [])) by (split; simpl; constructor).
  destruct (fold_group_step_clean sentences embeddings _ Hinit Hall) as [Hc Hcur].
  destruct (nonempty _); [|exact Hc].
  apply Forall_app; split; [exact Hc|].
  constructor; [|constructor]. by apply join_terminator_free.
Qed.

(** The running chunk is empty or within the maximum size before its last
    sentence. *)
Local Abbreviation open_chunk_ok st :=
  (current_chunk st = []
   \/ within_max_before_last self (join space (current_chunk st))
      /\ current_chunk st <> []).

Lemma group_step_bound st item :
  Forall (within_max_before_last self) (chunks st) -> open_chunk_ok st ->
  Forall (within_max_before_last self) (chunks (group_step self m st item))
  /\ open_chunk_ok (group_step self m st item).
Proof.
  intros Hchunks Hopen. destruct item as [sentence embedding]. unfold group_step.
  destruct (current_chunk st) as [|s0 current] eqn:Hcur; simpl.
  - split; [exact Hchunks|]. right. split; [|discriminate].
    exists [], sentence. split; [reflexivity | by left].
  - match goal with |- context [if ?b then _ else _] => destruct b eqn:Hnew end;
      simpl.
    + split.
      * apply Forall_app. split; [exact Hchunks|].
        constructor; [|constructor].
        destruct Hopen as [Hempty | [Hok _]]; [discriminate | exact Hok].
      * right. split; [|discriminate].
        exists [], sentence. split; [reflexivity | by left].
    + split; [exact Hchunks|]. right. split; [|discriminate].
      exists (s0 :: current), sentence. split; [reflexivity|]. right.
      rewrite andb_true_r in Hnew.
      apply orb_false_iff in Hnew. destruct Hnew as [_ Hsize].
      by apply Z.ltb_ge in Hsize.
Qed.

(** Every chunk of the grouping loop is within the maximum size before its
    last sentence: the loop closes a chunk once it has grown past the
    maximum, not before. *)
Lemma grouped_within_max_before_last (sentences : list str) (embeddings : list (Vec m)) :
  Forall (within_max_before_last self)
    (_group_sentences_semantically self m sentences embeddings).
Proof.
  unfold _group_sentences_semantically.
  assert (Hfold : forall items st,
             Forall (within_max_before_last self) (chunks st) -> open_chunk_ok st ->
             Forall (within_max_before_last self)
               (chunks (fold_left (group_step self m) items st))
             /\ open_chunk_ok (fold_left (group_step self m) items st)).
  { induction items as [|item items IH]; intros st Hc Ho; [by split|].
    simpl. destruct (group_step_bound st item Hc Ho) as [Hc' Ho']. by apply IH. }
  destruct (Hfold (zip sentences embeddings) (mkState (V := Vec m) [] [] []))
    as [Hc Ho]; [constructor | by left |].
  destruct (current_chunk _) as [|s0 current] eqn:Hcur; simpl; [exact Hc|].
  apply Forall_app. split; [exact Hc|]. constructor; [|constructor].
  destruct Ho as [Hempty | [Hok _]]; [discriminate | exact Hok].
Qed.

End Grouping.

(* ===================================================================== *)
(** * Numbering and filtering of the chunks                               *)
(* ===================================================================== *)

Section Numbering.

Import Chunker.

Variable self : LegalChunker.
Variable md : gmap str Value.
Variable extra : nat -> list (str * Value).

Local Abbreviation with_extra := (with_extra md extra).

Lemma chunked_docs_elem (rest : list str) (i : nat) (d : Document) :
  d ∈ chunked_docs self md extra i rest ->
  exists k : nat,
    rest !! k = Some (Doc.page_content d)
    /\ Doc.metadata d = with_extra (i + k)
    /\ min_chunk_size self <= len (strip (Doc.page_content d)).
Proof.
  revert i. induction rest as [|c rest IH]; intros i Hd; simpl in Hd.
  - by apply elem_of_nil in Hd.
  - apply elem_of_app in Hd. destruct Hd as [Hd|Hd].
    + destruct (min_chunk_size self <=? len (strip c)) eqn:Hmin.
      * apply list_elem_of_singleton in Hd. subst d. exists 0%nat. simpl.
        rewrite Nat.add_0_r. split; [reflexivity|]. split; [reflexivity|].
        by apply Z.leb_le.
      * by apply elem_of_nil in Hd.
    + destruct (IH _ Hd) as (k & Hk & Hmd & Hmin).
      exists (S k). simpl. rewrite Nat.add_succ_r. by repeat split.
Qed.

Lemma chunked_docs_complete (rest : list str) (i k : nat) (c : str) :
  rest !! k = Some c ->
  min_chunk_size self <= len (strip c) ->
  Doc.mk c (with_extra (i + k)) ∈ chunked_docs self md extra i rest.
Proof.
  revert i k. induction rest as [|c0 rest IH]; intros i k Hk Hmin; [done|].
  simpl. apply elem_of_app. destruct k as [|k]; simpl in Hk.
  - injection Hk as ->. left.
    apply Z.leb_le in Hmin. rewrite Hmin, Nat.add_0_r. by apply list_elem_of_singleton.
  - right. rewrite Nat.add_succ_r. by apply (IH (S i) k).
Qed.

Lemma chunked_docs_length (rest : list str) (i : nat) :
  (length (chunked_docs self md extra i rest) <= length rest)%nat.
Proof.
  revert i. induction rest as [|c rest IH]; intros i; simpl; [lia|].
  rewrite length_app. specialize (IH (S i)).
  destruct (min_chunk_size self <=? len (strip c)); simpl; lia.
Qed.

Hypothesis extra_index :
  forall i, with_extra i !! py "chunk_index" = Some (VInt (Z.of_nat i)).

Lemma chunked_docs_sorted (rest : list str) (i : nat) :
  StronglySorted index_lt (chunked_docs self md extra i rest).
Proof.
  revert i. induction rest as [|c rest IH]; intros i; simpl; [constructor|].
  destruct (min_chunk_size self <=? len (strip c)); simpl; [|apply IH].
  constructor; [apply IH|].
  apply Forall_forall. intros d Hd.
  apply chunked_docs_elem in Hd. destruct Hd as (k & _ & Hmd & _).
  exists (Z.of_nat i), (Z.of_nat (S i + k)).
  split; [apply extra_index|].
  split; [rewrite Hmd; apply extra_index | lia].
Qed.

End Numbering.

(* ===================================================================== *)
(** * Semantic chunking                                                   *)
(* ===================================================================== *)

Section SemanticChunk.

Import Chunker.

Lemma document_eta (doc : Document) :
  Doc.mk (Doc.page_content doc) (Doc.metadata doc) = doc.
Proof. by destruct doc. Qed.

(** Fewer than two sentences: the document comes back as the only chunk. *)
Lemma semantic_chunk_few (self : LegalChunker) (doc : Document) :
  len (_split_into_sentences (Doc.page_content doc)) < 2 ->
  _semantic_chunk self doc = Ok [doc].
Proof.
  intros Hlen. unfold _semantic_chunk.
  apply Z.ltb_lt in Hlen. rewrite Hlen. by rewrite document_eta.
Qed.

(** Two sentences or more: the result is the numbered, filtered list of the
    grouped chunks. *)
Lemma semantic_chunk_many (self : LegalChunker) (doc : Document) (docs : list Document) :
  2 <= len (_split_into_sentences (Doc.page_content doc)) ->
  _semantic_chunk self doc = Ok docs ->
  exists (m : SentenceTransformer) (embeddings : list (Vec m)),
    model self = Some m
    /\ encode m (_split_into_sentences (Doc.page_content doc)) = Ok embeddings
    /\ docs =
       let chunks :=
         _group_sentences_semantically self m
           (_split_into_sentences (Doc.page_content doc)) embeddings in
       chunked_docs self (Doc.metadata doc)
         (fun i => [(py "chunk_index", VInt (Z.of_nat i));
                    (py "chunking_method", VStr (py "semantic"));
                    (py "total_chunks", VInt (len chunks))])
         0 chunks.
Proof.
  intros Hlen. unfold _semantic_chunk.
  assert (Hlt : (len (_split_into_sentences (Doc.page_content doc)) <? 2) = false)
    by (apply Z.ltb_ge; lia).
  rewrite Hlt.
  destruct (model self) as [m|]; [|discriminate].
  destruct (encode m _) as [embeddings|e] eqn:Henc; simpl; [|discriminate].
  intros [= <-]. by exists m, embeddings.
Qed.

Lemma semantic_chunk_original_many (self : LegalChunker) (doc : Document)
    (docs : list Document) :
  2 <= len (_split_into_sentences (Doc.page_content doc)) ->
  _semantic_chunk_original self doc = Ok docs ->
  exists (m : SentenceTransformer) (embeddings : list (Vec m)),
    model self = Some m
    /\ encode m (_split_into_sentences (Doc.page_content doc)) = Ok embeddings
    /\ docs =
       let chunks :=
         _group_sentences_semantically self m
           (_split_into_sentences (Doc.page_content doc)) embeddings in
       chunked_docs self (Doc.metadata doc)
         (fun i => [(py "chunk_index", VInt (Z.of_nat i));
                    (py "chunking_method", VStr (py "semantic_original"));
                    (py "total_chunks", VInt (len chunks));
                    (py "similarity_threshold", VFloat (similarity_threshold self))])
         0 chunks.
Proof.
  intros Hlen. unfold _semantic_chunk_original.
  assert (Hlt : (len (_split_into_sentences (Doc.page_content doc)) <? 2) = false)
    by (apply Z.ltb_ge; lia).
  rewrite Hlt.
  destruct (model self) as [m|]; [|discriminate].
  destruct (encode m _) as [embeddings|e] eqn:Henc; simpl; [|discriminate].
  intros [= <-]. by exists m, embeddings.
Qed.

Lemma chunked_docs_contents (P : str -> Prop) self md extra (i : nat) (chunks : list str) :
  Forall P chunks ->
  Forall (fun d => P (Doc.page_content d)) (chunked_docs self md extra i chunks).
Proof.
  intros Hall. apply Forall_forall. intros d Hd.
  apply chunked_docs_elem in Hd. destruct Hd as (k & Hk & _).
  rewrite Forall_forall in Hall. apply Hall. by eapply list_elem_of_lookup_2.
Qed.

Lemma chunked_docs_all_small self md extra (i : nat) (chunks : list str) :
  Forall (fun c => len (strip c) < min_chunk_size self) chunks ->
  chunked_docs self md extra i chunks = [].
Proof.
  revert i. induction chunks as [|c chunks IH]; intros i Hall; [reflexivity|].
  inversion Hall as [|? ? Hc Hrest]; subst. simpl.
  assert (Hmin : (min_chunk_size self <=? len (strip c)) = false)
    by (apply Z.leb_gt; exact Hc).
  rewrite Hmin. simpl. by apply IH.
Qed.

End SemanticChunk.

(** ** Claims about the sentence splitter and the single-sentence path *)

(** C10. Sentence splitting consumes the terminators: every sentence of
    every text is non-empty and holds no '.', '!' or '?'; so no chunk
    returned by the semantic path for a document of at least two sentences
    holds one of them; and the punctuation cannot be recovered: for such
    documents the chunks depend on the list of sentences only, and texts
    that differ in punctuation alone have the same sentences. *)
Theorem C10_sentences_lose_terminators :
  (forall (text s : str),
      s ∈ Chunker._split_into_sentences text -> s <> [] /\ terminator_free s)
  /\ (forall (self : LegalChunker) (doc : Document) (docs : list Document),
        2 <= len (Chunker._split_into_sentences (Doc.page_content doc)) ->
        Chunker._semantic_chunk self doc = Ok docs ->
        forall d, d ∈ docs -> terminator_free (Doc.page_content d))
  /\ (forall (self : LegalChunker) (md : gmap str Value) (text1 text2 : str),
        Chunker._split_into_sentences text1 = Chunker._split_into_sentences text2 ->
        2 <= len (Chunker._split_into_sentences text1) ->
        Chunker._semantic_chunk self (Doc.mk text1 md)
        = Chunker._semantic_chunk self (Doc.mk text2 md))
  /\ (py "Pay now. Or else" <> py "Pay now! Or else?"
      /\ Chunker._split_into_sentences (py "Pay now. Or else")
         = Chunker._split_into_sentences (py "Pay now! Or else?")).
Proof.
  split; [|split; [|split]].
  - intros text s Hs. split.
    + pose proof (sentences_nonempty text) as H.
      rewrite Forall_forall in H. by apply H.
    + pose proof (sentences_terminator_free text) as H.
      rewrite Forall_forall in H. by apply H.
  - intros self doc docs Hlen Hrun d Hd.
    destruct (semantic_chunk_many self doc docs Hlen Hrun)
      as (m & embeddings & _ & _ & ->).
    cbv zeta in Hd.
    eapply chunked_docs_elem in Hd. destruct Hd as (k & Hk & _).
    pose proof (grouped_terminator_free self m _ embeddings
                  (sentences_terminator_free (Doc.page_content doc))) as Hall.
    rewrite Forall_forall in Hall. apply Hall. by eapply list_elem_of_lookup_2.
  - intros self md text1 text2 Heq Hlen.
    unfold Chunker._semantic_chunk. simpl. rewrite <- Heq.
    assert (Hlt : (len (Chunker._split_into_sentences text1) <? 2) = false)
      by (apply Z.ltb_ge; lia).
    by rewrite Hlt.
  - split; [discriminate | reflexivity].
Qed.

Lemma C10_sentences_lose_terminators_witness :
  Chunker._semantic_chunk (Sample.chunker (Some Sample.contrary) 3 1000 100)
    (Doc.mk (py "Pay now! Or else?") ∅)
  = Chunker._semantic_chunk (Sample.chunker (Some Sample.contrary) 3 1000 100)
      (Doc.mk (py "Pay now. Or else") ∅)
  /\ terminator_free (py "Pay now").
Proof.
  destruct C10_sentences_lose_terminators as (Hsent & _ & Hsame & _).
  split.
  - apply Hsame; [reflexivity | vm_compute; discriminate].
  - apply (Hsent (py "Pay now! Or else?")). vm_compute.
    apply list_elem_of_here.
Defined.

(** C8. Semantic chunking of a document that is one sentence, shorter than
    the maximum chunk size, gives exactly one chunk, equal to the input; so
    chunking that chunk again changes nothing. *)
Theorem C8_single_sentence_idempotent (self : LegalChunker) (doc : Document) :
  length (Chunker._split_into_sentences (Doc.page_content doc)) = 1%nat ->
  len (Doc.page_content doc) < max_chunk_size self ->
  Chunker._semantic_chunk self doc = Ok [doc]
  /\ (forall m, model self = Some m ->
        Chunker.chunk_document self doc = [doc]
        /\ forall d, d ∈ Chunker.chunk_document self doc ->
             Chunker.chunk_document self d = [d]).
Proof.
  intros Hone _.
  assert (Hfew : Chunker._semantic_chunk self doc = Ok [doc])
    by (apply semantic_chunk_few; unfold len; rewrite Hone; lia).
  split; [exact Hfew|].
  intros m Hm.
  assert (Hdoc : Chunker.chunk_document self doc = [doc])
    by (unfold Chunker.chunk_document; by rewrite Hm, Hfew).
  split; [exact Hdoc|].
  intros d Hd. rewrite Hdoc in Hd. apply list_elem_of_singleton in Hd. by subst d.
Qed.

Lemma C8_single_sentence_idempotent_witness :
  Chunker._semantic_chunk (Sample.chunker (Some Sample.agreeable) 200 1000 100)
    (Doc.mk (py "Either party may terminate for cause.") ∅)
  = Ok [Doc.mk (py "Either party may terminate for cause.") ∅].
Proof.
  apply (C8_single_sentence_idempotent
           (Sample.chunker (Some Sample.agreeable) 200 1000 100)
           (Doc.mk (py "Either party may terminate for cause.") ∅)).
  - reflexivity.
  - vm_compute. reflexivity.
Defined.

(** C9. The minimum-size filter is not applied on the single-sentence
    path: a document of fewer than two sentences comes back as one chunk
    equal to the whole text, also when the text is shorter than
    [min_chunk_size]; with two sentences or more the filter applies, and
    when every grouped chunk is too small the result is empty, which happens
    for some document. *)
Theorem C9_min_size_filter_bypassed_for_single_sentence :
  (forall (self : LegalChunker) (doc : Document),
      len (Chunker._split_into_sentences (Doc.page_content doc)) < 2 ->
      Chunker._semantic_chunk self doc = Ok [doc])
  /\ (exists (self : LegalChunker) (doc : Document),
        len (Doc.page_content doc) < min_chunk_size self
        /\ Chunker._semantic_chunk self doc = Ok [doc])
  /\ (forall (self : LegalChunker) (m : SentenceTransformer) (doc : Document)
             (embeddings : list (Vec m)),
        model self = Some m ->
        2 <= len (Chunker._split_into_sentences (Doc.page_content doc)) ->
        encode m (Chunker._split_into_sentences (Doc.page_content doc)) = Ok embeddings ->
        Forall (fun c => len (strip c) < min_chunk_size self)
          (Chunker._group_sentences_semantically self m
             (Chunker._split_into_sentences (Doc.page_content doc)) embeddings) ->
        Chunker._semantic_chunk self doc = Ok [])
  /\ (exists (self : LegalChunker) (doc : Document),
        2 <= len (Chunker._split_into_sentences (Doc.page_content doc))
        /\ Chunker._semantic_chunk self doc = Ok []).
Proof.
  split; [|split; [|split]].
  - intros self doc. apply semantic_chunk_few.
  - exists (Sample.chunker (Some Sample.agreeable) 200 1000 100),
           (Doc.mk (py "Short clause.") ∅).
    split; [reflexivity|]. by apply semantic_chunk_few.
  - intros self m doc embeddings Hm Hlen Henc Hsmall.
    unfold Chunker._semantic_chunk.
    assert (Hlt : (len (Chunker._split_into_sentences (Doc.page_content doc)) <? 2) = false)
      by (apply Z.ltb_ge; lia).
    rewrite Hlt, Hm, Henc. simpl. f_equal.
    by apply chunked_docs_all_small.
  - exists (Sample.chunker (Some Sample.agreeable) 200 1000 100),
           (Doc.mk (py "Pay now. Or else.") ∅).
    split; [vm_compute; discriminate | reflexivity].
Qed.

Lemma C9_min_size_filter_bypassed_for_single_sentence_witness :
  Chunker._semantic_chunk (Sample.chunker (Some Sample.contrary) 200 1000 100)
    (Doc.mk (py "Void") ∅) = Ok [Doc.mk (py "Void") ∅]
  /\ Chunker._semantic_chunk (Sample.chunker (Some Sample.contrary) 200 1000 100)
       (Doc.mk (py "Void. Null.") ∅) = Ok [].
Proof.
  destruct C9_min_size_filter_bypassed_for_single_sentence as (Hfew & _ & Hmany & _).
  split.
  - apply (Hfew (Sample.chunker (Some Sample.contrary) 200 1000 100)
                (Doc.mk (py "Void") ∅)).
    reflexivity.
  - apply (Hmany (Sample.chunker (Some Sample.contrary) 200 1000 100) Sample.contrary
                 (Doc.mk (py "Void. Null.") ∅) [tt; tt]).
    + reflexivity.
    + vm_compute. discriminate.
    + reflexivity.
    + vm_compute. repeat constructor.
Defined.

(** ** Claims about the size bound and the chunk metadata *)

(** C4, evaluated. With [max_chunk_size = 10] and a model that finds all
    sentences similar, the two sentences of six characters each are grouped
    into one chunk of thirteen characters: the loop compares the length of
    the running chunk, without the new sentence, with the maximum. *)
Theorem C4_chunk_exceeds_max_chunk_size :
  let self := Sample.chunker (Some Sample.agreeable) 1 10 0 in
  let doc := Doc.mk (py "aaaaaa. bbbbbb.") ∅ in
  let sentences := Chunker._split_into_sentences (Doc.page_content doc) in
  sentences = [py "aaaaaa"; py "bbbbbb"]
  /\ Chunker._group_sentences_semantically self Sample.agreeable sentences [tt; tt]
     = [py "aaaaaa bbbbbb"]
  /\ (exists d, Chunker._semantic_chunk self doc = Ok [d]
                /\ Doc.page_content d = py "aaaaaa bbbbbb"
                /\ len (Doc.page_content d) = 13
                /\ ~ within_max self sentences (Doc.page_content d)).
Proof.
  cbv zeta. split; [reflexivity|]. split; [reflexivity|].
  eexists. split; [reflexivity|]. split; [reflexivity|]. split; [reflexivity|].
  intros [Hle | [Hin _]].
  - vm_compute in Hle. by apply Hle.
  - apply list_elem_of_In in Hin. vm_compute in Hin.
    destruct Hin as [H | [H | []]]; discriminate H.
Qed.

Section Metadata.

Import Chunker.

Lemma with_extra_carries_keys (md : gmap str Value) (extra : nat -> list (str * Value))
    (i : nat) :
  carries_keys_of md (with_extra md extra i).
Proof.
  unfold with_extra. generalize (extra i) as l. intros l. revert md.
  induction l as [|[k v] l IH]; intros md key Hkey; simpl; [exact Hkey|].
  apply IH. apply lookup_insert_is_Some'. by right.
Qed.

Lemma chunked_docs_numbered (self : LegalChunker) (parent : Document) (method : str)
    (chunks : list str) (extra : nat -> list (str * Value)) :
  (forall i, with_extra (Doc.metadata parent) extra i !! py "chunk_index"
             = Some (VInt (Z.of_nat i))) ->
  (forall i, with_extra (Doc.metadata parent) extra i !! py "chunking_method"
             = Some (VStr method)) ->
  (forall i, with_extra (Doc.metadata parent) extra i !! py "total_chunks"
             = Some (VInt (len chunks))) ->
  numbered_before_filter self parent method chunks
    (chunked_docs self (Doc.metadata parent) extra 0 chunks).
Proof.
  intros Hindex Hmethod Htotal. split; [|split].
  - by apply chunked_docs_sorted.
  - intros d Hd. apply chunked_docs_elem in Hd.
    destruct Hd as (k & Hk & Hmd & Hmin). simpl in Hmd.
    exists k. rewrite Hmd.
    repeat split; auto using with_extra_carries_keys.
  - intros i c Hi Hmin.
    exists (Doc.mk c (with_extra (Doc.metadata parent) extra i)).
    split; [|split; [reflexivity | apply Hindex]].
    by apply (chunked_docs_complete self (Doc.metadata parent) extra chunks 0 i c).
Qed.

End Metadata.

(** C5, as the code has it. For a document of at least two sentences,
    the chunks returned by [_semantic_chunk] are the grouped chunks of at
    least the minimum size, in order; each carries every key of the parent
    metadata, [chunking_method = "semantic"], [total_chunks] equal to the
    number of grouped chunks before the filter and [chunk_index] equal to
    its position among them, so the indices increase strictly; the
    similarity threshold is not added.  [_semantic_chunk_original] does the
    same with [chunking_method = "semantic_original"] and adds the
    similarity threshold. *)
Theorem C5_chunks_numbered_before_filter
    (self : LegalChunker) (doc : Document) (docs : list Document) :
  2 <= len (Chunker._split_into_sentences (Doc.page_content doc)) ->
  (Chunker._semantic_chunk self doc = Ok docs ->
   exists (m : SentenceTransformer) (embeddings : list (Vec m)),
     model self = Some m
     /\ encode m (Chunker._split_into_sentences (Doc.page_content doc)) = Ok embeddings
     /\ numbered_before_filter self doc (py "semantic")
          (Chunker._group_sentences_semantically self m
             (Chunker._split_into_sentences (Doc.page_content doc)) embeddings)
          docs
     /\ (forall d, d ∈ docs ->
           Doc.metadata d !! py "similarity_threshold"
           = Doc.metadata doc !! py "similarity_threshold"))
  /\ (Chunker._semantic_chunk_original self doc = Ok docs ->
      exists (m : SentenceTransformer) (embeddings : list (Vec m)),
        model self = Some m
        /\ encode m (Chunker._split_into_sentences (Doc.page_content doc)) = Ok embeddings
        /\ numbered_before_filter self doc (py "semantic_original")
             (Chunker._group_sentences_semantically self m
                (Chunker._split_into_sentences (Doc.page_content doc)) embeddings)
             docs
        /\ (forall d, d ∈ docs ->
              Doc.metadata d !! py "similarity_threshold"
              = Some (VFloat (similarity_threshold self)))).
Proof.
  intros Hlen. split; intros Hrun.
  - destruct (semantic_chunk_many self doc docs Hlen Hrun)
      as (m & embeddings & Hm & Henc & ->).
    exists m, embeddings. cbv zeta.
    split; [exact Hm|]. split; [exact Henc|]. split.
    + apply chunked_docs_numbered; intros i; lookup_updates.
    + intros d Hd. apply chunked_docs_elem in Hd.
      destruct Hd as (k & _ & Hmd & _). rewrite Hmd.
      unfold with_extra; cbn [fold_left fst snd].
      by repeat (rewrite lookup_insert_ne by key_ne).
  - destruct (semantic_chunk_original_many self doc docs Hlen Hrun)
      as (m & embeddings & Hm & Henc & ->).
    exists m, embeddings. cbv zeta.
    split; [exact Hm|]. split; [exact Henc|]. split.
    + apply chunked_docs_numbered; intros i; lookup_updates.
    + intros d Hd. apply chunked_docs_elem in Hd.
      destruct Hd as (k & _ & Hmd & _). rewrite Hmd. lookup_updates.
Qed.

Lemma C5_chunks_numbered_before_filter_witness :
  exists (m : SentenceTransformer) (embeddings : list (Vec m)),
    model (Sample.chunker (Some Sample.contrary) 5 1000 100) = Some m
    /\ encode m (Chunker._split_into_sentences (py "ab. cdefgh.")) = Ok embeddings
    /\ numbered_before_filter (Sample.chunker (Some Sample.contrary) 5 1000 100)
         (Doc.mk (py "ab. cdefgh.") ∅) (py "semantic")
         (Chunker._group_sentences_semantically
            (Sample.chunker (Some Sample.contrary) 5 1000 100) m
            (Chunker._split_into_sentences (py "ab. cdefgh.")) embeddings)
         [Doc.mk (py "cdefgh")
            (<[py "total_chunks" := VInt 2]>
             (<[py "chunking_method" := VStr (py "semantic")]>
              (<[py "chunk_index" := VInt 1]> ∅)))]
    /\ (forall d,
          d ∈ [Doc.mk (py "cdefgh")
                 (<[py "total_chunks" := VInt 2]>
                  (<[py "chunking_method" := VStr (py "semantic")]>
                   (<[py "chunk_index" := VInt 1]> ∅)))] ->
          Doc.metadata d !! py "similarity_threshold"
          = (∅ : gmap str Value) !! py "similarity_threshold").
Proof.
  apply (C5_chunks_numbered_before_filter
           (Sample.chunker (Some Sample.contrary) 5 1000 100)
           (Doc.mk (py "ab. cdefgh.") ∅)).
  - vm_compute. discriminate.
  - reflexivity.
Defined.

(** C5 as the specification words it fails where a grouped chunk is
    dropped: of the two grouped chunks "ab" and "cdefgh" only the second
    has five characters or more, and it is returned with [chunk_index = 1]
    and [total_chunks = 2], and without the similarity threshold. *)
Lemma C5_metadata_as_specified_counterexample :
  let self := Sample.chunker (Some Sample.contrary) 5 1000 100 in
  let doc := Doc.mk (py "ab. cdefgh.") ∅ in
  2 <= len (Chunker._split_into_sentences (Doc.page_content doc))
  /\ (exists d, Chunker._semantic_chunk self doc = Ok [d]
        /\ Doc.page_content d = py "cdefgh"
        /\ Doc.metadata d !! py "chunk_index" = Some (VInt 1)
        /\ Doc.metadata d !! py "total_chunks" = Some (VInt 2)
        /\ Doc.metadata d !! py "similarity_threshold" = None)
  /\ ~ (forall docs, Chunker._semantic_chunk self doc = Ok docs ->
          metadata_as_specified self doc docs).
Proof.
  cbv zeta. split; [vm_compute; discriminate|]. split.
  - eexists. split; [reflexivity|]. repeat split; reflexivity.
  - intros Hspec.
    specialize (Hspec _ eq_refl 0%nat _ eq_refl).
    destruct Hspec as (_ & Htotal & _).
    vm_compute in Htotal. discriminate Htotal.
Qed.

(** ** Claims about the fallback *)

Lemma split_documents_metadata (split_text : str -> list str) (doc d : Document) :
  d ∈ Langchain.split_documents split_text [doc] ->
  Doc.metadata d = Doc.metadata doc.
Proof.
  unfold Langchain.split_documents. simpl. rewrite app_nil_r.
  intros Hd. apply list_elem_of_In, in_map_iff in Hd.
  destruct Hd as (chunk & <- & _). reflexivity.
Qed.

(** C6, as the code has it. When the model handle is absent or semantic
    chunking raises, [chunk_document] returns what the generic splitter gives
    for the document, unchanged: the chunker adds no [chunking_method]; with
    the splitter of the library every chunk has the metadata of its parent. *)
Theorem C6_fallback_returns_splitter_chunks (self : LegalChunker) (doc : Document) :
  model self = None \/ (exists e, Chunker._semantic_chunk self doc = Raise e) ->
  Chunker.chunk_document self doc = fallback_chunker self [doc]
  /\ (forall split_text,
        fallback_chunker self = Langchain.split_documents split_text ->
        forall d, d ∈ Chunker.chunk_document self doc ->
          Doc.metadata d = Doc.metadata doc).
Proof.
  intros Hfallback.
  assert (Heq : Chunker.chunk_document self doc = fallback_chunker self [doc]).
  { unfold Chunker.chunk_document.
    destruct Hfallback as [Hnone | [e He]].
    - by rewrite Hnone.
    - rewrite He. by destruct (model self). }
  split; [exact Heq|].
  intros split_text Hsplitter d Hd.
  rewrite Heq, Hsplitter in Hd. by eapply split_documents_metadata.
Qed.

Lemma C6_fallback_returns_splitter_chunks_witness :
  Chunker.chunk_document (Sample.chunker None 200 1000 100)
    (Doc.mk (py "Either party may terminate. Notice is required.") ∅)
  = fallback_chunker (Sample.chunker None 200 1000 100)
      [Doc.mk (py "Either party may terminate. Notice is required.") ∅]
  /\ Chunker.chunk_document (Sample.chunker (Some Sample.broken) 200 1000 100)
       (Doc.mk (py "Either party may terminate. Notice is required.") ∅)
     = fallback_chunker (Sample.chunker (Some Sample.broken) 200 1000 100)
         [Doc.mk (py "Either party may terminate. Notice is required.") ∅].
Proof.
  split.
  - apply (C6_fallback_returns_splitter_chunks (Sample.chunker None 200 1000 100)).
    left. reflexivity.
  - apply (C6_fallback_returns_splitter_chunks
             (Sample.chunker (Some Sample.broken) 200 1000 100)).
    right. eexists. reflexivity.
Defined.

(** C6 as the specification words it fails: without a model, and also
    with a model whose [encode] raises, the chunks come from the generic
    splitter and carry no [chunking_method] at all. *)
Lemma C6_fixed_window_tag_counterexample :
  let doc := Doc.mk (py "Either party may terminate. Notice is required.") ∅ in
  Chunker.chunk_document (Sample.chunker None 200 1000 100) doc = [doc]
  /\ ~ tagged_fixed_window (Chunker.chunk_document (Sample.chunker None 200 1000 100) doc)
  /\ (exists e, Chunker._semantic_chunk
                  (Sample.chunker (Some Sample.broken) 200 1000 100) doc = Raise e)
  /\ ~ tagged_fixed_window
         (Chunker.chunk_document (Sample.chunker (Some Sample.broken) 200 1000 100) doc).
Proof.
  cbv zeta. split; [reflexivity|]. split; [|split].
  - intros Htag. specialize (Htag _ (list_elem_of_here _ _)). discriminate Htag.
  - eexists. reflexivity.
  - intros Htag. specialize (Htag _ (list_elem_of_here _ _)). discriminate Htag.
Qed.

(* ===================================================================== *)
(** * Archive extraction                                                  *)
(* ===================================================================== *)

Section Archive.

Import ArchiveProcessor.

(** Decoding that ignores errors does not raise. *)
Lemma decode_ignore_ok (content : bytes) :
  exists text, decode_utf8 Ignore content = Ok text.
Proof. eexists. reflexivity. Qed.

(** Decoding that ignores errors gives the text of well-formed content. *)
Lemma decode_ignore_strict (content : bytes) (text : str) :
  decode_utf8 Strict content = Ok text -> decode_utf8 Ignore content = Ok text.
Proof.
  unfold decode_utf8. destruct (Utf8.well_formed _); [|discriminate]. done.
Qed.

Lemma process_entry_text (entries : list ArchiveEntry) st (file_name : str) :
  Forall (fun item => item_type item = py "text") st.1 ->
  Forall (fun item => item_type item = py "text") (process_entry entries st file_name).1.
Proof.
  destruct st as [extracted total]. simpl. intros Hall.
  destruct (endswith file_name [slash]); [exact Hall|].
  destruct (getinfo entries file_name) as [info|e]; [|exact Hall].
  destruct (entry_read info) as [content|e]; [|exact Hall].
  simpl. apply Forall_app. split; [exact Hall|]. by repeat constructor.
Qed.

Lemma extract_entries_text (entries : list ArchiveEntry) (file_list : list str) :
  Forall (fun item => item_type item = py "text") (extract_entries entries file_list).1.
Proof.
  unfold extract_entries.
  assert (Hinit : Forall (fun item => item_type item = py "text")
                    (([], 0%N) : list ExtractedItem * N).1) by constructor.
  revert Hinit. generalize (([], 0%N) : list ExtractedItem * N).
  induction file_list as [|file_name file_list IH]; intros st Hst; [exact Hst|].
  simpl. apply IH. by apply process_entry_text.
Qed.

(** ** Archives of regular entries *)

(** The item the loop appends for an entry that can be read. *)
Local Abbreviation item_of e content :=
  (mkItem (entry_name e) (Utf8.chars (Utf8.scan (map Byte.to_N content)))
          (entry_size e) (py "text")).

Lemma getinfo_listed (entries : list ArchiveEntry) (e : ArchiveEntry) :
  NoDup (map entry_name entries) -> e ∈ entries ->
  getinfo entries (entry_name e) = Ok e.
Proof.
  intros Hnodup He. unfold getinfo.
  destruct (find _ (rev entries)) as [e'|] eqn:Hfind.
  - apply find_some in Hfind. destruct Hfind as [Hin Hname].
    apply in_rev, list_elem_of_In in Hin.
    apply bool_decide_eq_true in Hname.
    f_equal. symmetry.
    clear -Hnodup He Hin Hname.
    induction entries as [|a entries IH]; [by apply elem_of_nil in He|].
    simpl in Hnodup. apply NoDup_cons in Hnodup. destruct Hnodup as [Hfresh Hnodup].
    apply elem_of_cons in He. apply elem_of_cons in Hin.
    destruct He as [->|He], Hin as [->|Hin]; [reflexivity| | |by apply IH].
    + exfalso. apply Hfresh. rewrite <- Hname.
      change (map entry_name entries) with (entry_name <$> entries).
      by apply list_elem_of_fmap_2.
    + exfalso. apply Hfresh. rewrite Hname.
      change (map entry_name entries) with (entry_name <$> entries).
      by apply list_elem_of_fmap_2.
  - exfalso. eapply find_none in Hfind; [|apply in_rev; rewrite rev_involutive;
                                           apply list_elem_of_In, He].
    simpl in Hfind. by apply bool_decide_eq_false in Hfind.
Qed.

Lemma extract_regular (entries rest : list ArchiveEntry) (items : list ExtractedItem)
    (total : N) :
  NoDup (map entry_name entries) ->
  Forall (fun e => e ∈ entries /\ regular e) rest ->
  exists items',
    fold_left (process_entry entries) (map entry_name rest) (items, total)
    = (items ++ items',
       fold_left (fun acc e => (acc + entry_size e)%N) rest total)
    /\ map item_filename items' = map entry_name rest
    /\ Forall2 (fun e item => exists content,
                   entry_read e = Ok content /\ item = item_of e content)
         rest items'.
Proof.
  intros Hnodup. revert items total.
  induction rest as [|e rest IH]; intros items total Hall.
  - exists []. simpl. rewrite app_nil_r. repeat split. constructor.
  - inversion Hall as [|? ? [He [Hslash [content Hread]]] Hrest]; subst.
    assert (Hstep : process_entry entries (items, total) (entry_name e)
                    = (items ++ [item_of e content], (total + entry_size e)%N)).
    { unfold process_entry.
      by rewrite Hslash, (getinfo_listed entries e Hnodup He), Hread. }
    cbn [map fold_left]. rewrite Hstep.
    destruct (IH (items ++ [item_of e content]) (total + entry_size e)%N Hrest)
      as (items' & Hfold & Hnames & Hitems).
    exists (item_of e content :: items').
    rewrite Hfold, <- app_assoc. simpl. split; [reflexivity|]. split.
    + by rewrite Hnames.
    + constructor; [by exists content | exact Hitems].
Qed.

Lemma fold_sections (header : str) (items : list ExtractedItem) :
  fold_left (fun formatted_content item => formatted_content ++ format_item item)
    items header
  = header ++ concat (map format_item items).
Proof.
  revert header. induction items as [|item items IH]; intros header; simpl.
  - by rewrite app_nil_r.
  - rewrite IH. by rewrite <- app_assoc.
Qed.

Lemma format_archive_sections (label : str) (p : Path) (file_list : list str)
    (items : list ExtractedItem) (total : N) :
  exists header,
    format_archive label p file_list items total
    = header ++ concat (map format_item items).
Proof. unfold format_archive. eexists. apply fold_sections. Qed.

Lemma startswith_app (p t : str) : startswith (p ++ t) p = true.
Proof.
  induction p as [|a p IH]; [by destruct t|].
  simpl. by rewrite N.eqb_refl, IH.
Qed.

Lemma contains_middle (x p y : str) : contains (x ++ p ++ y) p = true.
Proof.
  assert (Hunfold : forall s, contains s p
            = startswith s p || match s with [] => false | _ :: s' => contains s' p end)
    by (by intros []).
  induction x as [|a x IH].
  - simpl. by rewrite Hunfold, startswith_app.
  - simpl. rewrite IH. apply orb_true_r.
Qed.

Lemma format_item_holds_content (item : ExtractedItem) :
  exists x y, format_item item = x ++ item_content item ++ y.
Proof.
  unfold format_item.
  exists (nl ++ py "FILE: " ++ item_filename item ++ nl
          ++ py "Size: " ++ str_of_N (item_size item) ++ py " bytes" ++ nl
          ++ py "Type: " ++ item_type item ++ nl ++ py "Content:" ++ nl),
         (nl ++ repeat_char 45%N 50 ++ nl).
  by rewrite <- !app_assoc.
Qed.

Lemma sections_hold_content (header : str) (items : list ExtractedItem)
    (item : ExtractedItem) :
  item ∈ items ->
  contains (header ++ concat (map format_item items)) (item_content item) = true.
Proof.
  intros Hitem. apply list_elem_of_split in Hitem.
  destruct Hitem as (before & after & ->).
  destruct (format_item_holds_content item) as (x & y & Hformat).
  rewrite map_app, concat_app. cbn [map concat]. rewrite Hformat.
  replace (header ++ concat (map format_item before)
           ++ (x ++ item_content item ++ y) ++ concat (map format_item after))
    with ((header ++ concat (map format_item before) ++ x)
          ++ item_content item ++ (y ++ concat (map format_item after)))
    by (by rewrite <- !app_assoc).
  apply contains_middle.
Qed.

(** For an archive of regular entries with distinct names, the record
    counts and lists every entry, and its content holds the text of every
    entry that is UTF-8. *)
Lemma archive_record_regular (W : World) (label file_type : str) (p : Path)
    (entries : list ArchiveEntry) (record : DocumentRecord) :
  NoDup (map entry_name entries) ->
  Forall regular entries ->
  archive_record W label file_type p entries = Ok record ->
  metadata record !! py "file_count" = Some (VInt (len entries))
  /\ metadata record !! py "extracted_files"
     = Some (VList (map (fun e => VStr (entry_name e)) entries))
  /\ (forall e content text,
        e ∈ entries -> entry_read e = Ok content ->
        decode_utf8 Strict content = Ok text ->
        contains (raw_content record) text = true).
Proof.
  intros Hnodup Hregular. unfold archive_record, extract_entries.
  assert (Hall : Forall (fun e => e ∈ entries /\ regular e) entries).
  { apply Forall_forall. intros e He. split; [exact He|].
    rewrite Forall_forall in Hregular. by apply Hregular. }
  destruct (extract_regular entries entries [] 0%N Hnodup Hall)
    as (items & Hfold & Hnames & Hitems).
  rewrite Hfold. simpl.
  destruct (stat_size W p) as [size|e]; simpl; [|discriminate].
  intros [= <-]. simpl. split; [|split].
  - repeat (rewrite lookup_insert_ne by key_ne). rewrite lookup_insert_eq.
    unfold len. by rewrite length_map.
  - repeat (rewrite lookup_insert_ne by key_ne). rewrite lookup_insert_eq.
    do 2 f_equal.
    rewrite <- (map_map item_filename VStr), Hnames. by rewrite map_map.
  - intros e content text He Hread Hstrict.
    destruct (format_archive_sections label p (map entry_name entries) items
                (fold_left (fun acc e => (acc + entry_size e)%N) entries 0%N))
      as [header ->].
    apply list_elem_of_lookup in He. destruct He as [i Hi].
    destruct (Forall2_lookup_l _ _ _ _ _ Hitems Hi) as (item & Hitem & content' & Hread' & ->).
    rewrite Hread in Hread'. injection Hread' as <-.
    apply decode_ignore_strict in Hstrict. injection Hstrict as <-.
    apply (sections_hold_content header items (item_of e content)).
    by eapply list_elem_of_lookup_2.
Qed.

End Archive.

(** C1, evaluated. The ZIP archive with [a.txt] holding "hello" and
    [b.bin] holding bytes that are not UTF-8 gives [file_count = 2], both
    names in [extracted_files] and "hello" in the content, but no
    placeholder for [b.bin]: decoding with [errors='ignore'] cannot raise,
    so for every archive every extracted item is of type "text". *)
Theorem C1_zip_binary_entry_gets_no_placeholder :
  is_utf8_text Sample.b_bin = false
  /\ zipfile_open Sample.world (py "docs.zip")
     = Ok [mkEntry (py "a.txt") 5 (Ok (bytes_of "hello"));
           mkEntry (py "b.bin") 4 (Ok Sample.b_bin)]
  /\ (exists record,
        ArchiveProcessor.process_archive_file Sample.world (py "docs.zip") = Ok record
        /\ metadata record !! py "file_count" = Some (VInt 2)
        /\ metadata record !! py "extracted_files"
           = Some (VList [VStr (py "a.txt"); VStr (py "b.bin")])
        /\ contains (raw_content record) (py "hello") = true
        /\ contains (raw_content record)
             (ArchiveProcessor.binary_placeholder (py "b.bin")) = false
        /\ contains (raw_content record) (py "Type: binary") = false)
  /\ (forall (entries : list ArchiveEntry) (file_list : list str) item,
        item ∈ (ArchiveProcessor.extract_entries entries file_list).1 ->
        ArchiveProcessor.item_type item = py "text").
Proof.
  split; [reflexivity|]. split; [reflexivity|]. split.
  - eexists. split; [reflexivity|].
    repeat split; vm_compute; reflexivity.
  - intros entries file_list item Hitem.
    pose proof (extract_entries_text entries file_list) as Hall.
    rewrite Forall_forall in Hall. by apply Hall.
Qed.

(* ===================================================================== *)
(** * Suffixes of paths                                                   *)
(* ===================================================================== *)

Section Suffix.

Lemma startswith_prefix (s p : str) :
  startswith s p = true -> exists t, s = p ++ t.
Proof.
  revert s. induction p as [|b p IH]; intros s H.
  - by exists s.
  - destruct s as [|a s]; simpl in H; [discriminate|].
    apply andb_true_iff in H. destruct H as [Hab Hrest].
    apply N.eqb_eq in Hab. subst b.
    destruct (IH _ Hrest) as [t ->]. by exists t.
Qed.

Lemma endswith_suffix (s p : str) :
  endswith s p = true -> exists x, s = x ++ p.
Proof.
  unfold endswith. intros H.
  destruct (startswith_prefix _ _ H) as [t Ht].
  exists (rev t).
  rewrite <- (rev_involutive s), Ht, rev_app_distr, rev_involutive. reflexivity.
Qed.

Lemma existsb_eqb_false (c : char) (s : str) :
  existsb (N.eqb c) s = false <-> c ∉ s.
Proof.
  induction s as [|a s IH]; simpl.
  - split; [intros _; apply not_elem_of_nil | reflexivity].
  - rewrite orb_false_iff, IH, not_elem_of_cons, N.eqb_neq. reflexivity.
Qed.

Lemma after_last_none (c : char) (s : str) : c ∉ s -> after_last c s = s.
Proof.
  destruct s as [|a s]; [reflexivity|].
  intros H. apply not_elem_of_cons in H. destruct H as [Hne Hs]. simpl.
  assert (Hac : N.eqb a c = false) by (apply N.eqb_neq; congruence).
  rewrite Hac. apply existsb_eqb_false in Hs. by rewrite Hs.
Qed.

Lemma after_last_app (c : char) (x y : str) :
  c ∉ y -> y <> [] -> after_last c (x ++ y) = after_last c x ++ y.
Proof.
  intros Hy Hne. induction x as [|a x IH]; simpl.
  - by apply after_last_none.
  - destruct (N.eqb a c); [exact IH|].
    rewrite existsb_app.
    apply existsb_eqb_false in Hy. rewrite Hy, orb_false_r.
    destruct (existsb (N.eqb c) x); [exact IH | reflexivity].
Qed.

Lemma rfind_app (c : char) (x y : str) (j : nat) :
  rfind c y = Some j -> rfind c (x ++ y) = Some (length x + j)%nat.
Proof.
  intros Hy. induction x as [|a x IH]; simpl; [exact Hy|].
  by rewrite IH.
Qed.

(** The suffix of a path whose name ends with [mid], a dot and an
    extension without dots. *)
Lemma suffix_of_extension (p mid ext : str) :
  mid <> [] -> ext <> [] ->
  slash ∉ mid -> slash ∉ ext -> dot ∉ ext ->
  endswith p (mid ++ dot :: ext) = true ->
  suffix p = dot :: ext.
Proof.
  intros Hmid Hext Hsm Hse Hde Hend.
  destruct (endswith_suffix _ _ Hend) as [x ->].
  unfold suffix, name.
  assert (Hp : str_eqb (x ++ mid ++ dot :: ext) [dot] = false).
  { apply bool_decide_eq_false. intros Heq.
    apply (f_equal (@length _)) in Heq. rewrite !length_app in Heq. simpl in Heq.
    destruct mid; [congruence | simpl in Heq; lia]. }
  rewrite Hp.
  assert (Hslash : slash ∉ mid ++ dot :: ext).
  { rewrite not_elem_of_app, not_elem_of_cons. repeat split; [exact Hsm | discriminate | exact Hse]. }
  assert (Hne : mid ++ dot :: ext <> []) by (destruct mid; discriminate).
  rewrite (after_last_app slash x _ Hslash Hne).
  set (A := after_last slash x).
  assert (Hr : rfind dot (dot :: ext) = Some 0%nat).
  { simpl. assert (Hn : rfind dot ext = None).
    { clear -Hde. induction ext as [|a ext IH]; [reflexivity|].
      apply not_elem_of_cons in Hde. destruct Hde as [Ha Hdot].
      simpl. rewrite (IH Hdot).
      assert (Hq : N.eqb a dot = false) by (apply N.eqb_neq; congruence).
      by rewrite Hq. }
    rewrite Hn. reflexivity. }
  replace (A ++ mid ++ dot :: ext) with ((A ++ mid) ++ dot :: ext)
    by (by rewrite <- app_assoc).
  rewrite (rfind_app dot (A ++ mid) _ _ Hr), Nat.add_0_r.
  assert (Hpos : (0 <? Z.of_nat (length (A ++ mid))) = true).
  { apply Z.ltb_lt. rewrite length_app. destruct mid; [congruence | simpl; lia]. }
  assert (Hlast : (Z.of_nat (length (A ++ mid))
                   <? len ((A ++ mid) ++ dot :: ext) - 1) = true).
  { apply Z.ltb_lt. unfold len. rewrite (length_app (A ++ mid)). simpl.
    destruct ext; [congruence | simpl; lia]. }
  rewrite Hpos, Hlast. simpl. apply drop_app_length.
Qed.

Lemma suffix_tar_gz (p : Path) :
  endswith p (py ".tar.gz") = true -> suffix p = py ".gz".
Proof.
  intros H. apply (suffix_of_extension p (py ".tar") (py "gz")); try discriminate;
    try exact H; vm_compute; intros Hin;
    repeat (apply elem_of_cons in Hin; destruct Hin as [Hin|Hin]; [discriminate|]);
    by apply elem_of_nil in Hin.
Qed.

Lemma suffix_tar_bz2 (p : Path) :
  endswith p (py ".tar.bz2") = true -> suffix p = py ".bz2".
Proof.
  intros H. apply (suffix_of_extension p (py ".tar") (py "bz2")); try discriminate;
    try exact H; vm_compute; intros Hin;
    repeat (apply elem_of_cons in Hin; destruct Hin as [Hin|Hin]; [discriminate|]);
    by apply elem_of_nil in Hin.
Qed.

End Suffix.

(** C7, on the code. A path whose name ends in [.tar.gz] or [.tar.bz2] has
    the suffix [.gz] or [.bz2], which matches no branch of the dispatch:
    for an existing file the operation raises [ValueError], although
    [_process_tar_file] opens such a file when it is called on it.  (The
    lower-casing is that of ASCII text.) *)
Theorem C7_tar_gz_rejected_as_unsupported (W : World) (p : Path) :
  lower W = ascii_lower ->
  exists_ W p = true ->
  (endswith p (py ".tar.gz") = true ->
   ArchiveProcessor.process_archive_file W p
   = Raise (mkException ValueError (py "Unsupported archive format: .gz")))
  /\ (endswith p (py ".tar.bz2") = true ->
      ArchiveProcessor.process_archive_file W p
      = Raise (mkException ValueError (py "Unsupported archive format: .bz2"))).
Proof.
  intros Hlower Hexists.
  split; intros Hend; unfold ArchiveProcessor.process_archive_file;
    rewrite Hexists, Hlower; simpl negb; cbv iota.
  - rewrite (suffix_tar_gz p Hend). reflexivity.
  - rewrite (suffix_tar_bz2 p Hend). reflexivity.
Qed.

Lemma C7_tar_gz_rejected_as_unsupported_witness :
  ArchiveProcessor.process_archive_file Sample.world (py "bundle.tar.gz")
  = Raise (mkException ValueError (py "Unsupported archive format: .gz"))
  /\ is_ok (ArchiveProcessor._process_tar_file Sample.world (py "bundle.tar.gz")) = true.
Proof.
  split.
  - apply (C7_tar_gz_rejected_as_unsupported Sample.world (py "bundle.tar.gz")).
    + reflexivity.
    + reflexivity.
    + reflexivity.
  - reflexivity.
Defined.

(* ===================================================================== *)
(** * Single-item operations                                              *)
(* ===================================================================== *)

Section SingleItem.

Variable W : World.
Variable p : Path.
Hypothesis Hexists : exists_ W p = true.

Lemma stat_size_exists : exists size, stat_size W p = Ok size.
Proof.
  unfold exists_ in Hexists. unfold stat_size.
  destruct (fs W p) as [f|]; [|discriminate]. by eexists.
Qed.

Local Abbreviation usable := (usable W p).

Lemma archive_fallback_degraded (reason : str) :
  exists record,
    ArchiveProcessor._fallback_processing W p reason = Ok record
    /\ degraded W p record.
Proof.
  destruct stat_size_exists as [size Hsize].
  unfold ArchiveProcessor._fallback_processing, degraded.
  destruct (read_text W p) as [content|e]; simpl; rewrite Hsize; simpl.
  - eexists. split; [reflexivity|]. simpl.
    split; [reflexivity|]. split; [reflexivity|]. split; [reflexivity|].
    lookup_updates.
  - eexists. split; [reflexivity|]. simpl.
    split; [reflexivity|]. split; [reflexivity|].
    split; [by exists reason|]. split; lookup_updates.
Qed.

Lemma email_fallback_degraded (reason : str) :
  exists record,
    EmailProcessor._fallback_processing W p reason = Ok record
    /\ degraded W p record.
Proof.
  destruct stat_size_exists as [size Hsize].
  unfold EmailProcessor._fallback_processing, degraded.
  destruct (read_text W p) as [content|e]; simpl; rewrite Hsize; simpl.
  - eexists. split; [reflexivity|]. simpl.
    split; [reflexivity|]. split; [reflexivity|]. split; [reflexivity|].
    lookup_updates.
  - eexists. split; [reflexivity|]. simpl.
    split; [reflexivity|]. split; [reflexivity|].
    split; [by exists reason|]. split; lookup_updates.
Qed.

Lemma usable_of_degraded (r : result DocumentRecord) :
  (exists record, r = Ok record /\ degraded W p record) ->
  exists record, r = Ok record /\ usable record.
Proof. intros (record & Hr & Hd). exists record. split; [exact Hr | by right]. Qed.

Lemma archive_record_usable (label file_type : str) (entries : list ArchiveEntry) :
  exists record,
    ArchiveProcessor.archive_record W label file_type p entries = Ok record
    /\ usable record.
Proof.
  destruct stat_size_exists as [size Hsize].
  unfold ArchiveProcessor.archive_record.
  destruct (ArchiveProcessor.extract_entries _ _) as [extracted total].
  rewrite Hsize. simpl. eexists. split; [reflexivity|]. by left.
Qed.

Lemma process_zip_usable :
  exists record, ArchiveProcessor._process_zip_file W p = Ok record /\ usable record.
Proof.
  unfold ArchiveProcessor._process_zip_file.
  destruct (negb _); [apply usable_of_degraded, archive_fallback_degraded|].
  destruct (zipfile_open W p) as [entries|e]; cbn [bind try_except].
  - destruct (archive_record_usable (py "ZIP") (py "zip") entries) as (r & -> & Hr).
    by exists r.
  - apply usable_of_degraded, archive_fallback_degraded.
Qed.

Lemma process_rar_usable :
  exists record, ArchiveProcessor._process_rar_file W p = Ok record /\ usable record.
Proof.
  unfold ArchiveProcessor._process_rar_file.
  destruct (negb _); [apply usable_of_degraded, archive_fallback_degraded|].
  destruct (rarfile_open W p) as [entries|e]; cbn [bind try_except].
  - destruct (archive_record_usable (py "RAR") (py "rar") entries) as (r & -> & Hr).
    by exists r.
  - apply usable_of_degraded, archive_fallback_degraded.
Qed.

Lemma process_tar_usable :
  exists record, ArchiveProcessor._process_tar_file W p = Ok record /\ usable record.
Proof.
  unfold ArchiveProcessor._process_tar_file.
  destruct (negb _); [apply usable_of_degraded, archive_fallback_degraded|].
  destruct (tarfile_open W p _) as [entries|e]; cbn [bind try_except].
  - destruct (archive_record_usable (py "TAR") (py "tar") entries) as (r & -> & Hr).
    by exists r.
  - apply usable_of_degraded, archive_fallback_degraded.
Qed.

Lemma process_msg_usable :
  exists record, EmailProcessor._process_msg_file W p = Ok record /\ usable record.
Proof.
  destruct stat_size_exists as [size Hsize].
  unfold EmailProcessor._process_msg_file.
  destruct (negb _); [apply usable_of_degraded, email_fallback_degraded|].
  destruct (read_binary W p) as [content|e]; simpl.
  - rewrite Hsize. simpl. eexists. split; [reflexivity|]. by left.
  - apply usable_of_degraded, email_fallback_degraded.
Qed.

Lemma process_eml_usable :
  exists record, EmailProcessor._process_eml_file W p = Ok record /\ usable record.
Proof.
  destruct stat_size_exists as [size Hsize].
  unfold EmailProcessor._process_eml_file.
  destruct (negb _); [apply usable_of_degraded, email_fallback_degraded|].
  destruct (eml_read W p) as [msg|e]; simpl.
  - rewrite Hsize. simpl. eexists. split; [reflexivity|]. by left.
  - apply usable_of_degraded, email_fallback_degraded.
Qed.

Lemma process_pst_usable :
  exists record, EmailProcessor._process_pst_file W p = Ok record /\ usable record.
Proof.
  destruct stat_size_exists as [size Hsize].
  unfold EmailProcessor._process_pst_file.
  destruct (negb _); [apply usable_of_degraded, email_fallback_degraded|].
  destruct (pst_read W p) as [messages|e]; simpl.
  - rewrite Hsize. simpl. eexists. split; [reflexivity|]. by left.
  - apply usable_of_degraded, email_fallback_degraded.
Qed.

End SingleItem.

(** C3, as the code has it. A path that does not exist makes the
    single-item operation of either processor raise [FileNotFoundError]; an
    existing path with an extension the processor does not dispatch on makes
    it raise [ValueError]; for an existing path with a dispatched extension
    the operation returns a record, which is enhanced or else degraded:
    [enhanced = false], with the text of the file, or, when the file cannot
    be read, with a message naming the file and the reason. *)
Theorem C3_single_item_operation_outcomes (W : World) (p : Path) :
  (exists_ W p = false ->
   EmailProcessor.process_email_file W p
   = Raise (mkException FileNotFoundError (py "Email file not found: " ++ p))
   /\ ArchiveProcessor.process_archive_file W p
      = Raise (mkException FileNotFoundError (py "Archive file not found: " ++ p)))
  /\ (exists_ W p = true ->
      (if existsb (str_eqb (lower W (suffix p))) [py ".msg"; py ".eml"; py ".pst"]
       then exists record,
              EmailProcessor.process_email_file W p = Ok record /\ usable W p record
       else EmailProcessor.process_email_file W p
            = Raise (mkException ValueError
                       (py "Unsupported email format: " ++ lower W (suffix p))))
      /\ (if existsb (str_eqb (lower W (suffix p)))
               [py ".zip"; py ".rar"; py ".tar"; py ".tar.gz"; py ".tar.bz2"]
          then exists record,
                 ArchiveProcessor.process_archive_file W p = Ok record
                 /\ usable W p record
          else ArchiveProcessor.process_archive_file W p
               = Raise (mkException ValueError
                          (py "Unsupported archive format: " ++ lower W (suffix p))))).
Proof.
  split; intros Hexists.
  - unfold EmailProcessor.process_email_file, ArchiveProcessor.process_archive_file.
    by rewrite Hexists.
  - split.
    + unfold EmailProcessor.process_email_file. rewrite Hexists.
      cbn [negb existsb].
      destruct (str_eqb (lower W (suffix p)) (py ".msg"));
        [by apply process_msg_usable|].
      destruct (str_eqb (lower W (suffix p)) (py ".eml"));
        [by apply process_eml_usable|].
      destruct (str_eqb (lower W (suffix p)) (py ".pst"));
        [by apply process_pst_usable|].
      reflexivity.
    + unfold ArchiveProcessor.process_archive_file. rewrite Hexists.
      cbn [negb existsb].
      destruct (str_eqb (lower W (suffix p)) (py ".zip"));
        [by apply process_zip_usable|].
      destruct (str_eqb (lower W (suffix p)) (py ".rar"));
        [by apply process_rar_usable|].
      cbn [orb].
      destruct (str_eqb (lower W (suffix p)) (py ".tar") || _);
        [by apply process_tar_usable|].
      reflexivity.
Qed.

Lemma C3_single_item_operation_outcomes_witness :
  (exists record,
     EmailProcessor.process_email_file Sample.world (py "locked.eml") = Ok record
     /\ usable Sample.world (py "locked.eml") record)
  /\ (exists record,
        ArchiveProcessor.process_archive_file Sample.world (py "docs.zip") = Ok record
        /\ usable Sample.world (py "docs.zip") record)
  /\ ArchiveProcessor.process_archive_file Sample.world (py "missing.zip")
     = Raise (mkException FileNotFoundError (py "Archive file not found: missing.zip")).
Proof.
  split; [|split].
  - destruct (C3_single_item_operation_outcomes Sample.world (py "locked.eml"))
      as [_ Hthere].
    destruct (Hthere eq_refl) as [Hemail _]. exact Hemail.
  - destruct (C3_single_item_operation_outcomes Sample.world (py "docs.zip"))
      as [_ Hthere].
    destruct (Hthere eq_refl) as [_ Harchive]. exact Harchive.
  - destruct (C3_single_item_operation_outcomes Sample.world (py "missing.zip"))
      as [Hmissing _].
    destruct (Hmissing eq_refl) as [_ Harchive]. exact Harchive.
Defined.

(** C3 as the specification words it fails: the single-item operations
    raise for a path that does not exist and for an extension they do not
    dispatch on. *)
Lemma C3_single_item_raises_counterexample :
  exists_ Sample.world (py "missing.zip") = false
  /\ ~ returns_record (ArchiveProcessor.process_archive_file Sample.world (py "missing.zip"))
  /\ ~ returns_record (EmailProcessor.process_email_file Sample.world (py "missing.zip"))
  /\ exists_ Sample.world (py "notes.xyz") = true
  /\ ~ returns_record (ArchiveProcessor.process_archive_file Sample.world (py "notes.xyz"))
  /\ ~ returns_record (EmailProcessor.process_email_file Sample.world (py "notes.xyz")).
Proof.
  repeat split; try reflexivity; intros [record Hrecord]; vm_compute in Hrecord;
    discriminate Hrecord.
Qed.

(* ===================================================================== *)
(** * Batches                                                             *)
(* ===================================================================== *)

Section Gather.

Context {A : Type}.
Variable tasks : list (result A).

Local Abbreviation filled := (filled tasks).

Lemma run_tasks_filled (completion seen : list nat) slots :
  filled seen slots ->
  filled (seen ++ completion)
    (fold_left
       (fun slots i =>
          match tasks !! i with
          | Some outcome => <[i := Some outcome]> slots
          | None => slots
          end)
       completion slots).
Proof.
  revert seen slots.
  induction completion as [|i0 completion IH]; intros seen slots Hfilled.
  - by rewrite app_nil_r.
  - simpl. replace (seen ++ i0 :: completion) with ((seen ++ [i0]) ++ completion)
      by (by rewrite <- app_assoc).
    apply IH. destruct Hfilled as [Hlen Hslots].
    destruct (tasks !! i0) as [outcome0|] eqn:Hi0.
    + split; [by rewrite length_insert|].
      intros i outcome Hi. destruct (decide (i = i0)) as [->|Hne].
      * rewrite list_lookup_insert_eq
          by (rewrite Hlen; by eapply lookup_lt_Some).
        rewrite bool_decide_eq_true_2 by (apply elem_of_app; right; apply list_elem_of_here).
        congruence.
      * rewrite list_lookup_insert_ne by congruence.
        rewrite (Hslots _ _ Hi). f_equal.
        destruct (bool_decide (i ∈ seen)) eqn:Hseen.
        -- apply bool_decide_eq_true in Hseen.
           rewrite bool_decide_eq_true_2; [done|]. apply elem_of_app. by left.
        -- apply bool_decide_eq_false in Hseen.
           rewrite bool_decide_eq_false_2; [done|].
           rewrite elem_of_app, list_elem_of_singleton. intros [?|?]; [done|congruence].
    + split; [exact Hlen|].
      intros i outcome Hi.
      assert (Hne : i <> i0) by congruence.
      rewrite (Hslots _ _ Hi). f_equal.
      destruct (bool_decide (i ∈ seen)) eqn:Hseen.
      * apply bool_decide_eq_true in Hseen.
        rewrite bool_decide_eq_true_2; [done|]. apply elem_of_app. by left.
      * apply bool_decide_eq_false in Hseen.
        rewrite bool_decide_eq_false_2; [done|].
        rewrite elem_of_app, list_elem_of_singleton. intros [?|?]; [done|congruence].
Qed.

Lemma all_done_fmap (l : list (result A)) : Asyncio.all_done (map Some l) = Some l.
Proof. induction l as [|a l IH]; simpl; [reflexivity | by rewrite IH]. Qed.

(** Whatever the order of completion, once every task has completed the
    outcomes are those of the tasks, each at the position of its task. *)
Lemma gather_complete (completion : list nat) :
  (forall i, (i < length tasks)%nat -> i ∈ completion) ->
  Asyncio.gather completion tasks = Some tasks.
Proof.
  intros Hall. unfold Asyncio.gather, Asyncio.run_tasks.
  assert (Hinit : filled [] (replicate (length tasks) None)).
  { split; [apply length_replicate|].
    intros i outcome Hi. rewrite bool_decide_eq_false_2 by apply not_elem_of_nil.
    apply lookup_replicate_2. by eapply lookup_lt_Some. }
  apply (run_tasks_filled completion) in Hinit. simpl in Hinit.
  destruct Hinit as [Hlen Hslots].
  match goal with |- Asyncio.all_done ?s = _ => replace s with (map Some tasks) end;
    [apply all_done_fmap|].
  apply list_eq. intros i.
  destruct (tasks !! i) as [outcome|] eqn:Hi.
  - rewrite (Hslots _ _ Hi).
    rewrite bool_decide_eq_true_2 by (apply Hall; by eapply lookup_lt_Some).
    change (map Some tasks) with (Some <$> tasks).
    by rewrite list_lookup_fmap, Hi.
  - change (map Some tasks) with (Some <$> tasks).
    rewrite list_lookup_fmap, Hi. simpl. symmetry.
    apply lookup_ge_None. rewrite Hlen. by apply lookup_ge_None.
Qed.

(** A task that never completes keeps the caller waiting. *)
Lemma all_done_pending (slots : list (option (result A))) (i : nat) :
  slots !! i = Some None -> Asyncio.all_done slots = None.
Proof.
  revert i. induction slots as [|s slots IH]; intros i Hi; [done|].
  destruct i as [|i]; simpl in Hi.
  - by injection Hi as ->.
  - destruct s; simpl; [|reflexivity]. by rewrite (IH i Hi).
Qed.

End Gather.

Section Batch.

Variable W : World.

Local Abbreviation email_slot := (email_slot W).
Local Abbreviation archive_slot := (archive_slot W).

Lemma email_handle_exceptions (before rest : list Path) :
  EmailProcessor.handle_exceptions W (before ++ rest)
    (map (EmailProcessor.process_email_file W) rest) (length before)
  = Ok (map email_slot rest).
Proof.
  revert before. induction rest as [|q rest IH]; intros before; [reflexivity|].
  simpl. specialize (IH (before ++ [q])).
  rewrite <- app_assoc, length_app, Nat.add_1_r in IH. simpl in IH. rewrite IH.
  unfold email_slot.
  destruct (EmailProcessor.process_email_file W q) as [record|e]; [reflexivity|].
  by rewrite list_lookup_middle.
Qed.

Lemma archive_handle_exceptions (before rest : list Path) :
  ArchiveProcessor.handle_exceptions W (before ++ rest)
    (map (ArchiveProcessor.process_archive_file W) rest) (length before)
  = Ok (map archive_slot rest).
Proof.
  revert before. induction rest as [|q rest IH]; intros before; [reflexivity|].
  simpl. specialize (IH (before ++ [q])).
  rewrite <- app_assoc, length_app, Nat.add_1_r in IH. simpl in IH. rewrite IH.
  unfold archive_slot.
  destruct (ArchiveProcessor.process_archive_file W q) as [record|e]; [reflexivity|].
  by rewrite list_lookup_middle.
Qed.

(** The email batch: whatever the order of completion, once every item has
    completed the batch returns one record per path, in the order of the
    paths, with an error record where the item raised. *)
Lemma email_batch_slots (completion : list nat) (file_paths : list Path) :
  (forall i, (i < length file_paths)%nat -> i ∈ completion) ->
  EmailProcessor.process_email_files_batch W completion file_paths
  = Some (Ok (map email_slot file_paths)).
Proof.
  intros Hall. unfold EmailProcessor.process_email_files_batch.
  rewrite gather_complete by (by rewrite length_map).
  f_equal. apply (email_handle_exceptions [] file_paths).
Qed.

Lemma archive_batch_slots (completion : list nat) (file_paths : list Path) :
  (forall i, (i < length file_paths)%nat -> i ∈ completion) ->
  ArchiveProcessor.process_archive_files_batch W completion file_paths
  = Some (Ok (map archive_slot file_paths)).
Proof.
  intros Hall. unfold ArchiveProcessor.process_archive_files_batch.
  rewrite gather_complete by (by rewrite length_map).
  f_equal. apply (archive_handle_exceptions [] file_paths).
Qed.

(** The document batch returns the outcomes of [gather] as they are. *)
Lemma document_batch_outcomes (completion : list nat) (file_paths : list Path) :
  (forall i, (i < length file_paths)%nat -> i ∈ completion) ->
  LegalDocumentProcessor.process_documents_batch W completion file_paths
  = Some (map (LegalDocumentProcessor.process_document W) file_paths).
Proof.
  intros Hall. unfold LegalDocumentProcessor.process_documents_batch.
  by rewrite gather_complete by (by rewrite length_map).
Qed.

End Batch.

(** C2, evaluated. The document batch over [report.txt] and [notes.xyz],
    the second completing first, returns two slots in the order of the
    paths, but the slot of [notes.xyz] is the [ValueError] that
    [process_document] raised, not an error record; the email batch over the
    same kind of input holds an error record with the message and the path
    at that slot. *)
Theorem C2_document_batch_returns_raw_exception :
  (exists record,
     LegalDocumentProcessor.process_documents_batch Sample.world [1; 0]%nat
       [py "report.txt"; py "notes.xyz"]
     = Some [Ok record;
             Raise (mkException ValueError (py "Unsupported file type: xyz"))]
     /\ raw_content record = py "report")
  /\ (exists record,
        EmailProcessor.process_email_files_batch Sample.world [1; 0]%nat
          [py "letter.msg"; py "notes.xyz"]
        = Some (Ok [record;
                    EmailProcessor.error_record Sample.world (py "notes.xyz")
                      (mkException ValueError (py "Unsupported email format: .xyz"))])
        /\ raw_content record = py "Dear all")
  /\ raw_content
       (EmailProcessor.error_record Sample.world (py "notes.xyz")
          (mkException ValueError (py "Unsupported email format: .xyz")))
     = py "Error processing notes.xyz: Unsupported email format: .xyz".
Proof.
  split; [|split].
  - eexists. split; reflexivity.
  - eexists. split; reflexivity.
  - reflexivity.
Qed.

(* ===================================================================== *)
(** * Trimming                                                            *)
(* ===================================================================== *)

Section Trimming.

Lemma lstrip_split (s : str) :
  exists pre, s = pre ++ lstrip s /\ Forall (fun c => isspace c = true) pre.
Proof.
  induction s as [|c s IH]; simpl.
  - exists []. split; [reflexivity | constructor].
  - destruct (isspace c) eqn:Hc.
    + destruct IH as (pre & Heq & Hpre). exists (c :: pre).
      split; [simpl; by rewrite <- Heq | by constructor].
    + exists []. split; [reflexivity | constructor].
Qed.

Lemma lstrip_head (s : str) (c : char) (rest : str) :
  lstrip s = c :: rest -> isspace c = false.
Proof.
  induction s as [|a s IH]; simpl; [discriminate|].
  destruct (isspace a) eqn:Ha; [exact IH|]. by intros [= <- <-].
Qed.

Lemma lstrip_fixed (s : str) :
  match s with [] => True | c :: _ => isspace c = false end -> lstrip s = s.
Proof. destruct s as [|c s]; simpl; [reflexivity|]. by intros ->. Qed.

Lemma lstrip_idem (s : str) : lstrip (lstrip s) = lstrip s.
Proof.
  apply lstrip_fixed. destruct (lstrip s) as [|c rest] eqn:Hs; [exact I|].
  by eapply lstrip_head.
Qed.

Lemma lstrip_nil (s : str) :
  lstrip s = [] <-> Forall (fun c => isspace c = true) s.
Proof.
  split.
  - intros Hnil. destruct (lstrip_split s) as (pre & Heq & Hpre).
    rewrite Hnil, app_nil_r in Heq. by subst pre.
  - induction s as [|c s IH]; intros Hall; [reflexivity|].
    inversion Hall as [|? ? Hc Hrest]; subst. simpl. rewrite Hc. by apply IH.
Qed.

Lemma strip_nil (s : str) :
  strip s = [] <-> Forall (fun c => isspace c = true) s.
Proof.
  unfold strip, rstrip. split.
  - intros Hnil.
    assert (Hinner : lstrip (rev (lstrip s)) = []).
    { apply (f_equal (@rev _)) in Hnil. by rewrite rev_involutive in Hnil. }
    apply lstrip_nil, Forall_rev in Hinner. rewrite rev_involutive in Hinner.
    destruct (lstrip s) as [|c rest] eqn:Hs; [by apply lstrip_nil|].
    apply lstrip_head in Hs. inversion Hinner; congruence.
  - intros Hall. apply lstrip_nil in Hall. by rewrite Hall.
Qed.

Lemma strip_idem (s : str) : strip (strip s) = strip s.
Proof.
  unfold strip, rstrip.
  set (t := lstrip s). set (u := lstrip (rev t)).
  assert (Hu : lstrip u = u) by apply lstrip_idem.
  assert (Hrev : lstrip (rev u) = rev u).
  { apply lstrip_fixed. destruct (rev u) as [|c rest] eqn:Hru; [exact I|].
    destruct (lstrip_split (rev t)) as (pre & Heq & _). fold u in Heq.
    apply (f_equal (@rev _)) in Heq.
    rewrite rev_involutive, rev_app_distr, Hru in Heq. simpl in Heq.
    unfold t in Heq. by eapply lstrip_head. }
  by rewrite Hrev, rev_involutive, Hu.
Qed.

End Trimming.

(* ===================================================================== *)
(** * The pieces of a text                                                *)
(* ===================================================================== *)

Section Pieces.

Import Chunker.

Lemma re_split_keeps (P : char -> Prop) (text piece : str) (in_run : bool) :
  Forall P piece ->
  Forall (fun c => is_terminator c = true \/ P c) text ->
  Forall (Forall P) (re_split in_run piece text).
Proof.
  revert piece in_run.
  induction text as [|c text IH]; simpl; intros piece in_run Hp Hall.
  - constructor; [by apply Forall_rev | constructor].
  - inversion Hall as [|? ? Hc Hrest]; subst.
    destruct (is_terminator c) eqn:Hterm.
    + destruct in_run; [by apply IH|].
      constructor; [by apply Forall_rev|]. by apply IH.
    + apply IH; [|exact Hrest]. constructor; [|exact Hp].
      destruct Hc as [Hc|Hc]; [congruence | exact Hc].
Qed.

Lemma re_split_covers (text piece : str) (in_run : bool) (c : char) :
  c ∈ piece \/ (c ∈ text /\ is_terminator c = false) ->
  exists s, s ∈ re_split in_run piece text /\ c ∈ s.
Proof.
  revert piece in_run.
  induction text as [|a text IH]; simpl; intros piece in_run Hc.
  - exists (rev piece). split; [apply list_elem_of_here|].
    destruct Hc as [Hc | [Hc _]]; [|by apply elem_of_nil in Hc].
    apply list_elem_of_In, in_rev. rewrite rev_involutive. by apply list_elem_of_In.
  - destruct (is_terminator a) eqn:Hterm.
    + destruct Hc as [Hc | [Hc Hnt]].
      * destruct in_run.
        -- apply IH. by left.
        -- exists (rev piece). split; [apply list_elem_of_here|].
           apply list_elem_of_In, in_rev. rewrite rev_involutive.
           by apply list_elem_of_In.
      * apply elem_of_cons in Hc. destruct Hc as [->|Hc]; [congruence|].
        destruct in_run.
        -- apply IH. right. by split.
        -- destruct (IH [] true) as (s & Hs & Hcs); [right; by split|].
           exists s. split; [by apply list_elem_of_further | exact Hcs].
    + apply IH. destruct Hc as [Hc | [Hc Hnt]].
      * left. by apply list_elem_of_further.
      * apply elem_of_cons in Hc. destruct Hc as [->|Hc].
        -- left. apply list_elem_of_here.
        -- right. by split.
Qed.

Lemma re_split_whole (text piece : str) (in_run : bool) :
  terminator_free text -> re_split in_run piece text = [rev piece ++ text].
Proof.
  revert piece in_run.
  induction text as [|c text IH]; simpl; intros piece in_run Hfree.
  - by rewrite app_nil_r.
  - inversion Hfree as [|? ? Hc Hrest]; subst. rewrite Hc.
    rewrite (IH _ _ Hrest). simpl. by rewrite <- app_assoc.
Qed.

End Pieces.

(** X1. A text has no sentences exactly when it holds nothing but
    terminators and white space (the empty text included). *)
Theorem X1_no_sentences_iff_only_terminators_and_space (text : str) :
  Chunker._split_into_sentences text = []
  <-> Forall (fun c => Chunker.is_terminator c = true \/ isspace c = true) text.
Proof.
  unfold Chunker._split_into_sentences. split.
  - intros Hnil. apply Forall_forall. intros c Hc.
    destruct (Chunker.is_terminator c) eqn:Hterm; [by left | right].
    destruct (re_split_covers text [] false c) as (s & Hs & Hcs); [right; by split|].
    assert (Hstrip : strip s = []).
    { destruct (strip s) as [|a rest] eqn:Hss; [reflexivity|].
      exfalso.
      assert (Hin : s ∈ List.filter (fun s => Chunker.nonempty (strip s))
                        (Chunker.re_split false [] text)).
      { apply list_elem_of_In, filter_In. split; [by apply list_elem_of_In|].
        by rewrite Hss. }
      apply (list_elem_of_fmap_2 strip) in Hin.
      change (strip <$> ?l) with (map strip l) in Hin.
      rewrite Hnil in Hin. by apply elem_of_nil in Hin. }
    apply strip_nil in Hstrip. rewrite Forall_forall in Hstrip. by apply Hstrip.
  - intros Hall.
    assert (Hpieces : Forall (Forall (fun c => isspace c = true))
                        (Chunker.re_split false [] text))
      by (apply re_split_keeps; [constructor | exact Hall]).
    induction Hpieces as [|s pieces Hs _ IH]; [reflexivity|].
    simpl. apply strip_nil in Hs. rewrite Hs. simpl. exact IH.
Qed.

(** X2. Every sentence is trimmed: stripping it again changes nothing, so
    it neither starts nor ends with white space. *)
Theorem X2_sentences_are_trimmed (text s : str) :
  s ∈ Chunker._split_into_sentences text -> strip s = s.
Proof.
  unfold Chunker._split_into_sentences. intros Hs.
  apply list_elem_of_In, in_map_iff in Hs. destruct Hs as (piece & <- & _).
  apply strip_idem.
Qed.

Lemma X2_sentences_are_trimmed_witness :
  strip (py "Notice is required") = py "Notice is required".
Proof.
  apply (X2_sentences_are_trimmed (py "  Either party may terminate.   Notice is required  ! ")).
  vm_compute. apply list_elem_of_further, list_elem_of_here.
Defined.

(** X3. A text without terminators that holds a character other than
    white space is one sentence, the trimmed text. *)
Theorem X3_text_without_terminators_is_one_sentence (text : str) :
  terminator_free text -> strip text <> [] ->
  Chunker._split_into_sentences text = [strip text].
Proof.
  intros Hfree Hne. unfold Chunker._split_into_sentences.
  rewrite (re_split_whole text [] false Hfree). simpl.
  destruct (strip text) as [|c rest] eqn:Hs; [congruence|]. simpl. by rewrite Hs.
Qed.

Lemma X3_text_without_terminators_is_one_sentence_witness :
  Chunker._split_into_sentences (py "  Force majeure ") = [py "Force majeure"].
Proof.
  apply (X3_text_without_terminators_is_one_sentence (py "  Force majeure ")).
  - vm_compute. repeat constructor.
  - vm_compute. discriminate.
Defined.

(* ===================================================================== *)
(** * Groups of sentences                                                 *)
(* ===================================================================== *)

Section Groups.

Import Chunker.

Variable self : LegalChunker.
Variable m : SentenceTransformer.

Lemma zip_fst_take (sentences : list str) (embeddings : list (Vec m)) :
  map fst (zip sentences embeddings) = take (length embeddings) sentences.
Proof.
  revert embeddings. induction sentences as [|s sentences IH]; intros [|e embeddings];
    simpl; try reflexivity. by rewrite IH.
Qed.

(** The three outcomes of an iteration. *)
Lemma group_step_cases (st : GroupState (Vec m)) (s : str) (e : Vec m) :
  (current_chunk st = []
   /\ group_step self m st (s, e)
      = mkState (chunks st) [s] (current_chunk_embeddings st ++ [e]))
  \/ (current_chunk st <> []
      /\ (group_step self m st (s, e)
          = mkState (chunks st ++ [join space (current_chunk st)]) [s] [e]
          \/ group_step self m st (s, e)
             = mkState (chunks st) (current_chunk st ++ [s])
                 (current_chunk_embeddings st ++ [e]))).
Proof.
  unfold group_step. destruct (current_chunk st) as [|s0 current].
  - left. by split.
  - right. split; [discriminate|]. cbn [nonempty negb].
    match goal with |- context [if ?b then _ else _] => destruct b end;
      [by left | by right].
Qed.

(** The loop keeps the sentences it has seen, in order, split between the
    closed groups and the running chunk. *)
Lemma group_step_partition (st : GroupState (Vec m)) (s : str) (e : Vec m)
    (groups : list (list str)) :
  chunks st = map (join space) groups ->
  Forall (fun g => g <> []) groups ->
  exists groups',
    chunks (group_step self m st (s, e)) = map (join space) groups'
    /\ Forall (fun g => g <> []) groups'
    /\ concat groups' ++ current_chunk (group_step self m st (s, e))
       = (concat groups ++ current_chunk st) ++ [s].
Proof.
  intros Hc Hne.
  destruct (group_step_cases st s e) as [[Hcur ->] | [Hcur [-> | ->]]]; simpl.
  - exists groups. rewrite Hcur, app_nil_r. by repeat split.
  - exists (groups ++ [current_chunk st]). split; [by rewrite map_app, Hc|]. split.
    + apply Forall_app. split; [exact Hne | by repeat constructor].
    + rewrite concat_app. simpl. by rewrite app_nil_r.
  - exists groups. split; [exact Hc|]. split; [exact Hne|]. by rewrite app_assoc.
Qed.

Lemma fold_group_step_partition (items : list (str * Vec m)) (st : GroupState (Vec m))
    (groups : list (list str)) :
  chunks st = map (join space) groups ->
  Forall (fun g => g <> []) groups ->
  exists groups',
    chunks (fold_left (group_step self m) items st) = map (join space) groups'
    /\ Forall (fun g => g <> []) groups'
    /\ concat groups' ++ current_chunk (fold_left (group_step self m) items st)
       = (concat groups ++ current_chunk st) ++ map fst items.
Proof.
  revert st groups. induction items as [|[s e] items IH]; intros st groups Hc Hne.
  - exists groups. simpl. by rewrite app_nil_r.
  - destruct (group_step_partition st s e groups Hc Hne) as (groups1 & H1 & H2 & H3).
    destruct (IH _ groups1 H1 H2) as (groups' & H4 & H5 & H6).
    exists groups'. split; [exact H4|]. split; [exact H5|].
    cbn [fold_left map fst]. rewrite H6, H3. by rewrite <- !app_assoc.
Qed.

Lemma group_partition (sentences : list str) (embeddings : list (Vec m)) :
  exists groups : list (list str),
    _group_sentences_semantically self m sentences embeddings
    = map (join space) groups
    /\ Forall (fun g => g <> []) groups
    /\ concat groups = take (length embeddings) sentences.
Proof.
  unfold _group_sentences_semantically.
  destruct (fold_group_step_partition (zip sentences embeddings)
              (mkState (V := Vec m) [] [] []) []) as (groups & H1 & H2 & H3);
    [reflexivity | constructor |].
  simpl in H3. rewrite zip_fst_take in H3.
  destruct (current_chunk _) as [|s0 current] eqn:Hcur; simpl.
  - exists groups. rewrite app_nil_r in H3. by repeat split.
  - exists (groups ++ [s0 :: current]). split; [|split].
    + by rewrite map_app, H1.
    + apply Forall_app. split; [exact H2 | by repeat constructor].
    + rewrite concat_app. simpl. by rewrite app_nil_r.
Qed.

(** When every similarity is below the threshold, a chunk is closed at
    every sentence. *)
Lemma fold_group_step_dissimilar (items : list (str * Vec m)) (st : GroupState (Vec m)) :
  (forall v w, Qltb (cos_sim m v w) (similarity_threshold self) = true) ->
  (length (current_chunk st) <= 1)%nat ->
  (length (current_chunk (fold_left (group_step self m) items st)) <= 1)%nat
  /\ chunks (fold_left (group_step self m) items st)
     ++ current_chunk (fold_left (group_step self m) items st)
     = (chunks st ++ current_chunk st) ++ map fst items.
Proof.
  intros Hlow. revert st. induction items as [|[s e] items IH]; intros st Hlen.
  - simpl. by rewrite app_nil_r.
  - cbn [fold_left map fst].
    assert (Hstep : (length (current_chunk (group_step self m st (s, e))) <= 1)%nat
                    /\ chunks (group_step self m st (s, e))
                       ++ current_chunk (group_step self m st (s, e))
                       = (chunks st ++ current_chunk st) ++ [s]).
    { unfold group_step.
      destruct (current_chunk st) as [|s0 [|s1 current]] eqn:Hcur;
        [| |simpl in Hlen; lia].
      - simpl. rewrite app_nil_r. split; [lia | reflexivity].
      - cbn [nonempty negb]. rewrite Hlow. simpl. split; [lia|].
        by rewrite <- !app_assoc. }
    destruct Hstep as [H1 H2].
    destruct (IH _ H1) as [H3 H4]. split; [exact H3|].
    rewrite H4, H2. by rewrite <- !app_assoc.
Qed.

Lemma join_prefix_length (sep : str) (a b : list str) :
  len (join sep a) <= len (join sep (a ++ b)).
Proof.
  unfold len. apply inj_le.
  induction a as [|x [|y a] IH].
  - simpl. lia.
  - simpl. destruct b; simpl; rewrite ?length_app; lia.
  - change (join sep (x :: y :: a)) with (x ++ sep ++ join sep (y :: a)).
    change (join sep ((x :: y :: a) ++ b)) with (x ++ sep ++ join sep ((y :: a) ++ b)).
    rewrite !length_app. lia.
Qed.

(** When every similarity reaches the threshold and the sentences joined
    fit in the maximum size, no chunk is closed. *)
Lemma fold_group_step_similar (items : list (str * Vec m)) (st : GroupState (Vec m)) :
  (forall v w, Qltb (cos_sim m v w) (similarity_threshold self) = false) ->
  len (join space (current_chunk st ++ map fst items)) <= max_chunk_size self ->
  let st' := fold_left (group_step self m) items st in
  chunks st' = chunks st /\ current_chunk st' = current_chunk st ++ map fst items.
Proof.
  intros Hhigh. revert st. induction items as [|[s e] items IH]; intros st Hfit.
  - simpl. by rewrite app_nil_r.
  - cbn zeta. cbn [fold_left map fst] in *.
    assert (Hstep : chunks (group_step self m st (s, e)) = chunks st
                    /\ current_chunk (group_step self m st (s, e))
                       = current_chunk st ++ [s]).
    { unfold group_step.
      destruct (current_chunk st) as [|s0 current] eqn:Hcur; [by split|].
      cbn [nonempty negb]. rewrite Hhigh.
      assert (Hsize : (max_chunk_size self <? len (join space (s0 :: current))) = false).
      { apply Z.ltb_ge.
        etransitivity; [apply (join_prefix_length space _ (s :: map fst items))|].
        exact Hfit. }
      rewrite Hsize. by split. }
    destruct Hstep as [Hc Hcur].
    destruct (IH (group_step self m st (s, e))) as [H1 H2].
    + rewrite Hcur, <- app_assoc. exact Hfit.
    + split; [by rewrite H1 | by rewrite H2, Hcur, <- app_assoc].
Qed.

Lemma join_snoc_length (sep : str) (group : list str) (last : str) :
  group <> [] ->
  len (join sep (group ++ [last])) = len (join sep group) + len sep + len last.
Proof.
  unfold len. intros Hne.
  induction group as [|x [|y group] IH]; [congruence | |].
  - simpl. rewrite !length_app. lia.
  - change (join sep ((x :: y :: group) ++ [last]))
      with (x ++ sep ++ join sep ((y :: group) ++ [last])).
    change (join sep (x :: y :: group)) with (x ++ sep ++ join sep (y :: group)).
    rewrite !length_app.
    assert (Hyg : y :: group <> []) by discriminate.
    specialize (IH Hyg). lia.
Qed.

End Groups.

(** X4. The grouping loop loses and reorders nothing: its chunks are the
    sentences of consecutive non-empty groups, joined by a space, and the
    groups together are the sentences that have an embedding (all of them
    when [encode] gives one vector per sentence; the surplus sentences are
    dropped when it gives fewer). *)
Theorem X4_groups_partition_the_sentences
    (self : LegalChunker) (m : SentenceTransformer)
    (sentences : list str) (embeddings : list (Vec m)) :
  exists groups : list (list str),
    Chunker._group_sentences_semantically self m sentences embeddings
    = map (join Chunker.space) groups
    /\ Forall (fun g => g <> []) groups
    /\ concat groups = take (length embeddings) sentences.
Proof. apply group_partition. Qed.

(** X5. When every similarity is below the threshold, every sentence is a
    chunk of its own. *)
Theorem X5_dissimilar_sentences_are_separate_chunks
    (self : LegalChunker) (m : SentenceTransformer)
    (sentences : list str) (embeddings : list (Vec m)) :
  (forall v w, Chunker.Qltb (cos_sim m v w) (similarity_threshold self) = true) ->
  length embeddings = length sentences ->
  Chunker._group_sentences_semantically self m sentences embeddings = sentences.
Proof.
  intros Hlow Hlen. unfold Chunker._group_sentences_semantically.
  destruct (fold_group_step_dissimilar self m (zip sentences embeddings)
              (Chunker.mkState (V := Vec m) [] [] []) Hlow) as [H1 H2];
    [simpl; lia|].
  simpl in H2. rewrite zip_fst_take, Hlen, firstn_all in H2.
  destruct (Chunker.current_chunk _) as [|s0 [|s1 current]]; simpl in *.
  - by rewrite app_nil_r in H2.
  - exact H2.
  - lia.
Qed.

Lemma X5_dissimilar_sentences_are_separate_chunks_witness :
  Chunker._group_sentences_semantically
    (Sample.chunker (Some Sample.contrary) 5 1000 100) Sample.contrary
    [py "Pay now"; py "Or else"] [tt; tt]
  = [py "Pay now"; py "Or else"].
Proof.
  apply (X5_dissimilar_sentences_are_separate_chunks
           (Sample.chunker (Some Sample.contrary) 5 1000 100) Sample.contrary).
  - intros v w. reflexivity.
  - reflexivity.
Defined.

(** X6. When every similarity reaches the threshold and the sentences,
    joined by spaces, fit in [max_chunk_size], they all go into one chunk. *)
Theorem X6_similar_sentences_that_fit_are_one_chunk
    (self : LegalChunker) (m : SentenceTransformer)
    (sentences : list str) (embeddings : list (Vec m)) :
  (forall v w, Chunker.Qltb (cos_sim m v w) (similarity_threshold self) = false) ->
  length embeddings = length sentences ->
  sentences <> [] ->
  len (join Chunker.space sentences) <= max_chunk_size self ->
  Chunker._group_sentences_semantically self m sentences embeddings
  = [join Chunker.space sentences].
Proof.
  intros Hhigh Hlen Hne Hfit. unfold Chunker._group_sentences_semantically.
  assert (Hfst : map fst (zip sentences embeddings) = sentences)
    by (by rewrite zip_fst_take, Hlen, firstn_all).
  destruct (fold_group_step_similar self m (zip sentences embeddings)
              (Chunker.mkState (V := Vec m) [] [] []) Hhigh) as [H1 H2].
  - simpl. by rewrite Hfst.
  - cbn zeta in H1, H2. simpl in H1, H2. rewrite Hfst in H2. rewrite H1, H2.
    destruct sentences; [congruence | reflexivity].
Qed.

Lemma X6_similar_sentences_that_fit_are_one_chunk_witness :
  Chunker._group_sentences_semantically
    (Sample.chunker (Some Sample.agreeable) 5 1000 100) Sample.agreeable
    [py "Pay now"; py "Or else"] [tt; tt]
  = [py "Pay now Or else"].
Proof.
  apply (X6_similar_sentences_that_fit_are_one_chunk
           (Sample.chunker (Some Sample.agreeable) 5 1000 100) Sample.agreeable).
  - intros v w. reflexivity.
  - reflexivity.
  - discriminate.
  - vm_compute. discriminate.
Defined.



(* ===================================================================== *)
(** * Chunks of documents                                                 *)
(* ===================================================================== *)

Section ChunkLists.

Import Chunker.

Lemma chunked_docs_all_kept self md extra (rest : list str) (i j : nat) :
  Forall (fun c => min_chunk_size self <= len (strip c)) rest ->
  chunked_docs self md extra i rest !! j
  = (fun c => Doc.mk c (with_extra md extra (i + j))) <$> rest !! j.
Proof.
  revert i j. induction rest as [|c rest IH]; intros i j Hall; [reflexivity|].
  inversion Hall as [|? ? Hc Hrest]; subst. simpl.
  apply Z.leb_le in Hc. rewrite Hc. simpl.
  destruct j as [|j]; simpl.
  - by rewrite Nat.add_0_r.
  - rewrite (IH (S i) j Hrest). by rewrite Nat.add_succ_r.
Qed.

Lemma chunked_docs_all_kept_length self md extra (rest : list str) (i : nat) :
  Forall (fun c => min_chunk_size self <= len (strip c)) rest ->
  length (chunked_docs self md extra i rest) = length rest.
Proof.
  revert i. induction rest as [|c rest IH]; intros i Hall; [reflexivity|].
  inversion Hall as [|? ? Hc Hrest]; subst. simpl.
  apply Z.leb_le in Hc. rewrite Hc. simpl. by rewrite IH.
Qed.

Lemma chunked_docs_page_contents self md extra (rest : list str) (i : nat) :
  map Doc.page_content (chunked_docs self md extra i rest)
  = List.filter (fun c => min_chunk_size self <=? len (strip c)) rest.
Proof.
  revert i. induction rest as [|c rest IH]; intros i; [reflexivity|].
  simpl. rewrite map_app, IH.
  by destruct (min_chunk_size self <=? len (strip c)).
Qed.

(** The two semantic methods cut the same texts. *)
Lemma chunk_document_same_texts (self : LegalChunker) (doc : Document) :
  map Doc.page_content (chunk_document self doc)
  = map Doc.page_content (chunk_document_semantic self doc).
Proof.
  unfold chunk_document, chunk_document_semantic,
    _semantic_chunk, _semantic_chunk_original.
  destruct (model self) as [m|]; [|reflexivity].
  destruct (len (_split_into_sentences (Doc.page_content doc)) <? 2); [reflexivity|].
  destruct (encode m _) as [embeddings|e]; simpl; [|reflexivity].
  by rewrite !chunked_docs_page_contents.
Qed.

Lemma fold_left_snoc {A} (l acc : list A) :
  fold_left (fun acc x => acc ++ [x]) l acc = acc ++ l.
Proof.
  revert acc. induction l as [|x l IH]; intros acc; simpl.
  - by rewrite app_nil_r.
  - by rewrite IH, <- app_assoc.
Qed.

Lemma fold_left_extend {A B} (f : A -> list B) (l : list A) (acc : list B) :
  fold_left (fun acc x => acc ++ f x) l acc = acc ++ flat_map f l.
Proof.
  revert acc. induction l as [|x l IH]; intros acc; simpl.
  - by rewrite app_nil_r.
  - by rewrite IH, <- app_assoc.
Qed.

End ChunkLists.

(** X8. When no grouped chunk is dropped, as with a minimum size of zero
    or less, the chunks returned for a document of at least two sentences
    are numbered consecutively from zero and [total_chunks] is the number
    of chunks returned. *)
Theorem X8_numbering_is_consecutive_when_nothing_is_dropped
    (self : LegalChunker) (doc : Document) (docs : list Document) :
  2 <= len (Chunker._split_into_sentences (Doc.page_content doc)) ->
  min_chunk_size self <= 0 ->
  Chunker._semantic_chunk self doc = Ok docs ->
  forall (j : nat) d, docs !! j = Some d ->
    Doc.metadata d !! py "chunk_index" = Some (VInt (Z.of_nat j))
    /\ Doc.metadata d !! py "total_chunks" = Some (VInt (len docs))
    /\ Doc.metadata d !! py "chunking_method" = Some (VStr (py "semantic")).
Proof.
  intros Hlen Hmin Hrun j d Hj.
  destruct (semantic_chunk_many self doc docs Hlen Hrun)
    as (m & embeddings & _ & _ & ->).
  cbv zeta in *.
  set (chunks := Chunker._group_sentences_semantically self m _ embeddings) in *.
  assert (Hall : Forall (fun c => min_chunk_size self <= len (strip c)) chunks).
  { apply Forall_forall. intros c _. unfold len. lia. }
  rewrite (chunked_docs_all_kept self _ _ chunks 0 j Hall) in Hj.
  unfold len at 1. rewrite (chunked_docs_all_kept_length self _ _ chunks 0 Hall).
  destruct (chunks !! j) as [c|]; [|discriminate].
  injection Hj as <-. simpl.
  repeat split; lookup_updates.
Qed.

Lemma X8_numbering_is_consecutive_when_nothing_is_dropped_witness :
  Doc.metadata
    (Doc.mk (py "cdefgh")
       (<[py "total_chunks" := VInt 2]>
        (<[py "chunking_method" := VStr (py "semantic")]>
         (<[py "chunk_index" := VInt 1]> ∅)))) !! py "chunk_index"
  = Some (VInt (Z.of_nat 1)).
Proof.
  apply (X8_numbering_is_consecutive_when_nothing_is_dropped
           (Sample.chunker (Some Sample.contrary) 0 1000 100)
           (Doc.mk (py "ab. cdefgh.") ∅)
           [Doc.mk (py "ab")
              (<[py "total_chunks" := VInt 2]>
               (<[py "chunking_method" := VStr (py "semantic")]>
                (<[py "chunk_index" := VInt 0]> ∅)));
            Doc.mk (py "cdefgh")
              (<[py "total_chunks" := VInt 2]>
               (<[py "chunking_method" := VStr (py "semantic")]>
                (<[py "chunk_index" := VInt 1]> ∅)))]).
  - vm_compute. discriminate.
  - vm_compute. discriminate.
  - reflexivity.
  - reflexivity.
Defined.

(** X9. [chunk_document] and [chunk_document_semantic] cut a document into
    the same texts, in the same order; their chunks differ in metadata
    only. *)
Theorem X9_both_semantic_methods_cut_the_same_texts
    (self : LegalChunker) (doc : Document) :
  map Doc.page_content (Chunker.chunk_document self doc)
  = map Doc.page_content (Chunker.chunk_document_semantic self doc).
Proof. apply chunk_document_same_texts. Qed.

(** X10. [chunk_legal_document] does not look at the legal entities: with
    or without them it returns the chunks of [chunk_document]. *)
Theorem X10_legal_entities_do_not_change_the_chunks
    (self : LegalChunker) (doc : Document) (legal_entities : option (list str)) :
  Chunker.chunk_legal_document self doc legal_entities
  = Chunker.chunk_document self doc.
Proof.
  unfold Chunker.chunk_legal_document, Chunker._preserve_legal_entities.
  destruct legal_entities as [entities|]; [|reflexivity].
  destruct (Chunker.nonempty entities); [|reflexivity].
  apply (fold_left_snoc (Chunker.chunk_document self doc) []).
Qed.

(** X11. [chunk_documents] chunks every document on its own and keeps the
    order: the chunks of two lists of documents, one after the other, are
    the chunks of the first list followed by those of the second, and the
    chunks of one document are those [chunk_document] gives. *)
Theorem X11_chunk_documents_concatenates
    (self : LegalChunker) (docs1 docs2 : list Document) (doc : Document) :
  Chunker.chunk_documents self (docs1 ++ docs2)
  = Chunker.chunk_documents self docs1 ++ Chunker.chunk_documents self docs2
  /\ Chunker.chunk_documents self [doc] = Chunker.chunk_document self doc.
Proof.
  unfold Chunker.chunk_documents. split.
  - rewrite !fold_left_extend. simpl. by rewrite flat_map_app.
  - reflexivity.
Qed.

(* ===================================================================== *)
(** * Entries of an archive                                               *)
(* ===================================================================== *)

Section Entries.

Import ArchiveProcessor.

Variable W : World.
Variable p : Path.

Lemma archive_fallback_not_enhanced (reason : str) (record : DocumentRecord) :
  _fallback_processing W p reason = Ok record -> enhanced_processing record = false.
Proof.
  unfold _fallback_processing.
  destruct (read_text W p) as [content|e]; simpl;
    destruct (stat_size W p) as [size|e']; simpl; try discriminate;
    by intros [= <-].
Qed.

(** An enhanced record of the ZIP path comes from the entries of the
    archive. *)
Lemma zip_enhanced_from_entries (record : DocumentRecord) :
  _process_zip_file W p = Ok record -> enhanced_processing record = true ->
  exists entries,
    zipfile_open W p = Ok entries
    /\ archive_record W (py "ZIP") (py "zip") p entries = Ok record.
Proof.
  unfold _process_zip_file. intros Hrun Henh.
  destruct (negb _).
  { apply archive_fallback_not_enhanced in Hrun. congruence. }
  destruct (zipfile_open W p) as [entries|e]; cbn [bind try_except] in Hrun.
  - exists entries. split; [reflexivity|].
    destruct (archive_record W _ _ p entries) as [r|e] eqn:Hrec; [exact Hrun|].
    simpl in Hrun. apply archive_fallback_not_enhanced in Hrun. congruence.
  - apply archive_fallback_not_enhanced in Hrun. congruence.
Qed.

(** The names the loop extracts are names of the listing, in order, and
    none is a directory marker. *)
Lemma extract_names_sublist (entries : list ArchiveEntry) (file_list : list str)
    (items : list ExtractedItem) (total : N) :
  exists added,
    (fold_left (process_entry entries) file_list (items, total)).1 = items ++ added
    /\ sublist (map item_filename added) file_list
    /\ Forall (fun item => endswith (item_filename item) [slash] = false) added.
Proof.
  revert items total. induction file_list as [|file_name file_list IH];
    intros items total.
  - exists []. simpl. rewrite app_nil_r. repeat split; constructor.
  - cbn [fold_left].
    assert (Hstep : exists total',
               process_entry entries (items, total) file_name = (items, total')
               \/ exists item,
                    process_entry entries (items, total) file_name
                    = (items ++ [item], total')
                    /\ item_filename item = file_name
                    /\ endswith file_name [slash] = false).
    { unfold process_entry.
      destruct (endswith file_name [slash]) eqn:Hdir; [exists total; by left|].
      destruct (getinfo entries file_name) as [info|e]; [|exists total; by left].
      exists (total + entry_size info)%N.
      destruct (entry_read info) as [content|e]; [|by left].
      simpl. right. eexists. split; [reflexivity|]. by split. }
    destruct Hstep as [total' [-> | (item & -> & Hname & Hdir)]].
    + destruct (IH items total') as (added & H1 & H2 & H3).
      exists added. split; [exact H1|]. split; [by apply sublist_cons | exact H3].
    + destruct (IH (items ++ [item]) total') as (added & H1 & H2 & H3).
      exists (item :: added). split; [by rewrite H1, <- app_assoc|]. split.
      * simpl. rewrite Hname. by apply sublist_skip.
      * constructor; [by rewrite Hname | exact H3].
Qed.

(** With distinct names and no directory markers, every size is added and
    the entries that can be read are extracted. *)
Lemma extract_sizes (entries rest : list ArchiveEntry) (items : list ExtractedItem)
    (total : N) :
  NoDup (map entry_name entries) ->
  Forall (fun e => e ∈ entries /\ endswith (entry_name e) [slash] = false) rest ->
  exists added,
    fold_left (process_entry entries) (map entry_name rest) (items, total)
    = (items ++ added,
       (total + fold_right (fun e acc => entry_size e + acc) 0 rest)%N)
    /\ map item_filename added
       = map entry_name (List.filter (fun e => is_ok (entry_read e)) rest).
Proof.
  intros Hnodup. revert items total.
  induction rest as [|e rest IH]; intros items total Hall.
  - exists []. simpl. by rewrite app_nil_r, N.add_0_r.
  - inversion Hall as [|? ? [He Hdir] Hrest]; subst.
    cbn [map fold_left fold_right].
    unfold process_entry at 2.
    rewrite Hdir, (getinfo_listed entries e Hnodup He).
    destruct (entry_read e) as [content|err] eqn:Hread.
    + cbn [decode_utf8].
      destruct (IH (items ++ [mkItem (entry_name e)
                                (Utf8.chars (Utf8.scan (map Byte.to_N content)))
                                (entry_size e) (py "text")])
                   (total + entry_size e)%N Hrest) as (added & H1 & H2).
      eexists (_ :: added). rewrite H1, <- app_assoc. split.
      * simpl. f_equal. lia.
      * simpl. rewrite Hread. simpl. by rewrite H2.
    + destruct (IH items (total + entry_size e)%N Hrest) as (added & H1 & H2).
      exists added. rewrite H1. split; [f_equal; lia|].
      simpl. rewrite Hread. exact H2.
Qed.

End Entries.


(** X13. The ZIP path counts every listed name in [file_count], directory
    markers included, but extracts files only: the names in
    [extracted_files] are names of the listing, in its order, none ending
    in a slash. *)
Theorem X13_directories_are_counted_but_not_extracted
    (W : World) (p : Path) (record : DocumentRecord) :
  ArchiveProcessor._process_zip_file W p = Ok record ->
  enhanced_processing record = true ->
  exists (entries : list ArchiveEntry) (names : list str),
    zipfile_open W p = Ok entries
    /\ metadata record !! py "file_count" = Some (VInt (len entries))
    /\ metadata record !! py "extracted_files" = Some (VList (map VStr names))
    /\ sublist names (map entry_name entries)
    /\ Forall (fun file_name => endswith file_name [slash] = false) names.
Proof.
  intros Hrun Henh.
  destruct (zip_enhanced_from_entries W p record Hrun Henh) as (entries & Hopen & Hrec).
  destruct (extract_names_sublist entries (map entry_name entries) [] 0%N)
    as (added & Hitems & Hsub & Hdirs).
  exists entries, (map ArchiveProcessor.item_filename added).
  split; [exact Hopen|].
  revert Hrec. unfold ArchiveProcessor.archive_record, ArchiveProcessor.extract_entries.
  destruct (fold_left _ _ _) as [items total]. simpl in Hitems. subst items.
  destruct (stat_size W p) as [size|e]; simpl; [|discriminate].
  intros [= <-]. simpl. split; [|split; [|split]].
  - repeat (rewrite lookup_insert_ne by key_ne). rewrite lookup_insert_eq.
    unfold len. by rewrite length_map.
  - repeat (rewrite lookup_insert_ne by key_ne). rewrite lookup_insert_eq.
    by rewrite map_map.
  - exact Hsub.
  - apply Forall_map. exact Hdirs.
Qed.

Lemma X13_directories_are_counted_but_not_extracted_witness :
  exists record,
    ArchiveProcessor._process_zip_file (Sample.with_zip Sample.contracts_zip)
      (py "docs.zip") = Ok record
    /\ exists (entries : list ArchiveEntry) (names : list str),
         zipfile_open (Sample.with_zip Sample.contracts_zip) (py "docs.zip") = Ok entries
         /\ metadata record !! py "file_count" = Some (VInt (len entries))
         /\ metadata record !! py "extracted_files" = Some (VList (map VStr names))
         /\ sublist names (map entry_name entries)
         /\ Forall (fun file_name => endswith file_name [slash] = false) names.
Proof.
  eexists. split; [reflexivity|].
  apply (X13_directories_are_counted_but_not_extracted
           (Sample.with_zip Sample.contracts_zip) (py "docs.zip")).
  - reflexivity.
  - reflexivity.
Defined.

(** X14. With distinct names and no directory markers in the listing,
    [total_size] is the sum of the sizes of all entries, also of those that
    cannot be read, while [extracted_files] lists the readable ones only. *)
Theorem X14_total_size_counts_unreadable_entries
    (W : World) (p : Path) (entries : list ArchiveEntry) (record : DocumentRecord) :
  ArchiveProcessor._process_zip_file W p = Ok record ->
  enhanced_processing record = true ->
  zipfile_open W p = Ok entries ->
  NoDup (map entry_name entries) ->
  Forall (fun e => endswith (entry_name e) [slash] = false) entries ->
  metadata record !! py "total_size"
  = Some (VInt (Z.of_N (fold_right (fun e acc => entry_size e + acc)%N 0%N entries)))
  /\ metadata record !! py "extracted_files"
     = Some (VList (map (fun e => VStr (entry_name e))
                      (List.filter (fun e => is_ok (entry_read e)) entries))).
Proof.
  intros Hrun Henh Hopen Hnodup Hfiles.
  destruct (zip_enhanced_from_entries W p record Hrun Henh) as (entries' & Hopen' & Hrec).
  rewrite Hopen in Hopen'. injection Hopen' as <-.
  assert (Hall : Forall (fun e => e ∈ entries /\ endswith (entry_name e) [slash] = false)
                   entries).
  { apply Forall_forall. intros e He. split; [exact He|].
    rewrite Forall_forall in Hfiles. by apply Hfiles. }
  destruct (extract_sizes entries entries [] 0%N Hnodup Hall) as (added & Hfold & Hnames).
  revert Hrec. unfold ArchiveProcessor.archive_record, ArchiveProcessor.extract_entries.
  rewrite Hfold. simpl.
  destruct (stat_size W p) as [size|e]; simpl; [|discriminate].
  intros [= <-]. simpl. split.
  - repeat (rewrite lookup_insert_ne by key_ne). by rewrite lookup_insert_eq.
  - repeat (rewrite lookup_insert_ne by key_ne). rewrite lookup_insert_eq.
    do 2 f_equal.
    rewrite <- (map_map ArchiveProcessor.item_filename VStr), Hnames.
    by rewrite map_map.
Qed.

Lemma X14_total_size_counts_unreadable_entries_witness :
  exists record,
    ArchiveProcessor._process_zip_file (Sample.with_zip Sample.flat_zip) (py "docs.zip")
    = Ok record
    /\ metadata record !! py "total_size" = Some (VInt 10)
    /\ metadata record !! py "extracted_files" = Some (VList [VStr (py "nda.txt")]).
Proof.
  eexists. split; [reflexivity|].
  apply (X14_total_size_counts_unreadable_entries
           (Sample.with_zip Sample.flat_zip) (py "docs.zip") Sample.flat_zip).
  - reflexivity.
  - reflexivity.
  - reflexivity.
  - vm_compute. repeat constructor; intros Hin;
      repeat (apply elem_of_cons in Hin; destruct Hin as [Hin|Hin]; [discriminate|]);
      by apply elem_of_nil in Hin.
  - repeat constructor.
Defined.

(** X15. Without the RAR codec an existing [.rar] file that can be read
    as text is returned whole as that text: the record is not enhanced, its
    method is "fallback" and its reason says that RAR processing is not
    available. *)
Theorem X15_rar_without_codec_is_read_as_text
    (W : World) (p : Path) (content : str) :
  RAR_PROCESSING_AVAILABLE W = false ->
  exists_ W p = true ->
  lower W (suffix p) = py ".rar" ->
  read_text W p = Ok content ->
  exists record,
    ArchiveProcessor.process_archive_file W p = Ok record
    /\ raw_content record = content
    /\ enhanced_processing record = false
    /\ metadata record !! py "processing_method" = Some (VStr (py "fallback"))
    /\ metadata record !! py "reason" = Some (VStr (py "RAR processing not available")).
Proof.
  intros Hrar Hexists Hext Hread.
  destruct (stat_size_exists W p Hexists) as [size Hsize].
  unfold ArchiveProcessor.process_archive_file. rewrite Hexists, Hext.
  cbn [negb]. change (str_eqb (py ".rar") (py ".zip")) with false.
  change (str_eqb (py ".rar") (py ".rar")) with true. cbv iota.
  unfold ArchiveProcessor._process_rar_file. rewrite Hrar. cbn [negb].
  unfold ArchiveProcessor._fallback_processing. rewrite Hread, Hsize.
  eexists. split; [reflexivity|]. simpl.
  split; [reflexivity|]. split; [reflexivity|]. split; lookup_updates.
Qed.

Lemma X15_rar_without_codec_is_read_as_text_witness :
  exists record,
    ArchiveProcessor.process_archive_file
      (Sample.with_file (py "exhibits.rar") (mkFile 13 (Ok (bytes_of "Rar! exhibits"))))
      (py "exhibits.rar") = Ok record
    /\ raw_content record = py "Rar! exhibits"
    /\ enhanced_processing record = false
    /\ metadata record !! py "processing_method" = Some (VStr (py "fallback"))
    /\ metadata record !! py "reason" = Some (VStr (py "RAR processing not available")).
Proof.
  apply (X15_rar_without_codec_is_read_as_text
           (Sample.with_file (py "exhibits.rar") (mkFile 13 (Ok (bytes_of "Rar! exhibits"))))
           (py "exhibits.rar")).
  - reflexivity.
  - reflexivity.
  - reflexivity.
  - reflexivity.
Defined.

(** X16. When the ZIP codec cannot open an existing file, the exception
    does not escape: the record is the degraded one, and the message of the
    exception is kept in it, in [reason] beside the text of the file when
    the file can be read, and else in the content that says the file could
    not be processed. *)
Theorem X16_zip_open_failure_is_reported_in_the_record
    (W : World) (p : Path) (e : Exception) :
  ZIP_PROCESSING_AVAILABLE W = true ->
  exists_ W p = true ->
  zipfile_open W p = Raise e ->
  exists record,
    ArchiveProcessor._process_zip_file W p = Ok record
    /\ enhanced_processing record = false
    /\ match read_text W p with
       | Ok content =>
         raw_content record = content
         /\ metadata record !! py "reason"
            = Some (VStr (py "ZIP processing failed: " ++ exc_str e))
       | Raise e' =>
         raw_content record
         = py "Could not process " ++ name p ++ py ": ZIP processing failed: " ++ exc_str e
         /\ metadata record !! py "error" = Some (VStr (exc_str e'))
       end.
Proof.
  intros Hzip Hexists Hopen.
  destruct (stat_size_exists W p Hexists) as [size Hsize].
  unfold ArchiveProcessor._process_zip_file. rewrite Hzip, Hopen.
  cbn [negb bind try_except].
  unfold ArchiveProcessor._fallback_processing. rewrite Hsize.
  destruct (read_text W p) as [content|e']; simpl.
  - eexists. split; [reflexivity|]. simpl.
    split; [reflexivity|]. split; [reflexivity | lookup_updates].
  - eexists. split; [reflexivity|]. simpl.
    split; [reflexivity|]. split; [reflexivity | lookup_updates].
Qed.

Lemma X16_zip_open_failure_is_reported_in_the_record_witness :
  exists record,
    ArchiveProcessor._process_zip_file Sample.world (py "report.txt") = Ok record
    /\ enhanced_processing record = false
    /\ raw_content record = py "report"
    /\ metadata record !! py "reason"
       = Some (VStr (py "ZIP processing failed: File is not an archive")).
Proof.
  apply (X16_zip_open_failure_is_reported_in_the_record
           Sample.world (py "report.txt") Sample.not_an_archive).
  - reflexivity.
  - reflexivity.
  - reflexivity.
Defined.

(** X17. [supported_formats] lists [.7z], but the dispatch has no branch
    for it: an existing [.7z] file makes [process_archive_file] raise
    [ValueError]. *)
Theorem X17_seven_zip_is_listed_but_rejected (W : World) (p : Path) :
  exists_ W p = true ->
  lower W (suffix p) = py ".7z" ->
  py ".7z" ∈ ArchiveProcessor.supported_formats
  /\ ArchiveProcessor.process_archive_file W p
     = Raise (mkException ValueError (py "Unsupported archive format: .7z")).
Proof.
  intros Hexists Hext. split.
  - unfold ArchiveProcessor.supported_formats.
    do 5 apply list_elem_of_further. apply list_elem_of_here.
  - unfold ArchiveProcessor.process_archive_file. by rewrite Hexists, Hext.
Qed.

Lemma X17_seven_zip_is_listed_but_rejected_witness :
  ArchiveProcessor.process_archive_file
    (Sample.with_file (py "exhibits.7z") (mkFile 6 (Ok [x37; x7a; xbc; xaf; x27; x1c])))
    (py "exhibits.7z")
  = Raise (mkException ValueError (py "Unsupported archive format: .7z")).
Proof.
  apply (X17_seven_zip_is_listed_but_rejected
           (Sample.with_file (py "exhibits.7z")
              (mkFile 6 (Ok [x37; x7a; xbc; xaf; x27; x1c])))
           (py "exhibits.7z")).
  - reflexivity.
  - reflexivity.
Defined.

(** X18. The email batch returns, whatever the order in which the items
    complete, one record per path, in the order of the paths: the record
    [process_email_file] returns for the path, or, when it raises, a record
    that is not enhanced, whose locator is the path and whose content and
    [error] hold the message of the exception. *)
Theorem X18_email_batch_is_aligned_with_its_paths
    (W : World) (completion : list nat) (file_paths : list Path) :
  (forall i, (i < length file_paths)%nat -> i ∈ completion) ->
  exists records,
    EmailProcessor.process_email_files_batch W completion file_paths = Some (Ok records)
    /\ length records = length file_paths
    /\ forall (i : nat) file_path, file_paths !! i = Some file_path ->
         match EmailProcessor.process_email_file W file_path with
         | Ok record => records !! i = Some record
         | Raise e =>
           exists record,
             records !! i = Some record
             /\ raw_content record
                = py "Error processing " ++ file_path ++ py ": " ++ exc_str e
             /\ url record = file_path
             /\ enhanced_processing record = false
             /\ metadata record !! py "processing_method" = Some (VStr (py "error"))
             /\ metadata record !! py "error" = Some (VStr (exc_str e))
         end.
Proof.
  intros Hall. exists (map (email_slot W) file_paths).
  split; [by apply email_batch_slots|]. split; [by rewrite length_map|].
  intros i file_path Hi.
  assert (Hslot : map (email_slot W) file_paths !! i = Some (email_slot W file_path)).
  { change (map (email_slot W) file_paths) with (email_slot W <$> file_paths).
    by rewrite list_lookup_fmap, Hi. }
  unfold email_slot in Hslot.
  destruct (EmailProcessor.process_email_file W file_path) as [record|e]; [exact Hslot|].
  eexists. split; [exact Hslot|]. simpl.
  split; [reflexivity|]. split; [reflexivity|]. split; [reflexivity|].
  split; lookup_updates.
Qed.

Lemma X18_email_batch_is_aligned_with_its_paths_witness :
  exists records,
    EmailProcessor.process_email_files_batch Sample.world [2; 0; 1]%nat
      [py "letter.msg"; py "missing.eml"; py "locked.eml"] = Some (Ok records)
    /\ length records = 3%nat.
Proof.
  destruct (X18_email_batch_is_aligned_with_its_paths Sample.world [2; 0; 1]%nat
              [py "letter.msg"; py "missing.eml"; py "locked.eml"])
    as (records & Hrun & Hlen & _).
  - intros i Hi. simpl in Hi.
    destruct i as [|[|[|i]]]; [| | |lia];
      repeat (first [apply list_elem_of_here | apply list_elem_of_further]).
  - exists records. by split.
Defined.



(* ===================================================================== *)
(** * Text of binary content                                              *)
(* ===================================================================== *)

Section BinaryText.

Import EmailProcessor.

Lemma printable_not_space (c : char) :
  printable c = true -> isspace c = false -> (33 <= c <= 126)%N.
Proof.
  unfold printable, isspace. intros Hp Hs.
  repeat rewrite ?orb_true_iff, ?andb_true_iff, ?N.leb_le, ?N.eqb_eq in Hp.
  repeat rewrite ?orb_false_iff, ?andb_false_iff, ?N.leb_gt, ?N.eqb_neq in Hs.
  lia.
Qed.

Lemma collapse_chars (text : str) (in_run : bool) :
  Forall (fun c => printable c = true) text ->
  Forall (fun c => (32 <= c <= 126)%N) (collapse_whitespace in_run text).
Proof.
  revert in_run. induction text as [|c text IH]; simpl; intros in_run Hall.
  - constructor.
  - inversion Hall as [|? ? Hc Hrest]; subst.
    destruct (isspace c) eqn:Hs.
    + destruct in_run; [by apply IH|]. constructor; [lia | by apply IH].
    + constructor; [|by apply IH].
      pose proof (printable_not_space c Hc Hs). lia.
Qed.

Lemma collapse_head (text : str) (c : char) (rest : str) :
  collapse_whitespace true text = c :: rest -> c <> 32%N.
Proof.
  induction text as [|a text IH]; simpl; [discriminate|].
  destruct (isspace a) eqn:Hs; [exact IH|].
  intros [= <- _] ->. discriminate.
Qed.

Lemma collapse_single (text : str) (in_run : bool) (pre post : str) :
  collapse_whitespace in_run text <> pre ++ 32%N :: 32%N :: post.
Proof.
  revert in_run pre. induction text as [|a text IH]; simpl; intros in_run pre.
  - by destruct pre.
  - destruct (isspace a) eqn:Hs.
    + destruct in_run; [apply IH|].
      destruct pre as [|x pre]; simpl.
      * intros [= Heq]. by apply collapse_head in Heq.
      * intros [= _ Heq]. by apply IH in Heq.
    + destruct pre as [|x pre]; simpl.
      * intros [= -> _]. discriminate.
      * intros [= _ Heq]. by apply IH in Heq.
Qed.

Lemma strip_infix (s : str) : exists pre post, s = pre ++ strip s ++ post.
Proof.
  destruct (lstrip_split s) as (pre & Hs & _).
  destruct (lstrip_split (rev (lstrip s))) as (post & Hr & _).
  exists pre, (rev post). unfold strip, rstrip.
  rewrite <- rev_app_distr, <- Hr, rev_involutive. exact Hs.
Qed.

Lemma binary_text_chars (content : bytes) :
  Forall (fun c => (32 <= c <= 126)%N) (_extract_text_from_binary content).
Proof.
  unfold _extract_text_from_binary.
  destruct (decode_ignore_ok content) as [text ->]. cbn [bind].
  apply strip_keeps. apply collapse_chars.
  apply Forall_forall. intros c Hc.
  apply list_elem_of_In, filter_In in Hc. by destruct Hc as [_ Hc].
Qed.

End BinaryText.

(** X20. Whatever the bytes, the text [_extract_text_from_binary] returns
    holds characters from the space to the tilde only, has no white space
    at either end, and has no two spaces in a row. *)
Theorem X20_text_of_binary_is_printable_and_single_spaced (content : bytes) :
  Forall (fun c => (32 <= c <= 126)%N) (EmailProcessor._extract_text_from_binary content)
  /\ strip (EmailProcessor._extract_text_from_binary content)
     = EmailProcessor._extract_text_from_binary content
  /\ forall pre post,
       EmailProcessor._extract_text_from_binary content <> pre ++ py "  " ++ post.
Proof.
  split; [apply binary_text_chars|].
  unfold EmailProcessor._extract_text_from_binary.
  destruct (decode_ignore_ok content) as [text ->]. cbn [bind].
  set (collapsed := EmailProcessor.collapse_whitespace false
                      (List.filter EmailProcessor.printable text)).
  split.
  - apply strip_idem.
  - intros pre post Heq.
    destruct (strip_infix collapsed) as (a & b & Hcollapsed).
    rewrite Heq in Hcollapsed. simpl in Hcollapsed.
    apply (collapse_single (List.filter EmailProcessor.printable text) false
             (a ++ pre) (post ++ b)).
    fold collapsed. rewrite Hcollapsed. by rewrite <- !app_assoc.
Qed.

(** X12. For an existing [.msg] file that can be read, with email
    processing available, [process_email_file] returns an enhanced record
    whose content is the text extracted from the bytes of the file, so
    characters from the space to the tilde only. *)
Theorem X12_msg_record_is_printable_text (W : World) (p : Path) (content : bytes) :
  EMAIL_PROCESSING_AVAILABLE W = true ->
  exists_ W p = true ->
  lower W (suffix p) = py ".msg" ->
  read_binary W p = Ok content ->
  exists record,
    EmailProcessor.process_email_file W p = Ok record
    /\ raw_content record = EmailProcessor._extract_text_from_binary content
    /\ Forall (fun c => (32 <= c <= 126)%N) (raw_content record)
    /\ url record = p
    /\ enhanced_processing record = true
    /\ metadata record !! py "processing_method" = Some (VStr (py "email_extraction"))
    /\ metadata record !! py "file_type" = Some (VStr (py "msg")).
Proof.
  intros Hemail Hexists Hext Hread.
  destruct (stat_size_exists W p Hexists) as [size Hsize].
  unfold EmailProcessor.process_email_file. rewrite Hexists, Hext. cbn [negb].
  unfold str_eqb at 1. rewrite bool_decide_eq_true_2 by reflexivity.
  unfold EmailProcessor._process_msg_file. rewrite Hemail, Hread, Hsize.
  cbn [negb bind try_except].
  eexists. split; [reflexivity|].
  cbn [raw_content url enhanced_processing metadata].
  split; [reflexivity|]. split; [apply binary_text_chars|].
  split; [reflexivity|]. split; [reflexivity|]. split; lookup_updates.
Qed.

Lemma X12_msg_record_is_printable_text_witness :
  exists record,
    EmailProcessor.process_email_file Sample.world (py "letter.msg") = Ok record
    /\ raw_content record = py "Dear all".
Proof.
  destruct (X12_msg_record_is_printable_text Sample.world (py "letter.msg")
              (bytes_of "Dear  all"))
    as (record & Hrun & Hcontent & _).
  - reflexivity.
  - reflexivity.
  - reflexivity.
  - reflexivity.
  - exists record. split; [exact Hrun | exact Hcontent].
Defined.

(* ===================================================================== *)
(** * Parts of a message                                                  *)
(* ===================================================================== *)

Section Parts.

Import EmailProcessor.

Variable codec : HeaderCodec.

Lemma attachment_step_recorded (P : Attachment -> Prop)
    (attachments : list Attachment) (part : Message) :
  (forall filename content_type content (payload : bytes),
     payload <> [] -> startswith content_type (py "text/") = true ->
     P (mkAttachment filename content_type content (N.of_nat (length payload)))) ->
  (forall filename content_type (payload : bytes),
     payload <> [] -> startswith content_type (py "text/") = false ->
     P (mkAttachment filename content_type (binary_attachment filename)
          (N.of_nat (length payload)))) ->
  Forall P attachments ->
  Forall P (attachment_step codec attachments part).
Proof.
  intros Htext Hbinary Hall. unfold attachment_step.
  destruct (_ || _); [|exact Hall].
  destruct (truthy (get_filename part)); [|exact Hall].
  destruct (get_payload part) as [[|b payload]|]; cbn [truthy default from_option id]; try exact Hall.
  destruct (startswith (get_content_type part) (py "text/")) eqn:Hct.
  - destruct (decode_utf8 Ignore (b :: payload)) as [content|e]; [|exact Hall].
    apply Forall_app. split; [exact Hall|]. constructor; [|constructor].
    by apply Htext.
  - apply Forall_app. split; [exact Hall|]. constructor; [|constructor].
    by apply Hbinary.
Qed.

Lemma fold_attachment_step_recorded (parts : list Message) (attachments : list Attachment) :
  Forall (fun attachment =>
            (0 < att_size attachment)%N
            /\ (startswith (att_content_type attachment) (py "text/") = false ->
                att_content attachment = binary_attachment (att_filename attachment)))
    attachments ->
  Forall (fun attachment =>
            (0 < att_size attachment)%N
            /\ (startswith (att_content_type attachment) (py "text/") = false ->
                att_content attachment = binary_attachment (att_filename attachment)))
    (fold_left (attachment_step codec) parts attachments).
Proof.
  revert attachments.
  induction parts as [|part parts IH]; cbn [fold_left]; intros attachments Hall.
  - exact Hall.
  - apply IH. apply attachment_step_recorded; [| |exact Hall].
    + intros filename content_type content payload Hne Hct.
      cbn [att_size att_content_type att_content att_filename].
      split; [destruct payload; [done | cbn [length]; lia] | congruence].
    + intros filename content_type payload Hne Hct.
      cbn [att_size att_content_type att_content att_filename].
      split; [destruct payload; [done | cbn [length]; lia] | done].
Qed.

Lemma attachments_recorded (msg : Message) :
  Forall (fun attachment =>
            (0 < att_size attachment)%N
            /\ (startswith (att_content_type attachment) (py "text/") = false ->
                att_content attachment = binary_attachment (att_filename attachment)))
    (_extract_attachments codec msg).
Proof.
  unfold _extract_attachments. destruct (is_multipart msg); [|constructor].
  apply fold_attachment_step_recorded. constructor.
Qed.

Lemma fold_attachment_step_length (parts : list Message) (attachments : list Attachment) :
  (length (fold_left (attachment_step codec) parts attachments)
   <= length attachments + length parts)%nat.
Proof.
  revert attachments. induction parts as [|part parts IH]; simpl; intros attachments.
  - lia.
  - etransitivity; [apply IH|].
    assert (length (attachment_step codec attachments part) <= S (length attachments))%nat;
      [|lia].
    unfold attachment_step.
    repeat match goal with
           | |- context [if ?b then _ else _] => destruct b
           | |- context [match ?r with Ok _ => _ | Raise _ => _ end] => destruct r
           end; rewrite ?length_app; simpl; lia.
Qed.

Lemma fold_body_step_ok (parts : list Message) (body : str) :
  exists body', fold_left body_step parts (Ok body) = Ok body'.
Proof.
  revert body. induction parts as [|part parts IH]; cbn [fold_left]; intros body.
  - by eexists.
  - unfold body_step at 2. cbn [bind].
    destruct (str_eqb (get_content_type part) (py "text/plain")).
    + destruct (truthy (get_payload part)); [|apply IH].
      destruct (decode_ignore_ok (default [] (get_payload part))) as [text ->].
      cbn [bind]. apply IH.
    + destruct (str_eqb (get_content_type part) (py "text/html")); [|apply IH].
      destruct (truthy (get_payload part)); [|apply IH].
      destruct (decode_ignore_ok (default [] (get_payload part))) as [text ->].
      cbn [bind]. apply IH.
Qed.

Lemma strip_tags_inside (t rest inside : str) :
  62%N ∉ t -> inside ++ t <> [] ->
  strip_tags (Some inside) (t ++ 62%N :: rest) = strip_tags None rest.
Proof.
  revert inside. induction t as [|c t IH]; simpl; intros inside Hfree Hne.
  - rewrite app_nil_r in Hne. by destruct inside.
  - apply not_elem_of_cons in Hfree as [Hc Hfree].
    rewrite (proj2 (N.eqb_neq c 62)) by done.
    apply IH; [exact Hfree|]. by destruct t.
Qed.

Lemma strip_tags_outside (a rest : str) :
  60%N ∉ a -> strip_tags None (a ++ rest) = a ++ strip_tags None rest.
Proof.
  induction a as [|c a IH]; simpl; intros Hfree; [reflexivity|].
  apply not_elem_of_cons in Hfree as [Hc Hfree].
  rewrite (proj2 (N.eqb_neq c 60)) by done. by rewrite IH.
Qed.

End Parts.

(** X21. Every attachment [_extract_attachments] records has a payload of
    at least one byte, and unless its content type starts with [text/] its
    content is the placeholder that names it; there are no more
    attachments than messages in the walk. *)
Theorem X21_recorded_attachments
    (codec : EmailProcessor.HeaderCodec) (msg : EmailProcessor.Message) :
  Forall (fun attachment =>
            (0 < att_size attachment)%N
            /\ (startswith (att_content_type attachment) (py "text/") = false ->
                att_content attachment
                = EmailProcessor.binary_attachment (att_filename attachment)))
    (EmailProcessor._extract_attachments codec msg)
  /\ (length (EmailProcessor._extract_attachments codec msg)
      <= length (EmailProcessor.walk msg))%nat.
Proof.
  split; [apply attachments_recorded|].
  unfold EmailProcessor._extract_attachments.
  destruct (EmailProcessor.is_multipart msg); [|simpl; lia].
  apply (fold_attachment_step_length codec (EmailProcessor.walk msg) []).
Qed.

(** X22. [_extract_email_body] raises for no message, and the body it
    returns has no white space at either end. *)
Theorem X22_email_body_is_returned_trimmed (msg : EmailProcessor.Message) :
  exists body,
    EmailProcessor._extract_email_body msg = Ok body /\ strip body = body.
Proof.
  unfold EmailProcessor._extract_email_body.
  destruct (EmailProcessor.is_multipart msg).
  - assert (Hfold : exists body,
              fold_left EmailProcessor.body_step (EmailProcessor.walk msg)
                (@Ok (list N) []) = Ok body)
      by apply (fold_body_step_ok (EmailProcessor.walk msg) []).
    destruct Hfold as [body ->]. cbn [bind]. eexists. split; [reflexivity | apply strip_idem].
  - destruct (EmailProcessor.truthy (EmailProcessor.get_payload msg)).
    + destruct (decode_ignore_ok (default [] (EmailProcessor.get_payload msg)))
        as [text ->].
      cbn [bind]. eexists. split; [reflexivity | apply strip_idem].
    + cbn [bind]. eexists. split; [reflexivity | apply strip_idem].
Qed.

(** X23. The tag removal applied to HTML bodies leaves text before the
    first ['<'] as it is and removes a tag, from a ['<'] to the next ['>']
    with at least one character between them. *)
Theorem X23_tags_are_removed (a t b : str) :
  60%N ∉ a -> 62%N ∉ t -> t <> [] ->
  EmailProcessor.strip_tags None (a ++ py "<" ++ t ++ py ">" ++ b)
  = a ++ EmailProcessor.strip_tags None b.
Proof.
  intros Ha Ht Hne. rewrite strip_tags_outside by exact Ha. f_equal.
  simpl. apply strip_tags_inside; [exact Ht | by destruct t].
Qed.

Lemma X23_tags_are_removed_witness :
  EmailProcessor.strip_tags None (py "Please <b class=x>sign")
  = py "Please " ++ EmailProcessor.strip_tags None (py "sign").
Proof.
  apply (X23_tags_are_removed (py "Please ") (py "b class=x") (py "sign")).
  - vm_compute. intros H. repeat (apply elem_of_cons in H as [H|H]; [discriminate|]).
    by apply elem_of_nil in H.
  - vm_compute. intros H. repeat (apply elem_of_cons in H as [H|H]; [discriminate|]).
    by apply elem_of_nil in H.
  - discriminate.
Defined.

(* ===================================================================== *)
(** * The loaders of the document processor                               *)
(* ===================================================================== *)

Section Loaders.

Import LegalDocumentProcessor.

Variable W : World.
Variable p : Path.

Lemma build_loader_dict_keys (classes : list (str * LoaderClass))
    (loaders : gmap str Loader) (k : str) :
  build_loader_dict W p classes = Ok loaders ->
  is_Some (loaders !! k) -> k ∈ map fst classes.
Proof.
  revert loaders. induction classes as [|[extension class] classes IH];
    cbn [build_loader_dict map fst]; intros loaders Hbuild Hk.
  - injection Hbuild as <-. rewrite lookup_empty in Hk. by destruct Hk.
  - destruct (new_loader W class p) as [loader|e]; [|discriminate].
    cbn [bind] in Hbuild.
    destruct (build_loader_dict W p classes) as [rest|e]; [|discriminate].
    cbn [bind] in Hbuild. injection Hbuild as <-.
    destruct (decide (extension = k)) as [->|Hne]; [apply list_elem_of_here|].
    rewrite lookup_insert_ne in Hk by done.
    apply list_elem_of_further. by eapply IH.
Qed.

Lemma build_loader_dict_raises (classes : list (str * LoaderClass))
    (class : LoaderClass) (e : Exception) :
  class ∈ map snd classes ->
  new_loader W class p = Raise e ->
  exists e', build_loader_dict W p classes = Raise e'.
Proof.
  intros Hin Hraise.
  induction classes as [|[extension class'] classes IH];
    cbn [build_loader_dict map snd] in *.
  - by apply elem_of_nil in Hin.
  - destruct (new_loader W class' p) as [loader|e0] eqn:Hnew; [|by eexists].
    cbn [bind].
    apply elem_of_cons in Hin as [->|Hin]; [congruence|].
    destruct (IH Hin) as [e' ->]. by eexists.
Qed.

Lemma build_loader_dict_ok (classes : list (str * LoaderClass)) :
  (forall class, is_ok (new_loader W class p) = true) ->
  exists loaders, build_loader_dict W p classes = Ok loaders.
Proof.
  intros Hok. induction classes as [|[extension class] classes IH];
    cbn [build_loader_dict].
  - by eexists.
  - specialize (Hok class). destruct (new_loader W class p); [|discriminate].
    cbn [bind]. destruct IH as [loaders ->]. by eexists.
Qed.

(** A record of the loaders comes from one of the nine extensions. *)
Lemma gpt_researcher_record (record : DocumentRecord) :
  _process_with_gpt_researcher W p = Ok record ->
  strip_dots (lower W (suffix p)) ∈ map fst loader_classes
  /\ url record = name p
  /\ enhanced_processing record = false
  /\ metadata record !! py "processing_method" = Some (VStr (py "gpt_researcher"))
  /\ metadata record !! py "file_type" = Some (VStr (strip_dots (lower W (suffix p)))).
Proof.
  unfold _process_with_gpt_researcher. intros Hrun.
  destruct (build_loader_dict W p loader_classes) as [loaders|e] eqn:Hbuild;
    [|discriminate].
  cbn [bind try_except] in Hrun.
  destruct (loaders !! strip_dots (lower W (suffix p))) as [loader|] eqn:Hk;
    [|discriminate].
  split; [by eapply build_loader_dict_keys|].
  destruct loader as [pages|e]; [|discriminate].
  cbn [bind try_except] in Hrun. injection Hrun as <-.
  cbn [url enhanced_processing metadata].
  split; [reflexivity|]. split; [reflexivity|].
  split; [by rewrite lookup_insert_eq|].
  rewrite lookup_insert_ne by key_ne. by rewrite lookup_insert_eq.
Qed.

Lemma gpt_researcher_unsupported :
  strip_dots (lower W (suffix p)) ∉ map fst loader_classes ->
  exists e, _process_with_gpt_researcher W p = Raise e
    /\ ((forall class, is_ok (new_loader W class p) = true) ->
        e = mkException ValueError
              (py "Unsupported file type: " ++ strip_dots (lower W (suffix p)))).
Proof.
  intros Hext. unfold _process_with_gpt_researcher.
  destruct (build_loader_dict W p loader_classes) as [loaders|e] eqn:Hbuild.
  - cbn [bind try_except].
    destruct (loaders !! strip_dots (lower W (suffix p))) as [loader|] eqn:Hk.
    + exfalso. apply Hext. by eapply build_loader_dict_keys.
    + eexists. split; [reflexivity | done].
  - cbn [bind try_except]. eexists. split; [reflexivity|].
    intros Hok. destruct (build_loader_dict_ok loader_classes Hok) as [loaders Hl].
    congruence.
Qed.

Lemma image_ext_has_no_loader (file_extension : str) :
  existsb (str_eqb file_extension) image_exts = true ->
  file_extension <> py ".pdf"
  /\ strip_dots file_extension ∉ map fst loader_classes.
Proof.
  intros Himage. apply existsb_exists in Himage as (ext & Hin & Heq).
  apply bool_decide_eq_true in Heq. subst ext.
  unfold image_exts in Hin. cbn [In] in Hin.
  repeat (destruct Hin as [<-|Hin];
          [split; [discriminate|];
           vm_compute; intros H;
           repeat (apply elem_of_cons in H as [H|H]; [discriminate|]);
           by apply elem_of_nil in H|]).
  destruct Hin.
Qed.

End Loaders.

(* ===================================================================== *)
(** * Pages                                                               *)
(* ===================================================================== *)

Section Pages.

Lemma fold_left_filter {A B} (keep : B -> bool) (f : A -> B -> A) (l : list B) (a : A) :
  fold_left (fun acc x => if keep x then f acc x else acc) l a
  = fold_left f (List.filter keep l) a.
Proof.
  revert a. induction l as [|x l IH]; intros a; cbn [fold_left List.filter].
  - reflexivity.
  - destruct (keep x); cbn [fold_left]; apply IH.
Qed.

End Pages.

(** X24. A record [process_document] returns is the one of enhanced PDF
    processing, the one of enhanced image processing, or a record of the
    loaders: then the extension is one of the nine that have a loader, and
    the record is not enhanced and names the file and the extension. *)
Theorem X24_origin_of_a_document_record
    (W : World) (p : Path) (record : DocumentRecord) :
  LegalDocumentProcessor.process_document W p = Ok record ->
  (lower W (suffix p) = py ".pdf" /\ pdf_enhanced W p = Ok record)
  \/ (existsb (str_eqb (lower W (suffix p))) LegalDocumentProcessor.image_exts = true
      /\ image_enhanced W p = Ok record)
  \/ (strip_dots (lower W (suffix p)) ∈ map fst LegalDocumentProcessor.loader_classes
      /\ url record = name p
      /\ enhanced_processing record = false
      /\ metadata record !! py "processing_method" = Some (VStr (py "gpt_researcher"))
      /\ metadata record !! py "file_type"
         = Some (VStr (strip_dots (lower W (suffix p))))).
Proof.
  unfold LegalDocumentProcessor.process_document. intros Hrun.
  destruct (str_eqb (lower W (suffix p)) (py ".pdf")) eqn:Hpdf.
  - apply bool_decide_eq_true in Hpdf.
    unfold LegalDocumentProcessor._process_pdf_enhanced in Hrun.
    destruct (pdf_enhanced W p) as [r|e]; cbn [try_except] in Hrun.
    + left. split; [exact Hpdf | exact Hrun].
    + right. right. by apply gpt_researcher_record.
  - destruct (existsb _ LegalDocumentProcessor.image_exts) eqn:Himage.
    + unfold LegalDocumentProcessor._process_image_enhanced in Hrun.
      destruct (image_enhanced W p) as [r|e]; cbn [try_except] in Hrun.
      * right. left. split; [reflexivity | exact Hrun].
      * right. right. by apply gpt_researcher_record.
    + right. right. by apply gpt_researcher_record.
Qed.

Lemma X24_origin_of_a_document_record_witness :
  strip_dots (lower Sample.world (suffix (py "report.txt")))
    ∈ map fst LegalDocumentProcessor.loader_classes
  /\ metadata
       {| raw_content := py "report";
          url := py "report.txt";
          enhanced_processing := false;
          metadata :=
            <[py "processing_method" := VStr (py "gpt_researcher")]>
            (<[py "file_type" := VStr (py "txt")]> ∅) |} !! py "file_type"
     = Some (VStr (strip_dots (lower Sample.world (suffix (py "report.txt"))))).
Proof.
  destruct (X24_origin_of_a_document_record Sample.world (py "report.txt")
              {| raw_content := py "report";
                 url := py "report.txt";
                 enhanced_processing := false;
                 metadata :=
                   <[py "processing_method" := VStr (py "gpt_researcher")]>
                   (<[py "file_type" := VStr (py "txt")]> ∅) |})
    as [[Hext _] | [[Hext _] | (Hext & _ & _ & _ & Htype)]].
  - reflexivity.
  - vm_compute in Hext. discriminate Hext.
  - vm_compute in Hext. discriminate Hext.
  - split; [exact Hext | exact Htype].
Defined.

(** X25. Enhanced image processing has no working fall-back: no image
    extension has a loader, so when it fails for an image,
    [process_document] raises; when the loaders can be constructed the
    exception is the [ValueError] for an unsupported file type. *)
Theorem X25_failed_image_processing_raises (W : World) (p : Path) (e0 : Exception) :
  existsb (str_eqb (lower W (suffix p))) LegalDocumentProcessor.image_exts = true ->
  image_enhanced W p = Raise e0 ->
  exists e,
    LegalDocumentProcessor.process_document W p = Raise e
    /\ ((forall class, is_ok (new_loader W class p) = true) ->
        e = mkException ValueError
              (py "Unsupported file type: " ++ strip_dots (lower W (suffix p)))).
Proof.
  intros Himage Hfail.
  destruct (image_ext_has_no_loader _ Himage) as [Hpdf Hext].
  unfold LegalDocumentProcessor.process_document.
  unfold str_eqb at 1. rewrite bool_decide_eq_false_2 by exact Hpdf.
  rewrite Himage. unfold LegalDocumentProcessor._process_image_enhanced.
  rewrite Hfail. cbn [try_except]. by apply gpt_researcher_unsupported.
Qed.

Lemma X25_failed_image_processing_raises_witness :
  exists e,
    LegalDocumentProcessor.process_document Sample.world (py "scan.png") = Raise e
    /\ ((forall class, is_ok (new_loader Sample.world class (py "scan.png")) = true) ->
        e = mkException ValueError (py "Unsupported file type: png")).
Proof.
  apply (X25_failed_image_processing_raises Sample.world (py "scan.png")
           (mkException RuntimeError (py "no OCR engine"))).
  - reflexivity.
  - reflexivity.
Defined.

(** X26. The loaders of all nine extensions are constructed before the one
    for the file is looked up: when the constructor of any of them raises,
    [_process_with_gpt_researcher] raises, whatever the extension of the
    file. *)
Theorem X26_every_loader_is_constructed
    (W : World) (p : Path) (class : LoaderClass) (e : Exception) :
  class ∈ map snd LegalDocumentProcessor.loader_classes ->
  new_loader W class p = Raise e ->
  exists e', LegalDocumentProcessor._process_with_gpt_researcher W p = Raise e'.
Proof.
  intros Hin Hraise. unfold LegalDocumentProcessor._process_with_gpt_researcher.
  destruct (build_loader_dict_raises W p _ class e Hin Hraise) as [e' ->].
  cbn [bind try_except]. by eexists.
Qed.

Lemma X26_every_loader_is_constructed_witness :
  exists e',
    LegalDocumentProcessor._process_with_gpt_researcher
      Sample.without_unstructured (py "report.txt") = Raise e'.
Proof.
  apply (X26_every_loader_is_constructed Sample.without_unstructured (py "report.txt")
           UnstructuredWordDocumentLoader
           (mkException ValueError (py "unstructured package not found"))).
  - vm_compute. do 2 apply list_elem_of_further. apply list_elem_of_here.
  - reflexivity.
Defined.

(** X27. [_combine_pages] leaves out a page without content together with
    its tables: the result is that of the pages that have content. *)
Theorem X27_pages_without_content_are_left_out
    (to_string : list (gmap str Value) -> str)
    (pages_data : list LegalDocumentProcessor.PageData) :
  LegalDocumentProcessor._combine_pages to_string pages_data
  = LegalDocumentProcessor._combine_pages to_string
      (List.filter
         (fun page => negb (str_eqb (LegalDocumentProcessor.page_content page) []))
         pages_data).
Proof.
  unfold LegalDocumentProcessor._combine_pages. f_equal.
  rewrite (fold_left_filter
             (fun page => negb (str_eqb (LegalDocumentProcessor.page_content page) []))
             (fun combined_content page =>
                fold_left
                  (fun combined table =>
                     combined ++ LegalDocumentProcessor.table_lines to_string table)
                  (LegalDocumentProcessor.page_tables page)
                  (combined_content
                   ++ [py "--- Page "
                       ++ str_of_N (LegalDocumentProcessor.page_number page)
                       ++ py " ---"]
                   ++ [LegalDocumentProcessor.page_content page]))).
  symmetry.
  rewrite (fold_left_filter
             (fun page => negb (str_eqb (LegalDocumentProcessor.page_content page) []))
             (fun combined_content page =>
                fold_left
                  (fun combined table =>
                     combined ++ LegalDocumentProcessor.table_lines to_string table)
                  (LegalDocumentProcessor.page_tables page)
                  (combined_content
                   ++ [py "--- Page "
                       ++ str_of_N (LegalDocumentProcessor.page_number page)
                       ++ py " ---"]
                   ++ [LegalDocumentProcessor.page_content page]))).
  f_equal. induction pages_data as [|page pages IH]; cbn [List.filter]; [reflexivity|].
  destruct (negb _) eqn:Hkeep; cbn [List.filter]; [|exact IH].
  rewrite Hkeep. by rewrite IH.
Qed.

(* ===================================================================== *)
(** * The integration wrapper                                             *)
(* ===================================================================== *)

Section Wrapper.

Variable self : LegalDocumentEnhancement.

Lemma fallback_batch (W : World) (file_paths : list Path)
    (results : list (result DocumentRecord)) :
  fold_left
    (fun results file_path => results ++ [Ok (Integration._fallback_processing W file_path)])
    file_paths results
  = results ++ map (fun file_path => Ok (Integration._fallback_processing W file_path))
                 file_paths.
Proof.
  revert results. induction file_paths as [|file_path file_paths IH];
    intros results; cbn [fold_left map].
  - by rewrite app_nil_r.
  - by rewrite IH, <- app_assoc.
Qed.

Lemma wrapper_chunk_documents_texts (documents : list Document) :
  map Doc.page_content (Integration.chunk_documents self documents)
  = flat_map (fun doc => map Doc.page_content (Integration.chunk_document self doc))
      documents.
Proof.
  assert (Hflat : forall (f g : Document -> list Document),
            (forall doc, map Doc.page_content (f doc) = map Doc.page_content (g doc)) ->
            map Doc.page_content (flat_map f documents)
            = flat_map (fun doc => map Doc.page_content (g doc)) documents).
  { intros f g Hfg. induction documents as [|doc docs IH]; cbn [flat_map map];
      [reflexivity|]. by rewrite map_app, Hfg, IH. }
  unfold Integration.chunk_documents, Integration.chunk_document.
  destruct (chunker self) as [chunker|].
  - destruct (use_semantic_chunking self).
    + unfold Chunker.chunk_documents. rewrite fold_left_extend. cbn [app].
      apply Hflat. apply chunk_document_same_texts.
    + rewrite fold_left_extend. cbn [app]. by apply Hflat.
  - rewrite fold_left_extend. cbn [app]. by apply Hflat.
Qed.

End Wrapper.

(** X28. With enhanced processing on, a file the document processor raises
    for is treated differently alone and in a batch: [process_document] of
    the wrapper hides the failure behind the record that says the file was
    processed, and [process_documents_batch] returns the exception itself
    at the position of the file. *)
Theorem X28_wrapper_hides_a_failure_that_its_batch_returns
    (self : LegalDocumentEnhancement) (W : World) (completion : list nat)
    (file_paths : list Path) (i : nat) (file_path : Path) (e : Exception) :
  document_processor self && use_enhanced_processing self = true ->
  (forall j, (j < length file_paths)%nat -> j ∈ completion) ->
  file_paths !! i = Some file_path ->
  LegalDocumentProcessor.process_document W file_path = Raise e ->
  raw_content (Integration.process_document self W file_path)
  = py "Processed " ++ file_path ++ py " with GPT Researcher"
  /\ exists results,
       Integration.process_documents_batch self W completion file_paths = Some results
       /\ length results = length file_paths
       /\ results !! i = Some (Raise e).
Proof.
  intros Hon Hall Hi Hraise. split.
  - unfold Integration.process_document. by rewrite Hon, Hraise.
  - unfold Integration.process_documents_batch. rewrite Hon.
    rewrite document_batch_outcomes by exact Hall.
    eexists. split; [reflexivity|]. split; [by rewrite length_map|].
    change (map ?f file_paths) with (f <$> file_paths).
    by rewrite list_lookup_fmap, Hi, <- Hraise.
Qed.

Lemma X28_wrapper_hides_a_failure_that_its_batch_returns_witness :
  raw_content (Integration.process_document (Sample.enhancement true) Sample.world
                 (py "notes.xyz"))
  = py "Processed " ++ py "notes.xyz" ++ py " with GPT Researcher"
  /\ exists results,
       Integration.process_documents_batch (Sample.enhancement true) Sample.world
         [1; 0]%nat [py "report.txt"; py "notes.xyz"] = Some results
       /\ length results = 2%nat
       /\ results !! 1%nat
          = Some (Raise (mkException ValueError (py "Unsupported file type: xyz"))).
Proof.
  apply (X28_wrapper_hides_a_failure_that_its_batch_returns
           (Sample.enhancement true) Sample.world [1; 0]%nat
           [py "report.txt"; py "notes.xyz"] 1 (py "notes.xyz")
           (mkException ValueError (py "Unsupported file type: xyz"))).
  - reflexivity.
  - intros j Hj. simpl in Hj.
    destruct j as [|[|j]]; [| |lia];
      repeat (first [apply list_elem_of_here | apply list_elem_of_further]).
  - reflexivity.
  - reflexivity.
Defined.

(** X29. With enhanced processing off, the batch of the wrapper returns
    for every path, in order and whatever the completion order, the record
    [process_document] of the wrapper returns for it, which says the file
    was processed whether or not it exists. *)
Theorem X29_wrapper_without_enhanced_processing
    (self : LegalDocumentEnhancement) (W : World) (completion : list nat)
    (file_paths : list Path) :
  document_processor self && use_enhanced_processing self = false ->
  Integration.process_documents_batch self W completion file_paths
  = Some (map (fun file_path => Ok (Integration.process_document self W file_path))
            file_paths)
  /\ forall file_path,
       raw_content (Integration.process_document self W file_path)
       = py "Processed " ++ file_path ++ py " with GPT Researcher"
       /\ enhanced_processing (Integration.process_document self W file_path) = false.
Proof.
  intros Hoff. unfold Integration.process_documents_batch, Integration.process_document.
  rewrite Hoff. split; [|by intros file_path].
  by rewrite fallback_batch.
Qed.

Lemma X29_wrapper_without_enhanced_processing_witness :
  Integration.process_documents_batch (Sample.enhancement false) Sample.world []
    [py "missing.pdf"]
  = Some [Ok (Integration.process_document (Sample.enhancement false) Sample.world
                (py "missing.pdf"))].
Proof.
  apply (X29_wrapper_without_enhanced_processing (Sample.enhancement false) Sample.world
           [] [py "missing.pdf"]).
  reflexivity.
Defined.

(** X30. [chunk_documents] of the wrapper cuts every document into the
    texts that [chunk_document] of the wrapper gives for it, in the order
    of the documents, although with semantic chunking the two go through
    different methods of the chunker. *)
Theorem X30_wrapper_chunks_documents_one_by_one
    (self : LegalDocumentEnhancement) (documents : list Document) :
  map Doc.page_content (Integration.chunk_documents self documents)
  = flat_map (fun doc => map Doc.page_content (Integration.chunk_document self doc))
      documents.
Proof. apply wrapper_chunk_documents_texts. Qed.
